(** * Rule test runner: a shallow embedding of [scripts/rule_test_runner.py]

    Definitions, in the order of the Python module:

    - [PyStr]    the string operations the checks rely on ([in], [lower],
                 [split], [join], integer formatting);
    - [Re]       the regular expressions of the secret scan and of the
                 versioned-endpoint scan, with a derivative matcher and the
                 language semantics it is proved against;
    - [FS]       the project tree as [pathlib] sees it ([exists], [is_dir],
                 [read_text], [glob], [rglob]);
    - [Severity], [RuleViolation], [RuleTestResult] and the mapping from
                 rule identifiers to results;
    - [Runner]   the checks [test_01a_design_principles] ...
                 [test_09a_cicd_pipelines] and [run_all_tests];
    - [Report]   [generate_report], with the binary64 score and its [.1f]
                 rendering;
    - [Main]     [main], its writes and prints, and the exit status;
    - [Spec], [Samples]  the vocabulary of the statements and the sample
                 projects they are tried on.

    Properties follow: the shape of the runner's mapping, the exit status,
    the pass/fail policies, the behaviour on read failures, the secret
    scan, the compliance score, and what a change of listing order can and
    cannot change in a report.  A second part characterises each check
    (when it passes, what it reports, when it raises), the two kinds of
    pattern, the counts and the order of the report, and the arguments of
    [main].

    Modelling conventions.  A text is a [string]; one [ascii] stands for one
    character with code point below 256.  An uncaught Python exception is
    the [Raise] branch of [outcome]; a [try: ... except: continue] block is
    a [match] on the [option] returned by [read_text].  A directory keeps
    its entries in the order in which the operating system lists them, so
    that the order of a glob is an input of the model and not a property
    of it.  Whether a file can be written and whether a text can be printed
    are inputs as well ([Main.channels]); a write or a print that fails
    raises.  The status of a run is the argument of [sys.exit], or 1 after
    an uncaught exception.  Symbolic links, directories that cannot be
    listed, and what the interpreter does after [sys.exit] (flushing the
    standard streams) are not modelled. *)

From Stdlib Require Import List ZArith Lia Bool Ascii String Permutation.
From Stdlib Require Import DecimalString Floats Uint63 Sorted.
Import ListNotations.

Set Implicit Arguments.
#[local] Set Warnings "-register-all".

Open Scope string_scope.
Open Scope list_scope.

(* ------------------------------------------------------------------ *)
(** ** Uncaught exceptions *)

Inductive exn : Type :=
| ReadError (path : list string)   (* [Path.read_text] raised, uncaught *)
| ZeroDivisionError
| WriteError (path : string)       (* [open(path, 'w')] or [f.write] raised *)
| PrintError.                      (* [print] raised *)

Inductive outcome (A : Type) : Type :=
| Ok (a : A)
| Raise (e : exn).

Arguments Ok {A} a.
Arguments Raise {A} e.

Definition bind {A B : Type} (m : outcome A) (k : A -> outcome B) : outcome B :=
  match m with
  | Ok a => k a
  | Raise e => Raise e
  end.

Notation "x <- m ;; k" := (bind m (fun x => k))
  (at level 61, m at next level, right associativity).

(* ------------------------------------------------------------------ *)
(** ** Python strings *)

Module PyStr.

(** [needle in hay]. *)
Fixpoint str_in (needle hay : string) : bool :=
  String.prefix needle hay
  || match hay with
     | EmptyString => false
     | String _ rest => str_in needle rest
     end.

(** [any(p in content for p in patterns)]. *)
Definition any_in (patterns : list string) (content : string) : bool :=
  existsb (fun p => str_in p content) patterns.

(** [str.lower] on one character: A-Z and the upper-case letters of
    Latin-1 (all of 0xC0-0xDE but the multiplication sign). *)
Definition lower_char (c : ascii) : ascii :=
  let n := N_of_ascii c in
  if ((65 <=? n) && (n <=? 90))%N then ascii_of_N (n + 32)
  else if ((192 <=? n) && (n <=? 222) && negb (n =? 215))%N
       then ascii_of_N (n + 32)
       else c.

Fixpoint lower (s : string) : string :=
  match s with
  | EmptyString => EmptyString
  | String c rest => String (lower_char c) (lower rest)
  end.

Definition newline : ascii := ascii_of_N 10.

(** [content.split('\n')] as (first piece, later pieces); never empty. *)
Fixpoint split_nl_aux (s : string) : string * list string :=
  match s with
  | EmptyString => (EmptyString, [])
  | String c rest =>
      let (hd, tl) := split_nl_aux rest in
      if Ascii.eqb c newline then (EmptyString, hd :: tl)
      else (String c hd, tl)
  end.

Definition split_nl (s : string) : list string :=
  let (hd, tl) := split_nl_aux s in hd :: tl.

(** [enumerate(xs, start)]. *)
Fixpoint enumerate {A : Type} (start : Z) (xs : list A) : list (Z * A) :=
  match xs with
  | [] => []
  | x :: rest => (start, x) :: enumerate (start + 1) rest
  end.

(** [sep.join(parts)]. *)
Definition join (sep : string) (parts : list string) : string :=
  String.concat sep parts.

(** [str(n)] for a non-negative integer, as an f-string renders it. *)
Definition of_N (n : N) : string := NilZero.string_of_uint (N.to_uint n).

Definition of_nat (n : nat) : string := of_N (N.of_nat n).

Definition of_Z (z : Z) : string :=
  match z with
  | Zneg p => "-" ++ of_N (Npos p)
  | _ => of_N (Z.to_N z)
  end.

(** Truth value of an [Optional[str]]: [None] and [''] are false. *)
Definition truthy_str (o : option string) : bool :=
  match o with
  | Some EmptyString | None => false
  | Some _ => true
  end.

(** Truth value of an [Optional[int]]: [None] and [0] are false. *)
Definition truthy_int (o : option Z) : bool :=
  match o with
  | Some 0%Z | None => false
  | Some _ => true
  end.

End PyStr.

(* ------------------------------------------------------------------ *)
(** ** Regular expressions

    The checks call [re.search] with five patterns only.  They are written
    here as terms of [re]; [search] is [re.search] followed by the truth
    test of the returned match object. *)

Module Re.

Inductive re : Type :=
| Void
| Eps
| Cls (p : ascii -> bool)
| Cat (r1 r2 : re)
| Alt (r1 r2 : re)
| Star (r : re).

(** [r+] *)
Definition plus (r : re) : re := Cat r (Star r).

Definition any_char : re := Cls (fun _ => true).

(** A literal character, case-sensitive. *)
Definition chr (c : ascii) : re := Cls (Ascii.eqb c).

(** A literal character under [re.IGNORECASE]. *)
Definition chr_ci (c : ascii) : re :=
  Cls (fun x => Ascii.eqb (PyStr.lower_char x) (PyStr.lower_char c)).

(** A literal word under [re.IGNORECASE]. *)
Fixpoint lit_ci (w : string) : re :=
  match w with
  | EmptyString => Eps
  | String c rest => Cat (chr_ci c) (lit_ci rest)
  end.

(** [\s] on a [str] pattern: tab to carriage return, the four separators
    0x1C-0x1F, space, and in Latin-1 next-line and no-break space. *)
Definition is_space (c : ascii) : bool :=
  let n := N_of_ascii c in
  (((9 <=? n) && (n <=? 13)) || ((28 <=? n) && (n <=? 32))
   || (n =? 133) || (n =? 160))%N.

(** [\d]: the decimal digits. *)
Definition is_digit (c : ascii) : bool :=
  let n := N_of_ascii c in ((48 <=? n) && (n <=? 57))%N.

(** The class of the two quote characters, double (34) and single (39). *)
Definition is_quote (c : ascii) : bool :=
  let n := N_of_ascii c in ((n =? 34) || (n =? 39))%N.

Fixpoint nullable (r : re) : bool :=
  match r with
  | Void => false
  | Eps => true
  | Cls _ => false
  | Cat r1 r2 => nullable r1 && nullable r2
  | Alt r1 r2 => nullable r1 || nullable r2
  | Star _ => true
  end.

Fixpoint deriv (c : ascii) (r : re) : re :=
  match r with
  | Void => Void
  | Eps => Void
  | Cls p => if p c then Eps else Void
  | Cat r1 r2 =>
      if nullable r1
      then Alt (Cat (deriv c r1) r2) (deriv c r2)
      else Cat (deriv c r1) r2
  | Alt r1 r2 => Alt (deriv c r1) (deriv c r2)
  | Star r1 => Cat (deriv c r1) (Star r1)
  end.

(** The whole string is in the language of [r]. *)
Fixpoint matchb (r : re) (s : string) : bool :=
  match s with
  | EmptyString => nullable r
  | String c rest => matchb (deriv c r) rest
  end.

(** [bool(re.search(r, s))]: some substring of [s] is in the language. *)
Definition search (r : re) (s : string) : bool :=
  matchb (Cat (Star any_char) (Cat r (Star any_char))) s.

(** [kw\s*=\s*Q[^Q]+Q] compiled with [re.IGNORECASE], where [Q] stands
    for the class of the two quote characters. *)
Definition secret_assignment (kw : string) : re :=
  Cat (lit_ci kw)
   (Cat (Star (Cls is_space))
    (Cat (chr_ci "=")
     (Cat (Star (Cls is_space))
      (Cat (Cls is_quote)
       (Cat (plus (Cls (fun c => negb (is_quote c))))
            (Cls is_quote)))))).

(** [/v\d+/] *)
Definition versioned_endpoint : re :=
  Cat (chr "/") (Cat (chr "v") (Cat (plus (Cls is_digit)) (chr "/"))).

(** Every character of [s] satisfies [p]. *)
Fixpoint all_chars (p : ascii -> bool) (s : string) : bool :=
  match s with
  | EmptyString => true
  | String c rest => p c && all_chars p rest
  end.

(** Language semantics, the reference for [matchb]. *)
Inductive Matches : re -> string -> Prop :=
| MEps : Matches Eps EmptyString
| MCls p c : p c = true -> Matches (Cls p) (String c EmptyString)
| MCat r1 r2 s1 s2 :
    Matches r1 s1 -> Matches r2 s2 -> Matches (Cat r1 r2) (s1 ++ s2)
| MAltL r1 r2 s : Matches r1 s -> Matches (Alt r1 r2) s
| MAltR r1 r2 s : Matches r2 s -> Matches (Alt r1 r2) s
| MStarNil r : Matches (Star r) EmptyString
| MStarCons r s1 s2 :
    Matches r s1 -> Matches (Star r) s2 -> Matches (Star r) (s1 ++ s2).

End Re.

(* ------------------------------------------------------------------ *)
(** ** The project tree *)

Module FS.

(** A file carries what [read_text] returns for it: [Some text], or [None]
    when the read raises (no permission, bytes that do not decode).  A
    directory lists its entries in the order of [os.scandir]. *)
Inductive node : Type :=
| File (text : option string)
| Dir (entries : list (string * node)).

(** A path below the project root, as its components. *)
Definition path : Type := list string.

Fixpoint find_entry (name : string) (es : list (string * node)) : option node :=
  match es with
  | [] => None
  | (n, child) :: rest =>
      if String.eqb n name then Some child else find_entry name rest
  end.

Fixpoint lookup (t : node) (p : path) : option node :=
  match p with
  | [] => Some t
  | c :: rest =>
      match t with
      | Dir es =>
          match find_entry c es with
          | Some child => lookup child rest
          | None => None
          end
      | File _ => None
      end
  end.

(** [Path.exists] *)
Definition exists_ (t : node) (p : path) : bool :=
  match lookup t p with Some _ => true | None => false end.

(** [Path.is_dir] *)
Definition is_dir (t : node) (p : path) : bool :=
  match lookup t p with Some (Dir _) => true | _ => false end.

(** [Path.read_text]; [None] when it raises, as it does on a directory
    and on a path that does not exist. *)
Definition read_text (t : node) (p : path) : option string :=
  match lookup t p with
  | Some (File text) => text
  | _ => None
  end.

(** [fnmatch] for patterns whose only wildcard is [*]; names are compared
    case-sensitively, as on POSIX. *)
Fixpoint fnmatch (pat name : string) : bool :=
  match pat with
  | EmptyString =>
      match name with EmptyString => true | _ => false end
  | String c pat' =>
      if Ascii.eqb c "*"
      then (fix star (n : string) : bool :=
              fnmatch pat' n
              || match n with
                 | EmptyString => false
                 | String _ n' => star n'
                 end) name
      else match name with
           | EmptyString => false
           | String d name' => Ascii.eqb c d && fnmatch pat' name'
           end
  end.

(** The pattern has no wildcard. *)
Fixpoint star_free (pat : string) : bool :=
  match pat with
  | EmptyString => true
  | String c rest => negb (Ascii.eqb c "*") && star_free rest
  end.

(** The entries of one directory whose name matches, in listing order. *)
Definition matching (pat : string) (here : path) (es : list (string * node))
  : list path :=
  map (fun e => here ++ [fst e]) (filter (fun e => fnmatch pat (fst e)) es).

(** [Path.glob(pat)] for a one-component pattern; empty when the path is
    not a directory. *)
Definition glob (t : node) (p : path) (pat : string) : list path :=
  match lookup t p with
  | Some (Dir es) => matching pat p es
  | _ => []
  end.

(** The recursive walk of [Path.rglob]: the matches of a directory, then
    its sub-directories in listing order, each walked the same way. *)
Fixpoint rglob_from (pat : string) (here : path) (t : node) : list path :=
  match t with
  | File _ => []
  | Dir es =>
      matching pat here es
      ++ flat_map (fun e => rglob_from pat (here ++ [fst e]) (snd e)) es
  end.

(** [rglob] already searches every depth: a leading [**/] in its argument
    selects the same paths. *)
Definition strip_recursive (pat : string) : string :=
  if String.prefix "**/" pat
  then String.substring 3 (String.length pat - 3) pat
  else pat.

(** [project_root.rglob(pat)] *)
Definition rglob (t : node) (pat : string) : list path :=
  rglob_from (strip_recursive pat) [] t.

(** The components of a relative path written with slashes. *)
Fixpoint parts_aux (s : string) : string * list string :=
  match s with
  | EmptyString => (EmptyString, [])
  | String c rest =>
      let (hd, tl) := parts_aux rest in
      if Ascii.eqb c "/" then (EmptyString, hd :: tl)
      else (String c hd, tl)
  end.

Definition parts (s : string) : path :=
  let (hd, tl) := parts_aux s in
  filter (fun c => negb (String.eqb c "" || String.eqb c ".")) (hd :: tl).

(** [str(project_root / a / b)], with [root] the text of
    [Path(project_root)]. *)
Definition path_str (root : string) (p : path) : string :=
  match p with
  | [] => root
  | _ =>
      if String.eqb root "." then PyStr.join "/" p
      else if String.eqb root "/" || String.eqb root "//"
           then root ++ PyStr.join "/" p
           else root ++ "/" ++ PyStr.join "/" p
  end.

End FS.

(* ------------------------------------------------------------------ *)
(** ** The data model *)

Inductive Severity : Type := MUST | SHOULD | MAY.

Definition Severity_eqb (a b : Severity) : bool :=
  match a, b with
  | MUST, MUST | SHOULD, SHOULD | MAY, MAY => true
  | _, _ => false
  end.

(** [Severity.value] *)
Definition Severity_value (s : Severity) : string :=
  match s with
  | MUST => "MUST"
  | SHOULD => "SHOULD"
  | MAY => "MAY"
  end.

Module RuleViolation.
Record t : Type := mk {
  rule_id : string;
  severity : Severity;
  description : string;
  file_path : option string;
  line_number : option Z;
  suggestion : option string
}.
End RuleViolation.

Module RuleTestResult.
Record t : Type := mk {
  rule_id : string;
  passed : bool;
  violations : list RuleViolation.t;
  details : string
}.
End RuleTestResult.

(** [Dict[str, RuleTestResult]]: keys in insertion order. *)
Definition results_dict : Type := list (string * RuleTestResult.t).

(** [d[k] = v]: an existing key keeps its place, a new key goes last. *)
Fixpoint dict_set (d : results_dict) (k : string) (v : RuleTestResult.t)
  : results_dict :=
  match d with
  | [] => [(k, v)]
  | (k', v') :: rest =>
      if String.eqb k' k then (k, v) :: rest
      else (k', v') :: dict_set rest k v
  end.

(** [d.update(other)] *)
Definition dict_update (d other : results_dict) : results_dict :=
  fold_left (fun acc kv => dict_set acc (fst kv) (snd kv)) other d.

(** [d.values()] *)
Definition dict_values (d : results_dict) : list RuleTestResult.t :=
  map snd d.

(** [[v for v in violations if v.severity == Severity.MUST]] *)
Definition must_only (vs : list RuleViolation.t) : list RuleViolation.t :=
  filter (fun v => Severity_eqb (RuleViolation.severity v) MUST) vs.

(** [sum(len([v for v in r.violations if v.severity == Severity.MUST])
         for r in results.values())] *)
Definition must_violations (results : results_dict) : nat :=
  list_sum (map (fun r => List.length (must_only (RuleTestResult.violations r)))
                (dict_values results)).

(** [sum(len(r.violations) for r in results.values())] *)
Definition total_violations (results : results_dict) : nat :=
  list_sum (map (fun r => List.length (RuleTestResult.violations r))
                (dict_values results)).

(** [len([r for r in results.values() if r.passed])] *)
Definition passed_rules (results : results_dict) : nat :=
  List.length (filter RuleTestResult.passed (dict_values results)).

(* ------------------------------------------------------------------ *)
(** ** The checks *)

Module Runner.

Import FS.

(** [RuleTestRunner]: the text of [self.project_root] and the tree that
    the file system holds there. *)
Record RuleTestRunner : Type := {
  project_root : string;
  tree : node
}.

Section Checks.

Variable self : RuleTestRunner.

Let root : node := tree self.

(** [str(self.project_root / ...)] *)
Definition str_ (p : path) : string := path_str (project_root self) p.

(** [f"{label} compliance: {len(violations)} violations found"] *)
Definition details_of (label : string) (violations : list RuleViolation.t)
  : string :=
  label ++ " compliance: " ++ PyStr.of_nat (List.length violations)
        ++ " violations found".

(** [passed=len(violations) == 0] *)
Definition no_violation (violations : list RuleViolation.t) : bool :=
  Nat.eqb (List.length violations) 0.

(** [passed=len([v for v in violations if v.severity == Severity.MUST]) == 0] *)
Definition no_must_violation (violations : list RuleViolation.t) : bool :=
  Nat.eqb (List.length (must_only violations)) 0.

(** *** The [return] statement of each check

    Every check ends in [return {rule_id: RuleTestResult(rule_id=...,
    passed=..., violations=violations, details=...)}]; the statement is
    written here as a function of the local [violations], under the name
    of its method. *)

Definition return_01a (violations : list RuleViolation.t) : results_dict :=
  [("01A", RuleTestResult.mk "01A" (no_violation violations) violations
             (details_of "Design principles" violations))].

Definition return_01b (violations : list RuleViolation.t) : results_dict :=
  [("01B", RuleTestResult.mk "01B" (no_violation violations) violations
             (details_of "Runtime operations" violations))].

Definition return_02a (violations : list RuleViolation.t) : results_dict :=
  [("02A", RuleTestResult.mk "02A" (no_must_violation violations)
             violations (details_of "Container design" violations))].

Definition return_06a (violations : list RuleViolation.t) : results_dict :=
  [("06A", RuleTestResult.mk "06A" (no_violation violations) violations
             (details_of "API design" violations))].

Definition return_07a (violations : list RuleViolation.t) : results_dict :=
  [("07A", RuleTestResult.mk "07A" (no_violation violations) violations
             (details_of "Testing strategy" violations))].

Definition return_09a (violations : list RuleViolation.t) : results_dict :=
  [("09A", RuleTestResult.mk "09A" (no_must_violation violations)
             violations (details_of "CI/CD pipeline" violations))].

Definition return_03a (violations : list RuleViolation.t) : results_dict :=
  [("03A", RuleTestResult.mk "03A" (no_must_violation violations) violations
             (details_of "Authentication" violations))].

Definition return_05b (violations : list RuleViolation.t) : results_dict :=
  [("05B", RuleTestResult.mk "05B" (no_violation violations) violations
             (details_of "Secrets management" violations))].

Definition return_08b (violations : list RuleViolation.t) : results_dict :=
  [("08B", RuleTestResult.mk "08B" (no_must_violation violations) violations
             (details_of "Logging standards" violations))].

(** *** 01A *)

Definition v_01A_001 : RuleViolation.t :=
  RuleViolation.mk "01A-001" MUST "Missing OpenAPI specification file"
    None None (Some "Create docs/openapi.yaml with API specification").

Definition v_01A_002 : RuleViolation.t :=
  RuleViolation.mk "01A-002" MUST "Missing performance budget configuration"
    (Some "perf-budget.yaml") None
    (Some "Create perf-budget.yaml with SLO targets").

Definition v_01A_003 : RuleViolation.t :=
  RuleViolation.mk "01A-003" MUST
    "Missing Architecture Decision Records directory"
    (Some "docs/adr/") None
    (Some "Create docs/adr/ directory with CAP theorem analysis").

Definition test_01a_design_principles : results_dict :=
  let openapi_files :=
    rglob root "openapi.yaml" ++ rglob root "openapi.yml"
    ++ rglob root "swagger.yaml" in
  let violations :=
    (match openapi_files with [] => [v_01A_001] | _ => [] end)
    ++ (if negb (exists_ root ["perf-budget.yaml"]) then [v_01A_002] else [])
    ++ (if negb (exists_ root ["docs"; "adr"]) then [v_01A_003] else []) in
  return_01a violations.

(** *** 01B *)

Definition health_patterns : list string := ["/health"; "/healthz"; "/ready"].

Definition v_01B_001 : RuleViolation.t :=
  RuleViolation.mk "01B-001" MUST "No health check endpoints found"
    None None (Some "Implement /health and /ready endpoints").

(** The two nested loops with their [break]s compute an [any] of [any]s;
    a file whose read raises is passed over by [except: continue]. *)
Definition found_health : bool :=
  existsb
    (fun pattern =>
       existsb
         (fun file_path =>
            match read_text root file_path with
            | Some content => PyStr.any_in health_patterns content
            | None => false
            end)
         (rglob root pattern))
    ["**/*.yaml"; "**/*.yml"; "**/*.json"; "**/*.py"; "**/*.js"; "**/*.ts"].

Definition test_01b_runtime_operations : results_dict :=
  let violations := if negb found_health then [v_01B_001] else [] in
  return_01b violations.

(** *** 02A *)

Definition dockerfile_paths : list path :=
  [["Dockerfile"]; ["docker"; "Dockerfile"]; ["build"; "Dockerfile"]].

Definition v_02A_001 : RuleViolation.t :=
  RuleViolation.mk "02A-001" MUST "Missing Dockerfile"
    None None (Some "Create Dockerfile with multi-stage build").

Definition v_02A_002 (dockerfile_path : path) : RuleViolation.t :=
  RuleViolation.mk "02A-002" MUST
    "Dockerfile missing non-root USER directive"
    (Some (str_ dockerfile_path)) None
    (Some "Add USER directive to run as non-root").

Definition v_02A_003 (dockerfile_path : path) : RuleViolation.t :=
  RuleViolation.mk "02A-003" SHOULD
    "Dockerfile missing HEALTHCHECK directive"
    (Some (str_ dockerfile_path)) None
    (Some "Add HEALTHCHECK for container health monitoring").

(** The [for dockerfile_path in dockerfile_paths] loop: the first path
    that exists is read, outside any [try], and the loop ends there. *)
Fixpoint inspect_dockerfile (paths : list path)
  : outcome (list RuleViolation.t) :=
  match paths with
  | [] => Ok []
  | dockerfile_path :: rest =>
      if exists_ root dockerfile_path then
        match read_text root dockerfile_path with
        | None => Raise (ReadError dockerfile_path)
        | Some content =>
            Ok ((if negb (PyStr.str_in "USER " content)
                 then [v_02A_002 dockerfile_path] else [])
                ++ (if negb (PyStr.str_in "HEALTHCHECK" content)
                    then [v_02A_003 dockerfile_path] else []))
        end
      else inspect_dockerfile rest
  end.

Definition test_02a_container_design : outcome results_dict :=
  let dockerfile_exists := existsb (exists_ root) dockerfile_paths in
  violations <-
    (if negb dockerfile_exists then Ok [v_02A_001]
     else inspect_dockerfile dockerfile_paths) ;;
  Ok (return_02a violations).

(** *** 06A *)

Definition v_06A_001 : RuleViolation.t :=
  RuleViolation.mk "06A-001" MUST "No versioned API endpoints found"
    None None
    (Some "Implement versioned endpoints (e.g., /v1/users, /v2/orders)").

Definition test_06a_api_design : results_dict :=
  let api_files :=
    rglob root "*.py" ++ rglob root "*.js" ++ rglob root "*.ts"
    ++ rglob root "*.go" ++ rglob root "*.java" in
  let versioned_endpoints_found :=
    existsb
      (fun file_path =>
         match read_text root file_path with
         | Some content => Re.search Re.versioned_endpoint content
         | None => false
         end)
      api_files in
  let violations :=
    if negb versioned_endpoints_found then [v_06A_001] else [] in
  return_06a violations.

(** *** 07A *)

Definition v_07A_001 : RuleViolation.t :=
  RuleViolation.mk "07A-001" MUST "No test directory found"
    None None
    (Some "Create tests/ directory with unit, integration, and e2e tests").

Definition v_07A_002 : RuleViolation.t :=
  RuleViolation.mk "07A-002" MUST "No test configuration found"
    None None
    (Some "Create test configuration file (jest.config.js, pytest.ini, etc.)").

Definition test_07a_testing_strategy : results_dict :=
  let test_dirs := [["tests"]; ["test"]; ["__tests__"]; ["spec"]] in
  let test_dir_exists :=
    existsb (fun p => exists_ root p && is_dir root p) test_dirs in
  let test_configs :=
    ["jest.config.js"; "jest.config.json"; "pytest.ini"; "test.config.js";
     "vitest.config.js"] in
  let config_exists :=
    existsb (fun config => exists_ root (parts config)) test_configs in
  let violations :=
    (if negb test_dir_exists then [v_07A_001] else [])
    ++ (if negb config_exists then [v_07A_002] else []) in
  return_07a violations.

(** *** 09A *)

Definition cicd_files : list string :=
  [".github/workflows"; ".gitlab-ci.yml"; ".travis.yml";
   "azure-pipelines.yml"; "Jenkinsfile"; ".circleci/config.yml"].

Definition required_stages : list string := ["test"; "build"; "security"].

Definition v_09A_001 : RuleViolation.t :=
  RuleViolation.mk "09A-001" MUST "No CI/CD pipeline configuration found"
    None None
    (Some "Create .github/workflows/ci-cd.yml or equivalent pipeline").

Definition v_09A_002 (workflow_file : path) (missing_stages : list string)
  : RuleViolation.t :=
  RuleViolation.mk "09A-002" SHOULD
    ("Workflow missing stages: " ++ PyStr.join ", " missing_stages)
    (Some (str_ workflow_file)) None
    (Some "Add test, build, and security stages to pipeline").

(** The [for workflow_file in workflow_files] loop: every file is read,
    outside any [try]. *)
Fixpoint scan_workflows (workflow_files : list path)
  : outcome (list RuleViolation.t) :=
  match workflow_files with
  | [] => Ok []
  | workflow_file :: rest =>
      match read_text root workflow_file with
      | None => Raise (ReadError workflow_file)
      | Some content =>
          let missing_stages :=
            filter (fun stage => negb (PyStr.str_in stage (PyStr.lower content)))
                   required_stages in
          later <- scan_workflows rest ;;
          Ok ((match missing_stages with
               | [] => []
               | _ => [v_09A_002 workflow_file missing_stages]
               end) ++ later)
      end
  end.

Definition test_09a_cicd_pipelines : outcome results_dict :=
  let cicd_exists :=
    existsb (fun config => exists_ root (parts config)) cicd_files in
  let first := if negb cicd_exists then [v_09A_001] else [] in
  let gh_workflows := [".github"; "workflows"] in
  workflow_violations <-
    (if exists_ root gh_workflows then
       scan_workflows (glob root gh_workflows "*.yml"
                       ++ glob root gh_workflows "*.yaml")
     else Ok []) ;;
  let violations := first ++ workflow_violations in
  Ok (return_09a violations).

(** *** 03A *)

Definition auth_patterns : list string :=
  ["auth"; "jwt"; "oauth"; "saml"; "ldap"].

Definition v_03A_001 : RuleViolation.t :=
  RuleViolation.mk "03A-001" SHOULD "No authentication configuration found"
    None None
    (Some "Configure authentication system (JWT, OAuth2, etc.)").

Definition auth_files_found : bool :=
  existsb
    (fun pattern =>
       existsb
         (fun file_path =>
            match read_text root file_path with
            | Some text => PyStr.any_in auth_patterns (PyStr.lower text)
            | None => false
            end)
         (rglob root pattern))
    ["**/*.yaml"; "**/*.yml"; "**/*.json"; "**/*.env*"].

Definition test_03a_authentication : results_dict :=
  let violations := if negb auth_files_found then [v_03A_001] else [] in
  return_03a violations.

(** *** 05B *)

Definition secret_patterns : list Re.re :=
  [Re.secret_assignment "password"; Re.secret_assignment "api_key";
   Re.secret_assignment "secret"; Re.secret_assignment "token"].

Definition v_05B_001 (file_path : path) (i : Z) : RuleViolation.t :=
  RuleViolation.mk "05B-001" MUST "Potential hardcoded secret found"
    (Some (str_ file_path)) (Some i)
    (Some "Move secrets to environment variables or secret management system").

Definition code_files : list path :=
  rglob root "*.py" ++ rglob root "*.js" ++ rglob root "*.ts"
  ++ rglob root "*.java" ++ rglob root "*.go".

(** The violations of one line: one for each pattern found in it. *)
Definition scan_line (file_path : path) (i : Z) (line : string)
  : list RuleViolation.t :=
  flat_map
    (fun pattern =>
       if Re.search pattern line then [v_05B_001 file_path i] else [])
    secret_patterns.

(** The body of the [try]: nothing is appended when the read raises. *)
Definition scan_file (file_path : path) : list RuleViolation.t :=
  match read_text root file_path with
  | None => []
  | Some content =>
      flat_map (fun il => scan_line file_path (fst il) (snd il))
               (PyStr.enumerate 1 (PyStr.split_nl content))
  end.

Definition test_05b_secrets_management : results_dict :=
  let violations := flat_map scan_file code_files in
  return_05b violations.

(** *** 08B *)

Definition logging_configs : list string :=
  ["logging.yaml"; "logging.yml"; "log4j.properties"; "logback.xml";
   "winston.config.js"].

Definition v_08B_001 : RuleViolation.t :=
  RuleViolation.mk "08B-001" SHOULD "No logging configuration found"
    None None
    (Some "Create logging configuration with structured format").

Definition test_08b_logging_standards : results_dict :=
  let config_exists :=
    existsb (fun config => exists_ root (parts config)) logging_configs in
  let violations := if negb config_exists then [v_08B_001] else [] in
  return_08b violations.

(** *** Placeholder methods for remaining rules *)

Definition placeholder (rule label : string) : results_dict :=
  [(rule, RuleTestResult.mk rule true []
            (label ++ " compliance: 0 violations found"))].

Definition test_01c_governance := placeholder "01C" "Governance principles".
Definition test_02b_network_topology := placeholder "02B" "Network topology".
Definition test_02c_service_metadata := placeholder "02C" "Service metadata".
Definition test_03b_authorization := placeholder "03B" "Authorization".
Definition test_03c_security_encryption :=
  placeholder "03C" "Security encryption".
Definition test_04a_database_design := placeholder "04A" "Database design".
Definition test_04b_database_operations :=
  placeholder "04B" "Database operations".
Definition test_05a_environment_config :=
  placeholder "05A" "Environment config".
Definition test_06b_api_documentation := placeholder "06B" "API documentation".
Definition test_06c_api_versioning := placeholder "06C" "API versioning".
Definition test_07b_test_implementation :=
  placeholder "07B" "Test implementation".
Definition test_07c_test_automation := placeholder "07C" "Test automation".
Definition test_08a_error_handling := placeholder "08A" "Error handling".
Definition test_08c_monitoring := placeholder "08C" "Monitoring".

(** *** The runner *)

Definition run_all_tests : outcome results_dict :=
  let results := [] in
  (* Foundation Rules (01A-01C) *)
  let results := dict_update results test_01a_design_principles in
  let results := dict_update results test_01b_runtime_operations in
  let results := dict_update results test_01c_governance in
  (* Service Architecture (02A-02C) *)
  r02a <- test_02a_container_design ;;
  let results := dict_update results r02a in
  let results := dict_update results test_02b_network_topology in
  let results := dict_update results test_02c_service_metadata in
  (* Security (03A-03C) *)
  let results := dict_update results test_03a_authentication in
  let results := dict_update results test_03b_authorization in
  let results := dict_update results test_03c_security_encryption in
  (* Database (04A-04B) *)
  let results := dict_update results test_04a_database_design in
  let results := dict_update results test_04b_database_operations in
  (* Configuration (05A-05B) *)
  let results := dict_update results test_05a_environment_config in
  let results := dict_update results test_05b_secrets_management in
  (* API Design (06A-06C) *)
  let results := dict_update results test_06a_api_design in
  let results := dict_update results test_06b_api_documentation in
  let results := dict_update results test_06c_api_versioning in
  (* Testing (07A-07C) *)
  let results := dict_update results test_07a_testing_strategy in
  let results := dict_update results test_07b_test_implementation in
  let results := dict_update results test_07c_test_automation in
  (* Observability (08A-08C) *)
  let results := dict_update results test_08a_error_handling in
  let results := dict_update results test_08b_logging_standards in
  let results := dict_update results test_08c_monitoring in
  (* CI/CD (09A) *)
  r09a <- test_09a_cicd_pipelines ;;
  Ok (dict_update results r09a).

End Checks.

End Runner.

(* ------------------------------------------------------------------ *)
(** ** The report *)

Module Report.

#[local] Open Scope string_scope.

Definition nl : string := String PyStr.newline EmptyString.

(** The decorative marks of the report, as the source file spells them. *)
Definition mark_pass : string := "âœ…".
Definition mark_fail : string := "âŒ".
Definition mark_suggestion : string := "ðŸ’¡".
Definition mark_critical : string := "ðŸš¨".
Definition mark_important : string := "âš ï¸".
Definition mark_excellent : string := "ðŸŽ‰".

(** [float(n)] for an [int] below 2^53. *)
Definition py_float (n : nat) : float :=
  PrimFloat.of_uint63 (Uint63.of_Z (Z.of_nat n)).

(** [passed_rules / total_rules * 100] in binary64; the division raises
    on an empty mapping. *)
Definition compliance_score (passed total : nat) : outcome float :=
  match total with
  | O => Raise ZeroDivisionError
  | _ => Ok (PrimFloat.mul (PrimFloat.div (py_float passed) (py_float total))
                           (py_float 100))
  end.

(** The nearest integer to [num / den], ties to even ([den > 0]). *)
Definition round_half_even (num den : Z) : Z :=
  let q := (num / den)%Z in
  let r := (num mod den)%Z in
  match (2 * r ?= den)%Z with
  | Lt => q
  | Gt => (q + 1)%Z
  | Eq => if Z.even q then q else (q + 1)%Z
  end.

(** The absolute value of a finite binary64 number in tenths, rounded as
    the [.1f] conversion rounds: correctly, from the exact binary value. *)
Definition tenths_of_finite (m : positive) (e : Z) : Z :=
  if (0 <=? e)%Z then (Zpos m * 10 * 2 ^ e)%Z
  else round_half_even (Zpos m * 10) (2 ^ (- e)).

Definition render_tenths (negative : bool) (t : Z) : string :=
  (if negative then "-" else "") ++ PyStr.of_Z (t / 10) ++ "."
  ++ PyStr.of_Z (t mod 10).

(** [f"{x:.1f}"] *)
Definition format_1f (x : float) : string :=
  match Prim2SF x with
  | S754_zero s => render_tenths s 0
  | S754_finite s m e => render_tenths s (tenths_of_finite m e)
  | S754_infinity s => (if s then "-" else "") ++ "inf"
  | S754_nan => "nan"
  end.

(** [sorted(results.items())]: the keys of a mapping are distinct, so the
    order of the pairs is the order of their keys. *)
Fixpoint insert_sorted (kv : string * RuleTestResult.t) (l : results_dict)
  : results_dict :=
  match l with
  | [] => [kv]
  | kv' :: rest =>
      if String.ltb (fst kv) (fst kv') then kv :: l
      else kv' :: insert_sorted kv rest
  end.

Definition sorted_items (results : results_dict) : results_dict :=
  fold_right insert_sorted [] results.

Definition render_violation (violation : RuleViolation.t) : string :=
  "- [" ++ Severity_value (RuleViolation.severity violation) ++ "] "
  ++ RuleViolation.description violation
  ++ (match RuleViolation.file_path violation with
      | Some fp =>
          if PyStr.truthy_str (Some fp) then
            " (" ++ fp
            ++ (match RuleViolation.line_number violation with
                | Some i =>
                    if PyStr.truthy_int (Some i) then ":" ++ PyStr.of_Z i
                    else ""
                | None => ""
                end)
            ++ ")"
          else ""
      | None => ""
      end)
  ++ (match RuleViolation.suggestion violation with
      | Some text =>
          if PyStr.truthy_str (Some text)
          then nl ++ "  " ++ mark_suggestion ++ " " ++ text
          else ""
      | None => ""
      end)
  ++ nl.

Definition render_rule (item : string * RuleTestResult.t) : string :=
  let (rule_id, result) := item in
  let status :=
    if RuleTestResult.passed result then mark_pass ++ " PASS"
    else mark_fail ++ " FAIL" in
  "### " ++ rule_id ++ ": " ++ status ++ nl
  ++ RuleTestResult.details result ++ nl ++ nl
  ++ (match RuleTestResult.violations result with
      | [] => ""
      | vs =>
          "**Violations:**" ++ nl
          ++ String.concat "" (map render_violation vs) ++ nl
      end).

Definition recommendations (total must : nat) : string :=
  nl ++ "## Recommendations" ++ nl
  ++ (if Nat.ltb 0 must
      then mark_critical ++ " **Critical**: Fix " ++ PyStr.of_nat must
           ++ " MUST violations immediately." ++ nl
      else "")
  ++ (if Nat.ltb must total
      then mark_important ++ " **Important**: Address "
           ++ PyStr.of_nat (total - must)
           ++ " SHOULD violations for best practices." ++ nl
      else "")
  ++ (if Nat.eqb total 0
      then mark_excellent ++ " **Excellent**: All rules are compliant!" ++ nl
      else "").

(** The f-string that opens the report. *)
Definition summary (total_rules passed total must : nat) (score : float)
  : string :=
  nl ++ "# Universal Rules Compliance Report" ++ nl
  ++ nl ++ "## Summary" ++ nl
  ++ "- **Total Rules Tested**: " ++ PyStr.of_nat total_rules ++ nl
  ++ "- **Rules Passed**: " ++ PyStr.of_nat passed ++ nl
  ++ "- **Rules Failed**: " ++ PyStr.of_nat (total_rules - passed) ++ nl
  ++ "- **Total Violations**: " ++ PyStr.of_nat total ++ nl
  ++ "- **MUST Violations**: " ++ PyStr.of_nat must ++ nl
  ++ "- **Compliance Score**: " ++ format_1f score ++ "%" ++ nl
  ++ nl ++ "## Detailed Results" ++ nl ++ nl.

Definition generate_report (results : results_dict) : outcome string :=
  let total_rules := List.length results in
  let passed := passed_rules results in
  let total := total_violations results in
  let must := must_violations results in
  score <- compliance_score passed total_rules ;;
  Ok (summary total_rules passed total must score
      ++ String.concat "" (map render_rule (sorted_items results))
      ++ recommendations total must).

End Report.

(* ------------------------------------------------------------------ *)
(** ** The entry point *)

Module Main.

#[local] Open Scope string_scope.

(** The root of [Path(s)]: exactly two leading slashes are kept, any
    other run of leading slashes is one slash. *)
Definition anchor (s : string) : string :=
  if String.prefix "//" s && negb (String.prefix "///" s) then "//"
  else if String.prefix "/" s then "/"
  else "".

(** [str(Path(s))]: empty and [.] components are dropped. *)
Definition normalize (s : string) : string :=
  match FS.parts s with
  | [] => if String.eqb (anchor s) "" then "." else anchor s
  | ps => anchor s ++ PyStr.join "/" ps
  end.

(** What the operating system answers when the program writes:
    [can_write path text] when [open(path, 'w')] and [f.write(text)]
    return, [can_print text] when [print(text)] returns. *)
Record channels : Type := {
  can_write : string -> string -> bool;
  can_print : string -> bool
}.

(** [with open(path, 'w') as f: f.write(text)] *)
Definition write_file (io : channels) (path text : string)
  : outcome (string * string) :=
  if can_write io path text then Ok (path, text)
  else Raise (WriteError path).

(** [print(text)]: the text and a newline reach standard output. *)
Definition print (io : channels) (text : string) : outcome string :=
  if can_print io text then Ok (text ++ Report.nl) else Raise PrintError.

(** What a run that reaches [sys.exit] leaves behind: the text printed,
    the file written if any, and the status passed to [sys.exit]. *)
Record process : Type := {
  stdout : string;
  written : option (string * string);
  exit_code : Z
}.

(** [1 if must_violations > 0 else 0] *)
Definition exit_status (results : results_dict) : Z :=
  if Nat.ltb 0 (must_violations results) then 1%Z else 0%Z.

(** [main], with [argv] for [sys.argv], [disk] giving the tree found at
    a path and [io] the answers to its writes. *)
Definition main (argv : list string) (disk : string -> FS.node)
  (io : channels) : outcome process :=
  let project_root :=
    match nth_error argv 1 with Some a => a | None => "." end in
  let output_file := nth_error argv 2 in
  let runner :=
    {| Runner.project_root := normalize project_root;
       Runner.tree := disk project_root |} in
  results <- Runner.run_all_tests runner ;;
  report <- Report.generate_report results ;;
  out <- match output_file with
         | Some f =>
             if PyStr.truthy_str (Some f) then
               file <- write_file io f report ;;
               line <- print io ("Compliance report written to " ++ f) ;;
               Ok (line, Some file)
             else
               text <- print io report ;; Ok (text, None)
         | None =>
             text <- print io report ;; Ok (text, None)
         end ;;
  Ok {| stdout := fst out; written := snd out;
        exit_code := exit_status results |}.

(** The status the interpreter ends with: the argument of [sys.exit], or
    1 when an exception was not caught. *)
Definition status (o : outcome process) : Z :=
  match o with
  | Ok p => exit_code p
  | Raise _ => 1%Z
  end.

End Main.

(* ------------------------------------------------------------------ *)
(** ** Vocabulary of the statements *)

Module Spec.

Import FS.

(** The rule identifiers in the order in which [run_all_tests] registers
    them. *)
Definition rule_ids : list string :=
  ["01A"; "01B"; "01C"; "02A"; "02B"; "02C"; "03A"; "03B"; "03C";
   "04A"; "04B"; "05A"; "05B"; "06A"; "06B"; "06C"; "07A"; "07B"; "07C";
   "08A"; "08B"; "08C"; "09A"].

Section All.

Variables (A : Type) (P : A -> Prop).

(** [P] holds of every element. *)
Fixpoint All (l : list A) : Prop :=
  match l with
  | [] => True
  | x :: rest => P x /\ All rest
  end.

End All.

(** The extensions of the files that 05B and 06A scan. *)
Definition source_extensions : list string :=
  [".py"; ".js"; ".ts"; ".java"; ".go"].

(** [results[key]] *)
Fixpoint dict_get (d : results_dict) (key : string)
  : option RuleTestResult.t :=
  match d with
  | [] => None
  | (k, r) :: rest => if String.eqb k key then Some r else dict_get rest key
  end.

(** A check's mapping holds one result, under [key], whose [passed] flag
    is [policy] of its violations. *)
Definition policy_is (policy : list RuleViolation.t -> bool) (key : string)
  (d : results_dict) : Prop :=
  exists r, d = [(key, r)]
            /\ RuleTestResult.rule_id r = key
            /\ RuleTestResult.passed r = policy (RuleTestResult.violations r).

(** The violation has severity MUST. *)
Definition is_must (v : RuleViolation.t) : bool :=
  match RuleViolation.severity v with
  | MUST => true
  | SHOULD | MAY => false
  end.

(** The count of MUST-severity violations of a list. *)
Fixpoint count_must (vs : list RuleViolation.t) : nat :=
  match vs with
  | [] => 0
  | v :: rest => (if is_must v then 1 else 0) + count_must rest
  end.

(** The policy (count of MUST-severity violations == 0). *)
Definition must_free (vs : list RuleViolation.t) : bool :=
  Nat.eqb (count_must vs) 0.

(** The policy (total violation count == 0). *)
Definition violation_free (vs : list RuleViolation.t) : bool :=
  match vs with
  | [] => true
  | _ :: _ => false
  end.

(** A [return] statement stores, for every list of violations it is
    given, one result under [key] that holds these violations and whose
    [passed] flag is [policy] of them. *)
Definition returns_with (policy : list RuleViolation.t -> bool)
  (key : string) (ret : list RuleViolation.t -> results_dict) : Prop :=
  forall vs,
    exists r, ret vs = [(key, r)]
              /\ RuleTestResult.rule_id r = key
              /\ RuleTestResult.violations r = vs
              /\ RuleTestResult.passed r = policy vs.

(** The total count of MUST-severity violations across all rules of a
    mapping. *)
Definition total_must (results : results_dict) : nat :=
  list_sum (map (fun kv => count_must (RuleTestResult.violations (snd kv)))
                results).

(** The MUST violations of a mapping, rule by rule. *)
Definition must_part (results : results_dict) : list (list RuleViolation.t) :=
  map (fun kv => filter is_must (RuleTestResult.violations (snd kv))) results.

(** The exit code the specification gives a mapping. *)
Definition exit_code_rule (results : results_dict) : Z :=
  if Nat.eqb (total_must results) 0 then 0%Z else 1%Z.

(** The report reaches its destination: the output file named by a third
    argument that is not empty takes it and the confirmation line can be
    printed, or else the report itself can be printed. *)
Definition delivered (argv : list string) (io : Main.channels)
  (report : string) : bool :=
  match nth_error argv 2 with
  | Some (String c f) =>
      Main.can_write io (String c f) report
      && Main.can_print io ("Compliance report written to " ++ String c f)
  | Some EmptyString | None => Main.can_print io report
  end.

(** A space or a tab. *)
Definition is_blank (c : ascii) : bool :=
  Ascii.eqb c " " || Ascii.eqb c (ascii_of_N 9).

Fixpoint strip_blanks (line : string) : string :=
  match line with
  | EmptyString => EmptyString
  | String c rest => if is_blank c then strip_blanks rest else line
  end.

Fixpoint first_word (line : string) : string :=
  match line with
  | EmptyString => EmptyString
  | String c rest => if is_blank c then EmptyString
                     else String c (first_word rest)
  end.

(** The Dockerfile text has a directive of that name: a line whose first
    word is the name, in upper or lower case. *)
Definition has_directive (name content : string) : bool :=
  existsb (fun line =>
             String.eqb (PyStr.lower (first_word (strip_blanks line)))
                        (PyStr.lower name))
          (PyStr.split_nl content).

(** [t / 10] is [num / den] rounded to one decimal place ([den > 0]). *)
Definition rounded_to_tenths (num den t : Z) : Prop :=
  (2 * Z.abs (10 * num - den * t) <= den)%Z.

(** A nearest multiple of one tenth to [num / den], in tenths. *)
Definition nearest_tenths (num den : Z) : Z :=
  ((20 * num + den) / (2 * den))%Z.

(** The first candidate path that exists. *)
Definition first_existing (t : node) (candidates : list path) : option path :=
  find (exists_ t) candidates.

(** The Dockerfile that 02A reads, if there is one, can be read. *)
Definition dockerfile_readable (t : node) : bool :=
  match first_existing t Runner.dockerfile_paths with
  | Some p => match read_text t p with Some _ => true | None => false end
  | None => true
  end.

(** Every workflow file that 09A reads can be read. *)
Definition workflows_readable (t : node) : bool :=
  forallb
    (fun p => match read_text t p with Some _ => true | None => false end)
    (glob t [".github"; "workflows"] "*.yml"
     ++ glob t [".github"; "workflows"] "*.yaml").

(** No directory lists a name twice. *)
Fixpoint well_formed (t : node) : Prop :=
  match t with
  | File _ => True
  | Dir es =>
      NoDup (map fst es) /\ All (fun e => well_formed (snd e)) es
  end.

(** The same tree up to the order in which directories list their
    entries. *)
Inductive same_contents : node -> node -> Prop :=
| sc_file text : same_contents (File text) (File text)
| sc_dir es es' : same_entries es es' -> same_contents (Dir es) (Dir es')
with same_entries : list (string * node) -> list (string * node) -> Prop :=
| se_nil : same_entries [] []
| se_skip name a b es es' :
    same_contents a b -> same_entries es es' ->
    same_entries ((name, a) :: es) ((name, b) :: es')
| se_swap x y es : same_entries (x :: y :: es) (y :: x :: es)
| se_trans es1 es2 es3 :
    same_entries es1 es2 -> same_entries es2 es3 -> same_entries es1 es3.

Scheme same_contents_min := Minimality for same_contents Sort Prop
  with same_entries_min := Minimality for same_entries Sort Prop.

Combined Scheme same_contents_entries_ind
  from same_contents_min, same_entries_min.

(** What two lookups of one path find, in two listings of one tree. *)
Definition same_found (a b : option node) : Prop :=
  match a, b with
  | Some n, Some n' => same_contents n n'
  | None, None => True
  | _, _ => False
  end.

(** The two trees answer [exists], [is_dir] and [read_text] alike. *)
Definition same_answers (t t' : node) : Prop :=
  forall p,
    exists_ t p = exists_ t' p
    /\ is_dir t p = is_dir t' p
    /\ read_text t p = read_text t' p.

(** Two results that differ at most in the order of their violations. *)
Definition same_result (r r' : RuleTestResult.t) : Prop :=
  RuleTestResult.rule_id r = RuleTestResult.rule_id r'
  /\ RuleTestResult.passed r = RuleTestResult.passed r'
  /\ RuleTestResult.details r = RuleTestResult.details r'
  /\ Permutation (RuleTestResult.violations r) (RuleTestResult.violations r').

(** Two mappings with the same keys in the same order and results that
    differ at most in the order of their violations. *)
Definition same_results (d d' : results_dict) : Prop :=
  Forall2 (fun kv kv' => fst kv = fst kv' /\ same_result (snd kv) (snd kv'))
          d d'.

(** Two runs that end the same way, up to the order of violations. *)
Definition same_outcome (o o' : outcome results_dict) : Prop :=
  match o, o' with
  | Ok d, Ok d' => same_results d d'
  | Raise _, Raise _ => True
  | _, _ => False
  end.

(** Two mappings that give the summary of the report the same counts. *)
Definition same_summary (d d' : results_dict) : Prop :=
  List.length d = List.length d'
  /\ passed_rules d = passed_rules d'
  /\ total_violations d = total_violations d'
  /\ must_violations d = must_violations d'.

(** Two violation scans that end the same way, up to order. *)
Definition same_scan (o o' : outcome (list RuleViolation.t)) : Prop :=
  match o, o' with
  | Ok vs, Ok vs' => Permutation vs vs'
  | Raise _, Raise _ => True
  | _, _ => False
  end.

(** The entries that a report gives a list of violations, one after the
    other. *)
Definition violation_entries (vs : list RuleViolation.t) : string :=
  String.concat "" (map Report.render_violation vs).

(** The runner that [main] builds from its arguments. *)
Definition runner_of (argv : list string) (disk : string -> node)
  : Runner.RuleTestRunner :=
  let project_root :=
    match nth_error argv 1 with Some a => a | None => "." end in
  {| Runner.project_root := Main.normalize project_root;
     Runner.tree := disk project_root |}.

(** The empty project directory. *)
Definition empty_project : Runner.RuleTestRunner :=
  {| Runner.project_root := "."; Runner.tree := Dir [] |}.

(** Some path of the tree whose last component matches one of the glob
    patterns can be read, and its text satisfies [good]. *)
Definition some_readable (t : node) (pats : list string)
  (good : string -> bool) : Prop :=
  exists pat dir name content,
    In pat pats
    /\ fnmatch pat name = true
    /\ read_text t (dir ++ [name]) = Some content
    /\ good content = true.

(** The text holds a secret assignment on one of its lines. *)
Definition has_secret_line (content : string) : bool :=
  existsb (fun line =>
             existsb (fun pattern => Re.search pattern line)
                     Runner.secret_patterns)
          (PyStr.split_nl content).

(** The keys of a mapping ascend. *)
Definition keys_ascending (d : results_dict) : Prop :=
  StronglySorted (fun kv kv' => String.leb (fst kv) (fst kv') = true) d.

(** The number of violations of a mapping that are not MUST. *)
Definition other_violations (results : results_dict) : nat :=
  list_sum
    (map (fun r =>
            List.length
              (filter (fun v => negb (Severity_eqb (RuleViolation.severity v)
                                                   MUST))
                      (RuleTestResult.violations r)))
         (dict_values results)).

(** [bool(l)] for a list. *)
Definition nonempty (A : Type) (l : list A) : bool :=
  match l with [] => false | _ => true end.

(** The workflow files that 09A reads, in the order it reads them. *)
Definition workflow_files (t : node) : list path :=
  glob t [".github"; "workflows"] "*.yml"
  ++ glob t [".github"; "workflows"] "*.yaml".

(** What every result of the runner satisfies: it carries its key, its
    flag says that it has no MUST violation, each of its violations is
    MUST or SHOULD and is numbered under the rule, and its details line
    counts its violations. *)
Definition sound_result (key : string) (r : RuleTestResult.t) : Prop :=
  RuleTestResult.rule_id r = key
  /\ RuleTestResult.passed r
     = Runner.no_must_violation (RuleTestResult.violations r)
  /\ Forall (fun v =>
               (RuleViolation.severity v = MUST
                \/ RuleViolation.severity v = SHOULD)
               /\ String.prefix (key ++ "-") (RuleViolation.rule_id v) = true)
            (RuleTestResult.violations r)
  /\ exists label,
       RuleTestResult.details r
       = Runner.details_of label (RuleTestResult.violations r).

Definition sound_results (d : results_dict) : Prop :=
  Forall (fun kv => sound_result (fst kv) (snd kv)) d.

End Spec.

(* ------------------------------------------------------------------ *)
(** ** Sample projects *)

Module Samples.

Import FS.

(** A project whose [Dockerfile] cannot be read (a directory of that
    name). *)
Definition dockerfile_unreadable : node :=
  Dir [("Dockerfile", Dir [])].

(** A project with one workflow file, which cannot be read. *)
Definition workflow_unreadable : node :=
  Dir [(".github", Dir [("workflows", Dir [("ci.yml", File None)])])].

(** A project where the two pass/fail policies part: a Dockerfile with a
    USER directive and no HEALTHCHECK. *)
Definition dockerfile_without_healthcheck : node :=
  Dir [("Dockerfile", File (Some "FROM scratch
USER app
"))].

(** A Dockerfile with neither a USER nor a HEALTHCHECK directive, whose
    text names both: in a variable and in a remark. *)
Definition dockerfile_naming_directives : node :=
  Dir [("Dockerfile", File (Some "FROM scratch
ENV DB_USER admin
# HEALTHCHECK comes later
"))].

(** Three Dockerfile candidates: the first lacks both directives, the
    second has both, the third cannot be read. *)
Definition three_dockerfiles : node :=
  Dir [("build", Dir [("Dockerfile", File None)]);
       ("docker", Dir [("Dockerfile", File (Some "FROM scratch
USER app
HEALTHCHECK CMD true
"))]);
       ("Dockerfile", File (Some "FROM scratch
RUN true
"))].

(** A source file with a password assignment on its second line, next to
    a file that cannot be read. *)
Definition project_with_secret : node :=
  Dir [("src", Dir [("broken.py", File None);
                    ("app.py", File (Some "import os
PASSWORD = 'hunter2'
"))])].

(** Two listings of one project: the same two files, each with a secret,
    in the two possible orders. *)
Definition listing_ab : node :=
  Dir [("a.py", File (Some "token = 'x'"));
       ("b.py", File (Some "token = 'y'"))].

Definition listing_ba : node :=
  Dir [("b.py", File (Some "token = 'y'"));
       ("a.py", File (Some "token = 'x'"))].

(** The scenario of a project that holds one workflow naming the test
    and build stages only. *)
Definition workflow_without_security : node :=
  Dir [(".github",
        Dir [("workflows", Dir [("ci.yml", File (Some "jobs:
  Test: {}
  build: {}
"))])])].

(** A project that meets every MUST rule and leaves the two SHOULD rules
    03A and 08B unmet. *)
Definition must_compliant : node :=
  Dir [("openapi.yaml", File (Some "paths:
  /health: {}
"));
       ("perf-budget.yaml", File (Some "p99: 200ms"));
       ("docs", Dir [("adr", Dir [])]);
       ("Dockerfile", File (Some "FROM scratch
USER app
HEALTHCHECK CMD true
"));
       ("app.py", File (Some "ROUTE = '/v1/users'"));
       ("tests", Dir []);
       ("pytest.ini", File (Some ""));
       (".gitlab-ci.yml", File (Some "stages: []"))].

(** Every write and every print succeeds. *)
Definition every_write_succeeds : Main.channels :=
  {| Main.can_write := fun _ _ => true; Main.can_print := fun _ => true |}.

(** No file can be written; printing succeeds. *)
Definition no_file_can_be_written : Main.channels :=
  {| Main.can_write := fun _ _ => false; Main.can_print := fun _ => true |}.

(** Nothing can be printed. *)
Definition nothing_can_be_printed : Main.channels :=
  {| Main.can_write := fun _ _ => true; Main.can_print := fun _ => false |}.

End Samples.

(* ================================================================== *)
(** * Properties *)

Import Spec Samples.

(* ------------------------------------------------------------------ *)
(** ** Mappings *)

Lemma Ok_inj (A : Type) (a b : A) : Ok a = Ok b -> a = b.
Proof. now intros [= ->]. Qed.

Lemma dict_update_single (d : results_dict) k r :
  dict_update d [(k, r)] = dict_set d k r.
Proof. reflexivity. Qed.

Lemma dict_set_fresh (d : results_dict) k r :
  ~ In k (map fst d) -> dict_set d k r = d ++ [(k, r)].
Proof.
  induction d as [|[k' r'] d IH]; simpl; intros Hk.
  - reflexivity.
  - destruct (String.eqb_spec k' k) as [->|Hne].
    + exfalso. apply Hk. now left.
    + f_equal. apply IH. intros Hin. apply Hk. now right.
Qed.

Lemma passed_rules_le (d : results_dict) :
  passed_rules d <= List.length d.
Proof.
  unfold passed_rules, dict_values.
  rewrite <- (length_map snd d). apply filter_length_le.
Qed.

(* ------------------------------------------------------------------ *)
(** ** The shape of the runner's mapping *)

Section RunnerShape.

Import Runner.

Variable self : RuleTestRunner.

Lemma test_02a_single d :
  test_02a_container_design self = Ok d ->
  policy_is no_must_violation "02A" d.
Proof.
  unfold test_02a_container_design, bind.
  destruct (if negb _ then _ else _) as [vs|e]; [|discriminate].
  intros [= <-]. eexists. repeat split.
Qed.

Lemma test_09a_single d :
  test_09a_cicd_pipelines self = Ok d ->
  policy_is no_must_violation "09A" d.
Proof.
  unfold test_09a_cicd_pipelines, bind.
  destruct (if FS.exists_ _ _ then _ else _) as [vs|e]; [|discriminate].
  intros [= <-]. eexists. repeat split.
Qed.

Lemma test_02a_returns d :
  test_02a_container_design self = Ok d -> exists vs, d = return_02a vs.
Proof.
  unfold test_02a_container_design, bind.
  destruct (if negb _ then _ else _) as [vs|e]; [|discriminate].
  intros H. apply Ok_inj in H. exists vs. now symmetry.
Qed.

Lemma test_09a_returns d :
  test_09a_cicd_pipelines self = Ok d -> exists vs, d = return_09a vs.
Proof.
  unfold test_09a_cicd_pipelines, bind.
  destruct (if FS.exists_ _ _ then _ else _) as [vs|e]; [|discriminate].
  intros H. apply Ok_inj in H. eexists. symmetry. exact H.
Qed.

(** The updates of [run_all_tests] add one fresh key each: the mapping is
    the concatenation of the checks' mappings, in registration order. *)
Lemma run_all_tests_concat d02a d09a :
  test_02a_container_design self = Ok d02a ->
  test_09a_cicd_pipelines self = Ok d09a ->
  run_all_tests self =
  Ok (test_01a_design_principles self ++ test_01b_runtime_operations self
      ++ test_01c_governance ++ d02a ++ test_02b_network_topology
      ++ test_02c_service_metadata ++ test_03a_authentication self
      ++ test_03b_authorization ++ test_03c_security_encryption
      ++ test_04a_database_design ++ test_04b_database_operations
      ++ test_05a_environment_config ++ test_05b_secrets_management self
      ++ test_06a_api_design self ++ test_06b_api_documentation
      ++ test_06c_api_versioning ++ test_07a_testing_strategy self
      ++ test_07b_test_implementation ++ test_07c_test_automation
      ++ test_08a_error_handling ++ test_08b_logging_standards self
      ++ test_08c_monitoring ++ d09a).
Proof.
  intros H2 H9. unfold run_all_tests. rewrite H2, H9.
  destruct (test_02a_single H2) as (r2 & -> & _).
  destruct (test_09a_single H9) as (r9 & -> & _).
  reflexivity.
Qed.

Lemma run_all_tests_raise_02a e :
  test_02a_container_design self = Raise e -> run_all_tests self = Raise e.
Proof. intros H. unfold run_all_tests. now rewrite H. Qed.

Lemma run_all_tests_raise_09a d e :
  test_02a_container_design self = Ok d ->
  test_09a_cicd_pipelines self = Raise e -> run_all_tests self = Raise e.
Proof. intros H2 H9. unfold run_all_tests. now rewrite H2, H9. Qed.

Lemma run_all_tests_keys results :
  run_all_tests self = Ok results ->
  map fst results = rule_ids
  /\ Forall (fun kv => RuleTestResult.rule_id (snd kv) = fst kv) results.
Proof.
  intros H.
  destruct (test_02a_container_design self) as [d2|e] eqn:H2;
    [|rewrite (run_all_tests_raise_02a H2) in H; discriminate].
  destruct (test_09a_cicd_pipelines self) as [d9|e] eqn:H9;
    [|rewrite (run_all_tests_raise_09a H2 H9) in H; discriminate].
  rewrite (run_all_tests_concat H2 H9) in H. injection H as <-.
  destruct (test_02a_single H2) as (r2 & -> & E2 & _).
  destruct (test_09a_single H9) as (r9 & -> & E9 & _).
  split; [reflexivity|].
  repeat (constructor; [first [reflexivity | assumption]|]). constructor.
Qed.

End RunnerShape.

(* ------------------------------------------------------------------ *)
(** ** Authentication (03A) *)

(** C10.  Whatever the project holds, the authentication check returns
    one result, keyed 03A, that has [passed = true]: its violations are
    none or the single SHOULD violation 03A-001, and [passed] counts MUST
    violations only. *)
Theorem test_03a_always_passes (self : Runner.RuleTestRunner) :
  exists r,
    Runner.test_03a_authentication self = [("03A", r)]
    /\ RuleTestResult.passed r = true
    /\ RuleTestResult.passed r
       = Runner.no_must_violation (RuleTestResult.violations r)
    /\ (RuleTestResult.violations r = []
        \/ RuleTestResult.violations r = [Runner.v_03A_001])
    /\ Forall (fun v => RuleViolation.severity v = SHOULD
                        /\ RuleViolation.rule_id v = "03A-001")
              (RuleTestResult.violations r).
Proof.
  unfold Runner.test_03a_authentication.
  eexists. split; [reflexivity|]. cbn [RuleTestResult.passed RuleTestResult.violations].
  destruct (Runner.auth_files_found self); cbn;
    repeat split; auto; repeat constructor.
Qed.

(* ------------------------------------------------------------------ *)
(** ** The compliance score *)

Lemma compliance_score_of_23 (p : nat) :
  p <= 23 ->
  exists x,
    Report.compliance_score p 23 = Ok x
    /\ Report.format_1f x
       = Report.render_tenths false (nearest_tenths (100 * Z.of_nat p) 23)
    /\ rounded_to_tenths (100 * Z.of_nat p) 23
                         (nearest_tenths (100 * Z.of_nat p) 23).
Proof.
  intros Hp.
  do 24 (destruct p as [|p];
         [eexists; split; [reflexivity|];
          split; [vm_compute; reflexivity | vm_compute; discriminate]|]).
  lia.
Qed.

(** C8, as the code has it.  For every run that completes, the mapping
    has 23 entries and the score printed in the summary is the number of
    rules with [passed = true] divided by 23, times 100, rounded to one
    decimal place; the binary64 arithmetic of the program and the [.1f]
    conversion give exactly that decimal. *)
Theorem compliance_score_over_23 (self : Runner.RuleTestRunner) results :
  Runner.run_all_tests self = Ok results ->
  exists x rest,
    List.length results = 23
    /\ Report.compliance_score (passed_rules results) (List.length results)
       = Ok x
    /\ Report.generate_report results
       = Ok (Report.summary 23 (passed_rules results)
               (total_violations results) (must_violations results) x
             ++ rest)%string
    /\ Report.format_1f x
       = Report.render_tenths false
           (nearest_tenths (100 * Z.of_nat (passed_rules results)) 23)
    /\ rounded_to_tenths (100 * Z.of_nat (passed_rules results)) 23
         (nearest_tenths (100 * Z.of_nat (passed_rules results)) 23).
Proof.
  intros H.
  assert (Hlen : List.length results = 23).
  { destruct (run_all_tests_keys self H) as [Hk _].
    rewrite <- (length_map fst), Hk. reflexivity. }
  pose proof (passed_rules_le results) as Hle. rewrite Hlen in Hle.
  destruct (compliance_score_of_23 Hle) as (x & Hx & Hfmt & Hr).
  exists x. eexists. rewrite Hlen.
  split; [reflexivity|]. split; [exact Hx|]. split; [|now split].
  unfold Report.generate_report. rewrite Hlen, Hx. reflexivity.
Qed.

Lemma compliance_score_over_23_witness :
  exists results,
    Runner.run_all_tests empty_project = Ok results
    /\ exists x,
         Report.compliance_score (passed_rules results) (List.length results)
         = Ok x
         /\ Report.format_1f x = "73.9".
Proof.
  destruct (@compliance_score_over_23 empty_project
              (match Runner.run_all_tests empty_project with
               | Ok d => d
               | Raise _ => []
               end) eq_refl)
    as (x & _ & _ & Hx & _ & Hfmt & _).
  eexists. split; [reflexivity|].
  exists x. split; [exact Hx|]. rewrite Hfmt. reflexivity.
Defined.

(** C8 as stated fails: on the empty project 17 rules pass and the code
    prints 73.9, which is 17/23 x 100 and not 17/22 x 100 (77.3) rounded
    to one decimal place. *)
Lemma compliance_score_not_over_22 :
  exists results x,
    Runner.run_all_tests empty_project = Ok results
    /\ passed_rules results = 17
    /\ Report.compliance_score (passed_rules results) (List.length results)
       = Ok x
    /\ Report.format_1f x = "73.9"
    /\ ~ rounded_to_tenths (100 * 17) 22 739
    /\ rounded_to_tenths (100 * 17) 22 773.
Proof.
  eexists. eexists. split; [reflexivity|].
  split; [reflexivity|]. split; [reflexivity|].
  split; [vm_compute; reflexivity|].
  unfold rounded_to_tenths. split; lia.
Qed.

(* ------------------------------------------------------------------ *)
(** ** When a run completes *)

Section Completion.

Import Runner.

Variable self : RuleTestRunner.

Lemma existsb_find_none (A : Type) (f : A -> bool) l :
  existsb f l = false <-> find f l = None.
Proof.
  induction l as [|a l IH]; simpl; [tauto|].
  destruct (f a); simpl; [split; discriminate | exact IH].
Qed.

(** The loop of 02A stops at the first candidate that exists. *)
Lemma inspect_dockerfile_first paths :
  inspect_dockerfile self paths =
  match first_existing (tree self) paths with
  | None => Ok []
  | Some p =>
      match FS.read_text (tree self) p with
      | None => Raise (ReadError p)
      | Some content =>
          Ok ((if negb (PyStr.str_in "USER " content)
               then [v_02A_002 self p] else [])
              ++ (if negb (PyStr.str_in "HEALTHCHECK" content)
                  then [v_02A_003 self p] else []))
      end
  end.
Proof.
  unfold first_existing.
  induction paths as [|p paths IH]; simpl; [reflexivity|].
  destruct (FS.exists_ (tree self) p); [reflexivity | exact IH].
Qed.

Lemma test_02a_completes :
  (exists d, test_02a_container_design self = Ok d)
  <-> dockerfile_readable (tree self) = true.
Proof.
  unfold test_02a_container_design, dockerfile_readable.
  rewrite inspect_dockerfile_first.
  destruct (existsb (FS.exists_ (tree self)) dockerfile_paths) eqn:Hex;
    cbn [negb].
  - destruct (first_existing (tree self) dockerfile_paths) as [p|].
    + destruct (FS.read_text (tree self) p); cbn [bind].
      * split; [reflexivity | intros _; eexists; reflexivity].
      * split; [intros [d Hd]; discriminate | discriminate].
    + split; [reflexivity | intros _; eexists; reflexivity].
  - apply existsb_find_none in Hex. unfold first_existing. rewrite Hex.
    split; [reflexivity | intros _; eexists; reflexivity].
Qed.

Lemma scan_workflows_completes files :
  (exists vs, scan_workflows self files = Ok vs)
  <-> forallb (fun p => match FS.read_text (tree self) p with
                        | Some _ => true
                        | None => false
                        end) files = true.
Proof.
  induction files as [|f files IH]; simpl.
  - split; [reflexivity | intros _; eexists; reflexivity].
  - destruct (FS.read_text (tree self) f) as [content|]; simpl.
    + rewrite <- IH. split.
      * intros [vs Hvs].
        destruct (scan_workflows self files) as [later|e];
          [eexists; reflexivity | discriminate].
      * intros [later ->]. eexists. reflexivity.
    + split; [intros [vs Hvs]; discriminate | discriminate].
Qed.

Lemma test_09a_completes :
  (exists d, test_09a_cicd_pipelines self = Ok d)
  <-> workflows_readable (tree self) = true.
Proof.
  unfold test_09a_cicd_pipelines, workflows_readable.
  destruct (FS.exists_ (tree self) [".github"; "workflows"]) eqn:Hex.
  - rewrite <- scan_workflows_completes. split.
    + intros [d Hd].
      destruct (scan_workflows self _) as [vs|e];
        [eexists; reflexivity | discriminate].
    + intros [vs ->]. eexists. reflexivity.
  - unfold FS.glob. unfold FS.exists_ in Hex.
    destruct (FS.lookup (tree self) [".github"; "workflows"]);
      [discriminate|].
    split; [reflexivity | intros _; eexists; reflexivity].
Qed.

Lemma run_all_tests_completes :
  (exists results, run_all_tests self = Ok results)
  <-> dockerfile_readable (tree self) = true
      /\ workflows_readable (tree self) = true.
Proof.
  rewrite <- test_02a_completes, <- test_09a_completes. split.
  - intros [results H].
    destruct (test_02a_container_design self) as [d2|e] eqn:H2;
      [|rewrite (run_all_tests_raise_02a self H2) in H; discriminate].
    destruct (test_09a_cicd_pipelines self) as [d9|e] eqn:H9;
      [|rewrite (run_all_tests_raise_09a self H2 H9) in H; discriminate].
    split; eexists; reflexivity.
  - intros [[d2 H2] [d9 H9]].
    rewrite (run_all_tests_concat self H2 H9). eexists. reflexivity.
Qed.

End Completion.

(* ------------------------------------------------------------------ *)
(** ** The report and the exit status *)

Lemma generate_report_total (results : results_dict) :
  results <> [] -> exists report, Report.generate_report results = Ok report.
Proof.
  intros Hne. unfold Report.generate_report, Report.compliance_score.
  destruct results as [|kv rest]; [contradiction|].
  eexists. reflexivity.
Qed.

Lemma run_all_tests_nonempty (self : Runner.RuleTestRunner) results :
  Runner.run_all_tests self = Ok results -> results <> [].
Proof.
  intros H. destruct (run_all_tests_keys self H) as [Hk _].
  intros ->. discriminate.
Qed.

Lemma main_raise argv disk io e :
  Runner.run_all_tests (runner_of argv disk) = Raise e ->
  Main.main argv disk io = Raise e.
Proof.
  intros H. unfold Main.main. fold (runner_of argv disk). now rewrite H.
Qed.

(** When the checks complete and the report reaches its destination,
    [main] completes, with the status computed from the mapping. *)
Lemma main_delivered argv disk io results report :
  Runner.run_all_tests (runner_of argv disk) = Ok results ->
  Report.generate_report results = Ok report ->
  delivered argv io report = true ->
  exists p, Main.main argv disk io = Ok p
            /\ Main.exit_code p = Main.exit_status results.
Proof.
  intros H Hr Hd. unfold Main.main. fold (runner_of argv disk).
  rewrite H. cbn [bind]. rewrite Hr. cbn [bind].
  unfold delivered in Hd. unfold Main.write_file, Main.print.
  destruct (nth_error argv 2) as [[|c f]|]; cbn [PyStr.truthy_str].
  - rewrite Hd. cbn [bind]. eexists. split; reflexivity.
  - apply andb_prop in Hd as [-> ->]. cbn [bind].
    eexists. split; reflexivity.
  - rewrite Hd. cbn [bind]. eexists. split; reflexivity.
Qed.

(** When the report does not reach its destination, [main] ends by the
    exception of the write or of the print. *)
Lemma main_not_delivered argv disk io results report :
  Runner.run_all_tests (runner_of argv disk) = Ok results ->
  Report.generate_report results = Ok report ->
  delivered argv io report = false ->
  exists e, Main.main argv disk io = Raise e
            /\ (e = PrintError
                \/ exists f, nth_error argv 2 = Some f /\ e = WriteError f).
Proof.
  intros H Hr Hd. unfold Main.main. fold (runner_of argv disk).
  rewrite H. cbn [bind]. rewrite Hr. cbn [bind].
  unfold delivered in Hd. unfold Main.write_file, Main.print.
  destruct (nth_error argv 2) as [[|c f]|]; cbn [PyStr.truthy_str].
  - rewrite Hd. cbn [bind]. eexists. split; [reflexivity | now left].
  - destruct (Main.can_write io (String c f) report); cbn [bind].
    + cbn [andb] in Hd. rewrite Hd. cbn [bind].
      eexists. split; [reflexivity | now left].
    + eexists. split; [reflexivity|]. right. now exists (String c f).
  - rewrite Hd. cbn [bind]. eexists. split; [reflexivity | now left].
Qed.

Lemma count_must_length vs : count_must vs = List.length (must_only vs).
Proof.
  unfold must_only. induction vs as [|v vs IH]; [reflexivity|].
  cbn [count_must filter]. rewrite IH. unfold is_must.
  destruct (RuleViolation.severity v); reflexivity.
Qed.

Lemma total_must_count results : total_must results = must_violations results.
Proof.
  unfold total_must, must_violations, dict_values. rewrite map_map.
  f_equal. apply map_ext. intros kv. apply count_must_length.
Qed.

Lemma filter_is_must vs : filter is_must vs = must_only vs.
Proof.
  unfold must_only. apply filter_ext. intros v. unfold is_must.
  now destruct (RuleViolation.severity v).
Qed.

Lemma exit_status_rule (results : results_dict) :
  Main.exit_status results = exit_code_rule results.
Proof.
  unfold Main.exit_status, exit_code_rule. rewrite total_must_count.
  destruct (must_violations results); reflexivity.
Qed.

(** C1, as the code has it.  When the checks complete and the report
    reaches its destination, the process exits with 0 if the MUST
    violations of all rules of the mapping count zero and with 1
    otherwise.  When the report cannot be written or printed, and when a
    check raises, the process ends by that exception, which gives the
    status 1 whatever the count is.  The status computed from a mapping
    depends on its MUST violations only: two mappings whose rules have
    the same MUST violations give the same status, whatever their SHOULD
    and MAY violations are. *)
Theorem exit_code_counts_must_only argv disk io :
  (forall results,
      Runner.run_all_tests (runner_of argv disk) = Ok results ->
      exists report,
        Report.generate_report results = Ok report
        /\ (delivered argv io report = true ->
            exists p, Main.main argv disk io = Ok p
                      /\ Main.exit_code p = exit_code_rule results
                      /\ Main.status (Main.main argv disk io)
                         = exit_code_rule results)
        /\ (delivered argv io report = false ->
            exists e, Main.main argv disk io = Raise e
                      /\ Main.status (Main.main argv disk io) = 1%Z))
  /\ (forall e,
         Runner.run_all_tests (runner_of argv disk) = Raise e ->
         Main.main argv disk io = Raise e
         /\ Main.status (Main.main argv disk io) = 1%Z)
  /\ (forall results results',
         must_part results' = must_part results ->
         Main.exit_status results' = Main.exit_status results
         /\ Main.exit_status results = exit_code_rule results).
Proof.
  split; [|split].
  - intros results H.
    destruct (generate_report_total (run_all_tests_nonempty _ H))
      as [report Hr].
    exists report. split; [exact Hr|]. split; intros Hd.
    + destruct (main_delivered argv disk io H Hr Hd) as (p & Hp & Hs).
      exists p. rewrite Hp. cbn [Main.status].
      rewrite Hs, exit_status_rule. repeat split.
    + destruct (main_not_delivered argv disk io H Hr Hd) as (e & He & _).
      exists e. rewrite He. split; reflexivity.
  - intros e H. rewrite (main_raise argv disk io H). split; reflexivity.
  - intros results results' Heq. split; [|apply exit_status_rule].
    rewrite !exit_status_rule. unfold exit_code_rule, total_must.
    assert (Hc : forall d,
               map (fun kv => count_must (RuleTestResult.violations (snd kv)))
                   d
               = map (@List.length _) (must_part d)).
    { intros d. unfold must_part. rewrite map_map. apply map_ext.
      intros kv. rewrite count_must_length. apply f_equal. symmetry.
      apply filter_is_must. }
    now rewrite !Hc, Heq.
Qed.

Lemma exit_code_counts_must_only_witness :
  exists p,
    Main.main ["rule_test_runner.py"] (fun _ => FS.Dir [])
              every_write_succeeds = Ok p
    /\ Main.exit_code p = 1%Z.
Proof.
  destruct (proj1 (@exit_code_counts_must_only ["rule_test_runner.py"]
                     (fun _ => FS.Dir []) every_write_succeeds)
                  (match Runner.run_all_tests empty_project with
                   | Ok d => d
                   | Raise _ => []
                   end) eq_refl) as (report & _ & Hd & _).
  destruct (Hd eq_refl) as (p & Hp & Hs & _).
  exists p. split; [exact Hp | exact Hs].
Defined.

(** C1 as stated fails: on a project without any MUST violation, a run
    whose output file cannot be written ends by the exception of [open],
    and the process exits with 1. *)
Lemma exit_one_without_must_violation :
  exists results,
    Runner.run_all_tests
      (runner_of ["rule_test_runner.py"; "."; "no-such-dir/report.md"]
                 (fun _ => must_compliant)) = Ok results
    /\ total_must results = 0
    /\ exit_code_rule results = 0%Z
    /\ Main.main ["rule_test_runner.py"; "."; "no-such-dir/report.md"]
                 (fun _ => must_compliant) no_file_can_be_written
       = Raise (WriteError "no-such-dir/report.md")
    /\ Main.status
         (Main.main ["rule_test_runner.py"; "."; "no-such-dir/report.md"]
                    (fun _ => must_compliant) no_file_can_be_written)
       = 1%Z.
Proof.
  eexists. split; [vm_compute; reflexivity|].
  repeat split; vm_compute; reflexivity.
Qed.

(* ------------------------------------------------------------------ *)
(** ** The rule registry *)

(** C2, as the code has it.  The registry has twenty-three identifiers,
    all distinct, and a run that completes -- the Dockerfile that 02A
    reads and the workflow files that 09A reads are readable -- returns a
    mapping whose keys are exactly these identifiers in registration
    order, each result carrying the identifier it is stored under. *)
Theorem runner_mapping_one_entry_per_rule (self : Runner.RuleTestRunner) :
  dockerfile_readable (Runner.tree self) = true ->
  workflows_readable (Runner.tree self) = true ->
  List.length rule_ids = 23
  /\ NoDup rule_ids
  /\ exists results,
       Runner.run_all_tests self = Ok results
       /\ map fst results = rule_ids
       /\ Forall (fun kv => RuleTestResult.rule_id (snd kv) = fst kv) results.
Proof.
  intros Hd Hw. split; [reflexivity|]. split.
  - unfold rule_ids.
    repeat (constructor;
            [simpl; intuition discriminate|]).
    constructor.
  - destruct (proj2 (run_all_tests_completes self) (conj Hd Hw))
      as [results H].
    exists results. split; [exact H|]. exact (run_all_tests_keys self H).
Qed.

Lemma runner_mapping_one_entry_per_rule_witness :
  exists results,
    Runner.run_all_tests empty_project = Ok results
    /\ map fst results = rule_ids.
Proof.
  destruct (@runner_mapping_one_entry_per_rule empty_project
              eq_refl eq_refl) as (_ & _ & results & H & Hk & _).
  exists results. split; [exact H | exact Hk].
Defined.

(** C2 as stated fails: the mapping of a completed run has twenty-three
    entries, not twenty-two. *)
Lemma rule_namespace_not_22 :
  exists results,
    Runner.run_all_tests empty_project = Ok results
    /\ map fst results = rule_ids
    /\ List.length results = 23
    /\ List.length results <> 22.
Proof.
  eexists. split; [reflexivity|]. split; [reflexivity|].
  split; [reflexivity | discriminate].
Qed.

(* ------------------------------------------------------------------ *)
(** ** Read failures *)

(** C3, at two failing inputs.  A read failure in 02A or in 09A is not
    recovered: the exception leaves the check, the runner and [main], and
    no mapping and no report is produced, whatever could have been
    written or printed.  The same unreadable file is passed over by 05B. *)
Theorem read_failure_aborts_run (io : Main.channels) :
  Main.main ["rule_test_runner.py"] (fun _ => dockerfile_unreadable) io
  = Raise (ReadError ["Dockerfile"])
  /\ Runner.test_02a_container_design
       {| Runner.project_root := "."; Runner.tree := dockerfile_unreadable |}
     = Raise (ReadError ["Dockerfile"])
  /\ Main.main ["rule_test_runner.py"] (fun _ => workflow_unreadable) io
     = Raise (ReadError [".github"; "workflows"; "ci.yml"])
  /\ Runner.test_09a_cicd_pipelines
       {| Runner.project_root := "."; Runner.tree := workflow_unreadable |}
     = Raise (ReadError [".github"; "workflows"; "ci.yml"])
  /\ Runner.scan_file
       {| Runner.project_root := "."; Runner.tree := workflow_unreadable |}
       [".github"; "workflows"; "ci.yml"] = [].
Proof. repeat split; vm_compute; reflexivity. Qed.

(* ------------------------------------------------------------------ *)
(** ** The pass/fail policy of each check *)

Lemma must_free_policy vs : Runner.no_must_violation vs = must_free vs.
Proof.
  unfold Runner.no_must_violation, must_free.
  now rewrite count_must_length.
Qed.

Lemma violation_free_policy vs : Runner.no_violation vs = violation_free vs.
Proof. now destruct vs. Qed.

(** C4.  Container design (02A), CI/CD pipeline (09A), authentication
    (03A) and logging (08B) set [passed] from the count of MUST
    violations; the other checks that inspect the project (01A, 01B, 05B,
    06A, 07A) set it from the count of all violations.  This is stated
    of every result a check returns and, because the five checks of the
    second group happen to collect MUST violations only, of the [return]
    statement of each check for every list of violations it could be
    given: on a list made of one SHOULD or MAY violation the statements
    of the first group pass and those of the second fail.  The first group
    does return [passed = true] next to a SHOULD violation: 03A and 08B
    on the empty project, 02A on a Dockerfile without HEALTHCHECK, 09A on
    a workflow without a security stage. *)
Theorem pass_policy_per_check (self : Runner.RuleTestRunner) :
  ((forall d, Runner.test_02a_container_design self = Ok d ->
              policy_is must_free "02A" d)
   /\ (forall d, Runner.test_09a_cicd_pipelines self = Ok d ->
                 policy_is must_free "09A" d)
   /\ policy_is must_free "03A" (Runner.test_03a_authentication self)
   /\ policy_is must_free "08B" (Runner.test_08b_logging_standards self)
   /\ policy_is violation_free "01A"
        (Runner.test_01a_design_principles self)
   /\ policy_is violation_free "01B"
        (Runner.test_01b_runtime_operations self)
   /\ policy_is violation_free "05B"
        (Runner.test_05b_secrets_management self)
   /\ policy_is violation_free "06A" (Runner.test_06a_api_design self)
   /\ policy_is violation_free "07A"
        (Runner.test_07a_testing_strategy self))
  /\ (returns_with must_free "02A" Runner.return_02a
      /\ returns_with must_free "09A" Runner.return_09a
      /\ returns_with must_free "03A" Runner.return_03a
      /\ returns_with must_free "08B" Runner.return_08b
      /\ returns_with violation_free "01A" Runner.return_01a
      /\ returns_with violation_free "01B" Runner.return_01b
      /\ returns_with violation_free "05B" Runner.return_05b
      /\ returns_with violation_free "06A" Runner.return_06a
      /\ returns_with violation_free "07A" Runner.return_07a)
  /\ ((forall d, Runner.test_02a_container_design self = Ok d ->
                 exists vs, d = Runner.return_02a vs)
      /\ (forall d, Runner.test_09a_cicd_pipelines self = Ok d ->
                    exists vs, d = Runner.return_09a vs)
      /\ (exists vs, Runner.test_03a_authentication self
                     = Runner.return_03a vs)
      /\ (exists vs, Runner.test_08b_logging_standards self
                     = Runner.return_08b vs)
      /\ (exists vs, Runner.test_01a_design_principles self
                     = Runner.return_01a vs)
      /\ (exists vs, Runner.test_01b_runtime_operations self
                     = Runner.return_01b vs)
      /\ (exists vs, Runner.test_05b_secrets_management self
                     = Runner.return_05b vs)
      /\ (exists vs, Runner.test_06a_api_design self = Runner.return_06a vs)
      /\ (exists vs, Runner.test_07a_testing_strategy self
                     = Runner.return_07a vs))
  /\ (must_free [Runner.v_08B_001] = true
      /\ violation_free [Runner.v_08B_001] = false)
  /\ (forall v,
         RuleViolation.severity v <> MUST ->
         map (fun kv => (fst kv, RuleTestResult.passed (snd kv)))
             (Runner.return_02a [v] ++ Runner.return_09a [v]
              ++ Runner.return_03a [v] ++ Runner.return_08b [v]
              ++ Runner.return_01a [v] ++ Runner.return_01b [v]
              ++ Runner.return_05b [v] ++ Runner.return_06a [v]
              ++ Runner.return_07a [v])
         = [("02A", true); ("09A", true); ("03A", true); ("08B", true);
            ("01A", false); ("01B", false); ("05B", false); ("06A", false);
            ("07A", false)])
  /\ (exists r, Runner.test_03a_authentication empty_project = [("03A", r)]
                /\ RuleTestResult.violations r = [Runner.v_03A_001]
                /\ RuleTestResult.passed r = true)
  /\ (exists r, Runner.test_08b_logging_standards empty_project
                = [("08B", r)]
                /\ RuleTestResult.violations r = [Runner.v_08B_001]
                /\ RuleTestResult.passed r = true)
  /\ (exists r v,
        Runner.test_02a_container_design
          {| Runner.project_root := ".";
             Runner.tree := dockerfile_without_healthcheck |}
        = Ok [("02A", r)]
        /\ RuleTestResult.violations r = [v]
        /\ RuleViolation.severity v = SHOULD
        /\ RuleTestResult.passed r = true)
  /\ (exists r v,
        Runner.test_09a_cicd_pipelines
          {| Runner.project_root := ".";
             Runner.tree := workflow_without_security |}
        = Ok [("09A", r)]
        /\ RuleTestResult.violations r = [v]
        /\ RuleViolation.severity v = SHOULD
        /\ RuleTestResult.passed r = true).
Proof.
  assert (Hm : forall key label,
             returns_with must_free key
               (fun vs => [(key, RuleTestResult.mk key
                                   (Runner.no_must_violation vs) vs
                                   (Runner.details_of label vs))])).
  { intros key label vs. eexists. split; [reflexivity|].
    repeat split. apply must_free_policy. }
  assert (Hv : forall key label,
             returns_with violation_free key
               (fun vs => [(key, RuleTestResult.mk key
                                   (Runner.no_violation vs) vs
                                   (Runner.details_of label vs))])).
  { intros key label vs. eexists. split; [reflexivity|].
    repeat split. apply violation_free_policy. }
  assert (Hp : forall policy key ret vs,
             returns_with policy key ret -> policy_is policy key (ret vs)).
  { intros policy key ret vs H.
    destruct (H vs) as (r & Hr & Hid & Hvs & Hpass).
    exists r. repeat split; [exact Hr | exact Hid|]. now rewrite Hvs. }
  pose proof (test_02a_returns self) as H2.
  pose proof (test_09a_returns self) as H9.
  split; [|split; [|split; [|split; [|split]]]].
  - split; [intros d Hd; destruct (H2 d Hd) as [vs ->];
            apply Hp, (Hm "02A" "Container design")|].
    split; [intros d Hd; destruct (H9 d Hd) as [vs ->];
            apply Hp, (Hm "09A" "CI/CD pipeline")|].
    split; [apply Hp, (Hm "03A" "Authentication")|].
    split; [apply Hp, (Hm "08B" "Logging standards")|].
    split; [apply Hp, (Hv "01A" "Design principles")|].
    split; [apply Hp, (Hv "01B" "Runtime operations")|].
    split; [apply Hp, (Hv "05B" "Secrets management")|].
    split; [apply Hp, (Hv "06A" "API design")|].
    apply Hp, (Hv "07A" "Testing strategy").
  - split; [apply (Hm "02A" "Container design")|].
    split; [apply (Hm "09A" "CI/CD pipeline")|].
    split; [apply (Hm "03A" "Authentication")|].
    split; [apply (Hm "08B" "Logging standards")|].
    split; [apply (Hv "01A" "Design principles")|].
    split; [apply (Hv "01B" "Runtime operations")|].
    split; [apply (Hv "05B" "Secrets management")|].
    split; [apply (Hv "06A" "API design")|].
    apply (Hv "07A" "Testing strategy").
  - split; [exact H2|]. split; [exact H9|].
    repeat split; eexists; reflexivity.
  - split; reflexivity.
  - intros v Hsev.
    cbn [Runner.return_01a Runner.return_01b Runner.return_02a
         Runner.return_03a Runner.return_05b Runner.return_06a
         Runner.return_07a Runner.return_08b Runner.return_09a
         app map fst snd RuleTestResult.passed].
    unfold Runner.no_violation, Runner.no_must_violation, must_only.
    cbn [filter].
    destruct (RuleViolation.severity v); [contradiction| |]; reflexivity.
  - split; [eexists; repeat split|].
    split; [eexists; repeat split|].
    split; eexists; eexists; repeat split.
Qed.

Lemma pass_policy_per_check_witness :
  exists r,
    Runner.test_02a_container_design
      {| Runner.project_root := ".";
         Runner.tree := dockerfile_without_healthcheck |}
    = Ok [("02A", r)]
    /\ RuleTestResult.passed r = must_free (RuleTestResult.violations r)
    /\ RuleTestResult.passed r = true
    /\ violation_free (RuleTestResult.violations r) = false.
Proof.
  destruct (proj1 (proj1 (@pass_policy_per_check
                            {| Runner.project_root := ".";
                               Runner.tree := dockerfile_without_healthcheck |}))
                  _ eq_refl) as (r & Hd & _ & Hp).
  exists r. split; [rewrite <- Hd; reflexivity|].
  split; [exact Hp|].
  apply (f_equal (fun d => match d with
                           | [(_, x)] => Some x
                           | _ => None
                           end)) in Hd.
  cbn in Hd. injection Hd as Hr. rewrite <- Hr. split; reflexivity.
Defined.

(* ------------------------------------------------------------------ *)
(** ** The empty project *)

(** C5.  When the project directory holds no entry at all, the rules 01A,
    01B, 02A, 06A, 07A and 09A each report at least one MUST violation,
    and the process exits with 1: by [sys.exit(1)] when the report
    reaches its destination, and by an uncaught exception when it does
    not. *)
Theorem empty_project_fails argv disk io :
  Runner.tree (runner_of argv disk) = FS.Dir [] ->
  exists results report,
    Runner.run_all_tests (runner_of argv disk) = Ok results
    /\ Forall
         (fun id =>
            exists r,
              dict_get results id = Some r
              /\ 1 <= List.length (must_only (RuleTestResult.violations r))
              /\ 1 <= count_must (RuleTestResult.violations r))
         ["01A"; "01B"; "02A"; "06A"; "07A"; "09A"]
    /\ Report.generate_report results = Ok report
    /\ Main.status (Main.main argv disk io) = 1%Z
    /\ (delivered argv io report = true ->
        exists p, Main.main argv disk io = Ok p /\ Main.exit_code p = 1%Z).
Proof.
  intros Ht.
  assert (Hrun : exists results,
             Runner.run_all_tests (runner_of argv disk) = Ok results
             /\ Forall
                  (fun id =>
                     exists r,
                       dict_get results id = Some r
                       /\ 1 <= List.length
                                 (must_only (RuleTestResult.violations r))
                       /\ 1 <= count_must (RuleTestResult.violations r))
                  ["01A"; "01B"; "02A"; "06A"; "07A"; "09A"]
             /\ Main.exit_status results = 1%Z).
  { destruct (runner_of argv disk) as [s t]. cbn in Ht. subst t.
    eexists. split; [vm_compute; reflexivity|]. split; [|reflexivity].
    repeat (constructor;
            [eexists; split; [reflexivity | split; cbn; lia]|]).
    constructor. }
  destruct Hrun as (results & Hrun & Hall & Hs).
  destruct (generate_report_total (run_all_tests_nonempty _ Hrun))
    as [report Hr].
  exists results, report. split; [exact Hrun|]. split; [exact Hall|].
  split; [exact Hr|].
  destruct (delivered argv io report) eqn:Hd.
  - destruct (main_delivered argv disk io Hrun Hr Hd) as (p & Hp & Hc).
    rewrite Hp. cbn [Main.status]. rewrite Hc, Hs.
    split; [reflexivity|]. intros _. exists p. split; [reflexivity|].
    now rewrite Hc.
  - destruct (main_not_delivered argv disk io Hrun Hr Hd) as (e & He & _).
    rewrite He. split; [reflexivity | discriminate].
Qed.

Lemma empty_project_fails_witness :
  Main.status (Main.main ["rule_test_runner.py"; "project"]
                         (fun _ => FS.Dir []) every_write_succeeds) = 1%Z
  /\ exists p,
       Main.main ["rule_test_runner.py"; "project"] (fun _ => FS.Dir [])
                 every_write_succeeds = Ok p
       /\ Main.exit_code p = 1%Z.
Proof.
  destruct (@empty_project_fails ["rule_test_runner.py"; "project"]
              (fun _ => FS.Dir []) every_write_succeeds eq_refl)
    as (results & report & _ & _ & _ & Hs & Hd).
  split; [exact Hs|].
  destruct (Hd eq_refl) as (p & Hp & Hc).
  exists p. split; [exact Hp | exact Hc].
Defined.

(* ------------------------------------------------------------------ *)
(** ** Container design (02A) *)

(** C6, as the code has it.  The check looks for two pieces of text, not
    for directives.  When the first candidate path that exists can be
    read and its text holds neither the upper-case word USER followed by
    a space nor the upper-case word HEALTHCHECK, anywhere, 02A returns
    exactly the MUST violation 02A-002 and the SHOULD violation 02A-003,
    both about that path, with [passed = false]; the candidates after it
    play no part. *)
Theorem dockerfile_without_user_and_healthcheck
  (self : Runner.RuleTestRunner) p content :
  first_existing (Runner.tree self) Runner.dockerfile_paths = Some p ->
  FS.read_text (Runner.tree self) p = Some content ->
  PyStr.str_in "USER " content = false ->
  PyStr.str_in "HEALTHCHECK" content = false ->
  Runner.test_02a_container_design self
  = Ok [("02A",
         RuleTestResult.mk "02A" false
           [Runner.v_02A_002 self p; Runner.v_02A_003 self p]
           "Container design compliance: 2 violations found")]
  /\ must_only [Runner.v_02A_002 self p; Runner.v_02A_003 self p]
     = [Runner.v_02A_002 self p]
  /\ RuleViolation.rule_id (Runner.v_02A_002 self p) = "02A-002"
  /\ RuleViolation.severity (Runner.v_02A_003 self p) = SHOULD
  /\ RuleViolation.rule_id (Runner.v_02A_003 self p) = "02A-003".
Proof.
  intros Hfirst Hread Huser Hhc. split; [|repeat split].
  unfold Runner.test_02a_container_design.
  rewrite inspect_dockerfile_first, Hfirst, Hread, Huser, Hhc.
  destruct (existsb (FS.exists_ (Runner.tree self)) Runner.dockerfile_paths)
    eqn:Hex.
  - reflexivity.
  - apply existsb_find_none in Hex. unfold first_existing in Hfirst.
    rewrite Hex in Hfirst. discriminate.
Qed.

Lemma dockerfile_without_user_and_healthcheck_witness :
  exists r,
    Runner.test_02a_container_design
      {| Runner.project_root := "."; Runner.tree := three_dockerfiles |}
    = Ok [("02A", r)]
    /\ RuleTestResult.passed r = false
    /\ map RuleViolation.rule_id (RuleTestResult.violations r)
       = ["02A-002"; "02A-003"]
    /\ map RuleViolation.file_path (RuleTestResult.violations r)
       = [Some "Dockerfile"; Some "Dockerfile"].
Proof.
  destruct (@dockerfile_without_user_and_healthcheck
              {| Runner.project_root := "."; Runner.tree := three_dockerfiles |}
              ["Dockerfile"] _ eq_refl eq_refl eq_refl eq_refl)
    as (Hr & _).
  eexists. split; [exact Hr|]. repeat split.
Defined.

(** C6 as stated fails: a Dockerfile without a USER directive and without
    a HEALTHCHECK directive, whose text names USER in a variable and
    HEALTHCHECK in a remark, gets no violation from 02A and passes. *)
Lemma directive_free_dockerfile_passes :
  first_existing dockerfile_naming_directives Runner.dockerfile_paths
  = Some ["Dockerfile"]
  /\ (exists content,
        FS.read_text dockerfile_naming_directives ["Dockerfile"]
        = Some content
        /\ has_directive "USER" content = false
        /\ has_directive "HEALTHCHECK" content = false
        /\ PyStr.split_nl content
           = ["FROM scratch"; "ENV DB_USER admin";
              "# HEALTHCHECK comes later"; ""]
        /\ PyStr.str_in "USER " content = true
        /\ PyStr.str_in "HEALTHCHECK" content = true)
  /\ Runner.test_02a_container_design
       {| Runner.project_root := ".";
          Runner.tree := dockerfile_naming_directives |}
     = Ok [("02A", RuleTestResult.mk "02A" true []
                     "Container design compliance: 0 violations found")].
Proof.
  split; [reflexivity|]. split; [|vm_compute; reflexivity].
  eexists. split; [reflexivity|]. repeat split; vm_compute; reflexivity.
Qed.

(* ------------------------------------------------------------------ *)
(** ** The matcher decides the language *)

Section Matcher.

Import Re.

#[local] Open Scope string_scope.

Lemma append_empty_r (s : string) : s ++ "" = s.
Proof. induction s as [|c s IH]; simpl; [reflexivity | now rewrite IH]. Qed.

Lemma append_assoc (s1 s2 s3 : string) : (s1 ++ s2) ++ s3 = s1 ++ s2 ++ s3.
Proof. induction s1 as [|c s1 IH]; simpl; [reflexivity | now rewrite IH]. Qed.

Lemma append_eq_empty (s1 s2 : string) :
  s1 ++ s2 = "" -> s1 = "" /\ s2 = "".
Proof. destruct s1; simpl; [auto | discriminate]. Qed.

Lemma append_eq_cons (s1 s2 : string) c s :
  s1 ++ s2 = String c s ->
  (s1 = "" /\ s2 = String c s)
  \/ (exists s1', s1 = String c s1' /\ s = s1' ++ s2).
Proof.
  destruct s1 as [|c1 s1]; simpl; intros H.
  - left. auto.
  - injection H as -> <-. right. eauto.
Qed.

Lemma nullable_matches_empty r : nullable r = true -> Matches r "".
Proof.
  induction r; simpl; intros H; try discriminate.
  - constructor.
  - apply andb_prop in H as [H1 H2].
    change "" with ("" ++ ""). constructor; auto.
  - apply orb_prop in H as [H|H]; [apply MAltL | apply MAltR]; auto.
  - constructor.
Qed.

Lemma matches_empty_nullable r s : Matches r s -> s = "" -> nullable r = true.
Proof.
  induction 1; simpl; intros E; try reflexivity; try discriminate.
  - apply append_eq_empty in E as [-> ->]. now rewrite IHMatches1, IHMatches2.
  - now rewrite IHMatches.
  - rewrite IHMatches by assumption. apply orb_true_r.
Qed.

Lemma nullable_spec r : nullable r = true <-> Matches r "".
Proof.
  split; [apply nullable_matches_empty|].
  intros H. now apply (matches_empty_nullable H).
Qed.

Lemma matches_deriv r w :
  Matches r w -> forall c s, w = String c s -> Matches (deriv c r) s.
Proof.
  induction 1 as [ | p c0 Hp | r1 r2 s1 s2 H1 IH1 H2 IH2 | r1 r2 s0 H IH
                 | r1 r2 s0 H IH | r | r s1 s2 H1 IH1 H2 IH2 ];
    intros c s E; simpl.
  - discriminate.
  - injection E as -> <-. rewrite Hp. constructor.
  - apply append_eq_cons in E as [[-> ->] | (s1' & -> & ->)].
    + rewrite (matches_empty_nullable H1 eq_refl). apply MAltR. now apply IH2.
    + assert (Matches (Cat (deriv c r1) r2) (s1' ++ s2))
        by (constructor; [now apply IH1 | assumption]).
      destruct (nullable r1); [now apply MAltL | assumption].
  - apply MAltL. now apply IH.
  - apply MAltR. now apply IH.
  - discriminate.
  - apply append_eq_cons in E as [[-> ->] | (s1' & -> & ->)].
    + now apply IH2.
    + constructor; [now apply IH1 | assumption].
Qed.

Lemma deriv_matches c r : forall s, Matches (deriv c r) s -> Matches r (String c s).
Proof.
  induction r as [ | | p | r1 IH1 r2 IH2 | r1 IH1 r2 IH2 | r IH ];
    simpl; intros s H.
  - inversion H.
  - inversion H.
  - destruct (p c) eqn:Hp; inversion H; subst. now constructor.
  - assert (Hcat : forall s', Matches (Cat (deriv c r1) r2) s' ->
                              Matches (Cat r1 r2) (String c s')).
    { intros s' H'. inversion H' as [ | | ? ? s1 s2 Ha Hb | | | | ]; subst.
      change (String c (s1 ++ s2)) with (String c s1 ++ s2).
      constructor; auto. }
    destruct (nullable r1) eqn:Hn; [|now apply Hcat].
    inversion H; subst; [now apply Hcat|].
    change (String c s) with ("" ++ String c s).
    constructor; [now apply nullable_matches_empty | auto].
  - inversion H; subst; [apply MAltL | apply MAltR]; auto.
  - inversion H as [ | | ? ? s1 s2 Ha Hb | | | | ]; subst.
    change (String c (s1 ++ s2)) with (String c s1 ++ s2).
    constructor; auto.
Qed.

Theorem matchb_spec s : forall r, matchb r s = true <-> Matches r s.
Proof.
  induction s as [|c s IH]; intros r; simpl.
  - apply nullable_spec.
  - rewrite IH. split; [apply deriv_matches|].
    intros H. now apply (matches_deriv H).
Qed.

Lemma matches_star_any s : Matches (Star any_char) s.
Proof.
  induction s as [|c s IH]; [constructor|].
  change (String c s) with (String c "" ++ s).
  constructor; [now constructor | assumption].
Qed.

(** [search] finds a pattern exactly when a substring is in its
    language. *)
Theorem search_spec r s :
  search r s = true
  <-> exists pre mid post, s = pre ++ mid ++ post /\ Matches r mid.
Proof.
  unfold search. rewrite matchb_spec. split.
  - intros H. inversion H as [ | | ? ? pre rest Hpre Hrest | | | | ]; subst.
    inversion Hrest as [ | | ? ? mid post Hmid Hpost | | | | ]; subst.
    eauto.
  - intros (pre & mid & post & -> & Hmid).
    constructor; [apply matches_star_any|].
    constructor; [assumption | apply matches_star_any].
Qed.

Lemma matches_star_cls p s :
  all_chars p s = true -> Matches (Star (Cls p)) s.
Proof.
  induction s as [|c s IH]; simpl; intros H; [constructor|].
  apply andb_prop in H as [Hc Hs].
  change (String c s) with (String c "" ++ s).
  constructor; [now constructor | auto].
Qed.

Lemma matches_lit_ci kw : forall w,
  PyStr.lower w = PyStr.lower kw -> Matches (lit_ci kw) w.
Proof.
  induction kw as [|k kw IH]; intros [|c w]; simpl; intros E;
    try discriminate.
  - constructor.
  - injection E as Ec Ew.
    change (String c w) with (String c "" ++ w).
    constructor; [|now apply IH].
    constructor. rewrite Ec. apply Ascii.eqb_refl.
Qed.

(** The reading of the secret pattern: the keyword in any letter case,
    optional white space around an equals sign, then a quoted non-empty
    text without quotes, the two quotes being of either kind.  A line
    that contains such an assignment is found by [search]. *)
Theorem secret_assignment_found kw pre w ws1 ws2 q1 body b q2 post :
  PyStr.lower w = PyStr.lower kw ->
  all_chars is_space ws1 = true ->
  all_chars is_space ws2 = true ->
  is_quote q1 = true ->
  all_chars (fun c => negb (is_quote c)) (String b body) = true ->
  is_quote q2 = true ->
  search (secret_assignment kw)
    (pre ++ (w ++ ws1 ++ "=" ++ ws2 ++ String q1 (String b body ++ String q2 ""))
         ++ post) = true.
Proof.
  intros Hw H1 H2 Hq1 Hb Hq2. apply search_spec.
  exists pre. eexists. exists post. split; [reflexivity|].
  unfold secret_assignment.
  constructor; [now apply matches_lit_ci|].
  constructor; [now apply matches_star_cls|].
  change ("=" ++ ws2 ++ String q1 (String b body ++ String q2 ""))
    with ("=" ++ (ws2 ++ String q1 (String b body ++ String q2 ""))).
  constructor; [constructor; reflexivity|].
  constructor; [now apply matches_star_cls|].
  change (String q1 (String b body ++ String q2 ""))
    with (String q1 "" ++ (String b body ++ String q2 "")).
  constructor; [now constructor|].
  constructor; [|now constructor].
  simpl in Hb. apply andb_prop in Hb as [Hb Hbody].
  unfold plus. change (String b body) with (String b "" ++ body).
  constructor; [now constructor | now apply matches_star_cls].
Qed.

End Matcher.

(* ------------------------------------------------------------------ *)
(** ** Globbing finds every matching path *)

Section Globbing.

Import FS.

Lemma find_entry_In name es n :
  find_entry name es = Some n -> In (name, n) es.
Proof.
  induction es as [|[k child] es IH]; simpl; [discriminate|].
  destruct (String.eqb_spec k name) as [->|Hne].
  - intros [= ->]. now left.
  - intros H. right. auto.
Qed.

Lemma rglob_from_complete pat name p :
  forall t here n,
    lookup t (p ++ [name]) = Some n ->
    fnmatch pat name = true ->
    In (here ++ p ++ [name]) (rglob_from pat here t).
Proof.
  induction p as [|c p IH]; intros [text|es] here n; simpl;
    try discriminate.
  - destruct (find_entry name es) as [child|] eqn:Hf; [|discriminate].
    intros _ Hm. apply in_or_app. left.
    unfold matching. apply in_map_iff. exists (name, child).
    split; [reflexivity|]. apply filter_In.
    split; [now apply find_entry_In | exact Hm].
  - destruct (find_entry c es) as [child|] eqn:Hf; [|discriminate].
    intros Hl Hm. apply in_or_app. right.
    apply in_flat_map. exists (c, child).
    split; [now apply find_entry_In|]. simpl.
    specialize (IH child (here ++ [c]) n Hl Hm).
    now rewrite <- app_assoc in IH.
Qed.

Lemma fnmatch_star_unfold pat n :
  fnmatch (String "*" pat) n
  = fnmatch pat n
    || match n with
       | EmptyString => false
       | String _ n' => fnmatch (String "*" pat) n'
       end.
Proof. destruct n; reflexivity. Qed.

Lemma fnmatch_refl s : star_free s = true -> fnmatch s s = true.
Proof.
  induction s as [|c s IH]; simpl; [reflexivity|].
  intros H. apply andb_prop in H as [Hc Hs].
  destruct (Ascii.eqb c "*"); [discriminate|].
  now rewrite Ascii.eqb_refl, IH.
Qed.

(** [*suffix] matches every name that ends with the suffix. *)
Lemma fnmatch_star_suffix suffix stem :
  star_free suffix = true ->
  fnmatch (String "*" suffix) (stem ++ suffix)%string = true.
Proof.
  intros Hs. induction stem as [|c stem IH].
  - rewrite fnmatch_star_unfold. simpl. now rewrite fnmatch_refl.
  - change (String c stem ++ suffix)%string
      with (String c (stem ++ suffix)%string).
    rewrite fnmatch_star_unfold, IH. apply orb_true_r.
Qed.

(** A path of the tree whose name has a source extension is among the
    files that 05B scans. *)
Lemma code_files_complete (self : Runner.RuleTestRunner) dir stem ext n :
  In ext source_extensions ->
  lookup (Runner.tree self) (dir ++ [(stem ++ ext)%string]) = Some n ->
  In (dir ++ [(stem ++ ext)%string]) (Runner.code_files self).
Proof.
  intros Hext Hl. unfold Runner.code_files.
  assert (Hg : forall e, star_free e = true ->
              strip_recursive (String "*" e) = String "*" e ->
              lookup (Runner.tree self) (dir ++ [(stem ++ e)%string])
              = Some n ->
              In (dir ++ [(stem ++ e)%string])
                 (rglob (Runner.tree self) (String "*" e))).
  { intros e He Hstrip Hle. unfold rglob. rewrite Hstrip.
    apply (rglob_from_complete (String "*" e) (stem ++ e)%string dir
             (Runner.tree self) [] Hle).
    now apply fnmatch_star_suffix. }
  simpl in Hext.
  repeat rewrite in_app_iff.
  destruct Hext as [<-|[<-|[<-|[<-|[<-|[]]]]]];
    [ left | right; left | right; right; left
    | right; right; right; left | right; right; right; right ];
    now apply Hg.
Qed.

End Globbing.

(* ------------------------------------------------------------------ *)
(** ** Secrets management (05B) *)

Lemma enumerate_nth (A : Type) (xs : list A) :
  forall start i x,
    nth_error xs i = Some x ->
    In ((start + Z.of_nat i)%Z, x) (PyStr.enumerate start xs).
Proof.
  induction xs as [|y xs IH]; intros start [|i] x; simpl;
    try discriminate.
  - intros [= ->]. left. f_equal. lia.
  - intros H. right.
    replace (start + Z.pos (Pos.of_succ_nat i))%Z
      with (start + 1 + Z.of_nat i)%Z by lia.
    now apply IH.
Qed.

Lemma read_text_lookup t p content :
  FS.read_text t p = Some content -> exists n, FS.lookup t p = Some n.
Proof.
  unfold FS.read_text. destruct (FS.lookup t p) as [n|]; [eauto|discriminate].
Qed.

(** Every pattern found in a line of a readable scanned file is
    reported with the position of the line. *)
Lemma scan_reports (self : Runner.RuleTestRunner) fp content i line pattern :
  In fp (Runner.code_files self) ->
  FS.read_text (Runner.tree self) fp = Some content ->
  nth_error (PyStr.split_nl content) i = Some line ->
  In pattern Runner.secret_patterns ->
  Re.search pattern line = true ->
  In (Runner.v_05B_001 self fp (Z.of_nat i + 1))
     (flat_map (Runner.scan_file self) (Runner.code_files self)).
Proof.
  intros Hfp Hread Hline Hpat Hfound.
  apply in_flat_map. exists fp. split; [exact Hfp|].
  unfold Runner.scan_file. rewrite Hread.
  apply in_flat_map. exists ((1 + Z.of_nat i)%Z, line).
  split; [now apply enumerate_nth|].
  unfold Runner.scan_line. cbn [fst snd].
  apply in_flat_map. exists pattern. split; [exact Hpat|].
  rewrite Hfound. left. f_equal. lia.
Qed.

(** C7.  A file of the tree whose name ends in .py, .js, .ts, .java or
    .go and whose read succeeds is scanned, and each of its lines in
    which the password pattern is found yields a MUST violation 05B-001
    whose line number is the 1-based position of the line; this holds for
    every such file and every such line, so no file and no line ends the
    scan early. *)
Theorem hardcoded_password_reported
  (self : Runner.RuleTestRunner) dir stem ext content i line :
  In ext source_extensions ->
  FS.read_text (Runner.tree self) (dir ++ [(stem ++ ext)%string])
  = Some content ->
  nth_error (PyStr.split_nl content) i = Some line ->
  Re.search (Re.secret_assignment "password") line = true ->
  exists r v,
    Runner.test_05b_secrets_management self = [("05B", r)]
    /\ In v (RuleTestResult.violations r)
    /\ v = Runner.v_05B_001 self (dir ++ [(stem ++ ext)%string])
                            (Z.of_nat i + 1)
    /\ RuleViolation.rule_id v = "05B-001"
    /\ RuleViolation.severity v = MUST
    /\ RuleViolation.line_number v = Some (Z.of_nat i + 1)%Z
    /\ RuleViolation.file_path v
       = Some (Runner.str_ self (dir ++ [(stem ++ ext)%string]))
    /\ RuleTestResult.passed r = false.
Proof.
  intros Hext Hread Hline Hfound.
  destruct (read_text_lookup _ _ Hread) as [n Hn].
  pose proof (code_files_complete self dir stem Hext Hn) as Hfp.
  assert (Hin := scan_reports self _ i Hfp Hread Hline
                   (or_introl eq_refl) Hfound).
  unfold Runner.test_05b_secrets_management.
  eexists. eexists. split; [reflexivity|].
  cbn [RuleTestResult.violations RuleTestResult.passed].
  split; [exact Hin|]. repeat split.
  unfold Runner.no_violation.
  destruct (flat_map (Runner.scan_file self) (Runner.code_files self));
    [destruct Hin | reflexivity].
Qed.

Lemma hardcoded_password_reported_witness :
  exists r,
    Runner.test_05b_secrets_management
      {| Runner.project_root := "project";
         Runner.tree := project_with_secret |} = [("05B", r)]
    /\ exists v,
         In v (RuleTestResult.violations r)
         /\ RuleViolation.line_number v = Some 2%Z
         /\ RuleViolation.file_path v = Some "project/src/app.py".
Proof.
  destruct (@hardcoded_password_reported
              {| Runner.project_root := "project";
                 Runner.tree := project_with_secret |}
              ["src"] "app" ".py" _ 1 "PASSWORD = 'hunter2'"
              (or_introl eq_refl) eq_refl eq_refl eq_refl)
    as (r & v & Hr & Hin & _ & _ & _ & Hline & Hpath & _).
  exists r. split; [exact Hr|].
  exists v. split; [exact Hin|]. split; [exact Hline | exact Hpath].
Defined.

(* ------------------------------------------------------------------ *)
(** ** Two listings of one tree *)

Section Listings.

Import FS.

Lemma same_contents_refl : forall t, same_contents t t.
Proof.
  fix IH 1. intros [text|es]; constructor.
  induction es as [|[name child] es IHes]; constructor; auto.
Qed.

Lemma same_entries_refl es : same_entries es es.
Proof.
  induction es as [|[name child] es IH]; constructor;
    auto using same_contents_refl.
Qed.

Lemma same_contents_trans t1 t2 t3 :
  same_contents t1 t2 -> same_contents t2 t3 -> same_contents t1 t3.
Proof.
  intros H12 H23. inversion H12; subst; inversion H23; subst;
    constructor. eapply se_trans; eassumption.
Qed.

Lemma same_entries_names es es' :
  same_entries es es' -> Permutation (map fst es) (map fst es').
Proof.
  revert es es'.
  apply (same_entries_min
           (fun _ _ => True)
           (fun es es' => Permutation (map fst es) (map fst es')));
    simpl; intros.
  - exact I.
  - exact I.
  - apply perm_nil.
  - now apply perm_skip.
  - apply perm_swap.
  - eapply Permutation_trans; eassumption.
Qed.

Lemma same_found_trans a b c :
  same_found a b -> same_found b c -> same_found a c.
Proof.
  destruct a, b, c; simpl; try tauto. apply same_contents_trans.
Qed.

Lemma same_found_refl a : same_found a a.
Proof. destruct a; simpl; auto using same_contents_refl. Qed.

(** In a directory without repeated names, an entry is found under its
    name wherever the listing puts it. *)
Lemma find_entry_same es es' :
  same_entries es es' ->
  NoDup (map fst es) ->
  forall name, same_found (find_entry name es) (find_entry name es').
Proof.
  revert es es'.
  apply (same_entries_min
           (fun _ _ => True)
           (fun es es' =>
              NoDup (map fst es) ->
              forall name,
                same_found (find_entry name es) (find_entry name es'))).
  - auto.
  - auto.
  - intros _ name. exact I.
  - intros k a b es es' Hab _ _ IH Hnd name. simpl.
    destruct (String.eqb k name); [exact Hab|].
    apply IH. now inversion Hnd.
  - intros [kx a] [ky b] es Hnd name. simpl.
    destruct (String.eqb_spec kx name) as [->|Hx];
      destruct (String.eqb_spec ky name) as [->|Hy];
      try apply same_found_refl.
    exfalso. inversion Hnd as [|? ? Hnot _]. apply Hnot. now left.
  - intros es1 es2 es3 H12 IH12 H23 IH23 Hnd name.
    eapply same_found_trans; [now apply IH12|].
    apply IH23.
    eapply Permutation_NoDup; [|exact Hnd].
    now apply same_entries_names.
Qed.

Lemma All_In (A : Type) (P : A -> Prop) l x : All P l -> In x l -> P x.
Proof.
  induction l as [|y l IH]; simpl; [tauto|].
  intros [Hy Hl] [<-|Hin]; auto.
Qed.

Lemma lookup_same p :
  forall t t',
    same_contents t t' -> well_formed t ->
    same_found (lookup t p) (lookup t' p).
Proof.
  induction p as [|c p IH]; intros t t' Hs Hwf; simpl; [exact Hs|].
  inversion Hs as [text|es es' Hes]; subst; [exact I|].
  destruct Hwf as [Hnd Hall].
  pose proof (find_entry_same Hes Hnd c) as Hf.
  destruct (find_entry c es) as [child|] eqn:Hc;
    destruct (find_entry c es') as [child'|]; simpl in Hf; try tauto.
  apply IH; [exact Hf|].
  apply find_entry_In in Hc.
  exact (All_In _ _ _ Hall Hc).
Qed.

Lemma same_contents_answers t t' :
  same_contents t t' -> well_formed t -> same_answers t t'.
Proof.
  intros Hs Hwf p. pose proof (lookup_same p Hs Hwf) as H.
  unfold exists_, is_dir, read_text.
  destruct (lookup t p) as [n|]; destruct (lookup t' p) as [n'|];
    simpl in H; try tauto.
  inversion H; subst; auto.
Qed.

Lemma Permutation_filter (A : Type) (f : A -> bool) l l' :
  Permutation l l' -> Permutation (filter f l) (filter f l').
Proof.
  induction 1 as [|x l l' _ IH|x y l|l1 l2 l3 _ IH1 _ IH2]; simpl.
  - constructor.
  - destruct (f x); [now constructor | exact IH].
  - destruct (f x), (f y); try apply Permutation_refl. apply perm_swap.
  - eapply Permutation_trans; eassumption.
Qed.

(** A glob returns the same paths for the two listings, in some order. *)
Lemma rglob_from_same :
  (forall t t',
      same_contents t t' ->
      forall pat here,
        Permutation (rglob_from pat here t) (rglob_from pat here t'))
  /\ (forall es es',
         same_entries es es' ->
         forall pat here,
           Permutation (matching pat here es) (matching pat here es')
           /\ Permutation
                (flat_map
                   (fun e => rglob_from pat (here ++ [fst e]) (snd e)) es)
                (flat_map
                   (fun e => rglob_from pat (here ++ [fst e]) (snd e)) es')).
Proof.
  apply same_contents_entries_ind.
  - intros text pat here. apply Permutation_refl.
  - intros es es' _ IH pat here. simpl.
    destruct (IH pat here). now apply Permutation_app.
  - intros pat here. split; constructor.
  - intros k a b es es' _ IHab _ IH pat here.
    destruct (IH pat here) as [Hm Hf]. split.
    + unfold matching in *. simpl.
      destruct (fnmatch pat k); simpl; [now constructor | exact Hm].
    + simpl. apply Permutation_app; [apply IHab | exact Hf].
  - intros x y es pat here. split.
    + unfold matching. apply Permutation_map, Permutation_filter, perm_swap.
    + simpl. apply Permutation_app_swap_app.
  - intros es1 es2 es3 _ IH12 _ IH23 pat here.
    destruct (IH12 pat here), (IH23 pat here).
    split; eapply Permutation_trans; eassumption.
Qed.

Lemma rglob_same t t' pat :
  same_contents t t' -> Permutation (rglob t pat) (rglob t' pat).
Proof. intros H. unfold rglob. now apply (proj1 rglob_from_same). Qed.

Lemma glob_same t t' p pat :
  same_contents t t' -> well_formed t ->
  Permutation (glob t p pat) (glob t' p pat).
Proof.
  intros Hs Hwf. pose proof (lookup_same p Hs Hwf) as H. unfold glob.
  destruct (lookup t p) as [n|]; destruct (lookup t' p) as [n'|];
    simpl in H; try tauto; [|constructor].
  inversion H; subst; [constructor|].
  now apply (proj2 rglob_from_same).
Qed.

End Listings.

(* ------------------------------------------------------------------ *)
(** ** The checks on two listings of one tree *)

Section Invariance.

Import FS Runner.

Variables (root : string) (t t' : node).

Hypothesis Hans : same_answers t t'.
Hypothesis Hrglob : forall pat, Permutation (rglob t pat) (rglob t' pat).
Hypothesis Hglob :
  forall p pat, Permutation (glob t p pat) (glob t' p pat).

Let self : RuleTestRunner := {| project_root := root; tree := t |}.
Let self' : RuleTestRunner := {| project_root := root; tree := t' |}.

Lemma existsb_Permutation (A : Type) (f : A -> bool) l l' :
  Permutation l l' -> existsb f l = existsb f l'.
Proof.
  induction 1 as [|x l l' _ IH|x y l|l1 l2 l3 _ IH1 _ IH2]; simpl.
  - reflexivity.
  - now rewrite IH.
  - destruct (f x), (f y); reflexivity.
  - now rewrite IH1.
Qed.

Lemma existsb_ext (A : Type) (f g : A -> bool) :
  (forall x, f x = g x) -> forall l, existsb f l = existsb g l.
Proof.
  intros Hfg l. induction l as [|x l IH]; simpl; [reflexivity|].
  now rewrite Hfg, IH.
Qed.

Lemma existsb_same (A : Type) (f g : A -> bool) l l' :
  (forall x, f x = g x) -> Permutation l l' -> existsb f l = existsb g l'.
Proof.
  intros Hfg Hp. rewrite (existsb_Permutation f Hp).
  apply existsb_ext. auto.
Qed.

Lemma is_nil_Permutation (A B : Type) (l l' : list A) (a b : B) :
  Permutation l l' ->
  match l with [] => a | _ => b end = match l' with [] => a | _ => b end.
Proof.
  intros Hp. destruct l as [|x l].
  - apply Permutation_nil in Hp. now subst.
  - destruct l' as [|y l']; [|reflexivity].
    apply Permutation_sym, Permutation_nil in Hp. discriminate.
Qed.

Lemma exists_same p : exists_ t p = exists_ t' p.
Proof. apply Hans. Qed.

Lemma is_dir_same p : is_dir t p = is_dir t' p.
Proof. apply Hans. Qed.

Lemma read_text_same p : read_text t p = read_text t' p.
Proof. apply Hans. Qed.

Lemma test_01a_same :
  test_01a_design_principles self = test_01a_design_principles self'.
Proof.
  unfold test_01a_design_principles. cbn [tree self self'].
  rewrite !exists_same.
  rewrite (@is_nil_Permutation _ _
             (rglob t "openapi.yaml" ++ rglob t "openapi.yml"
              ++ rglob t "swagger.yaml")
             (rglob t' "openapi.yaml" ++ rglob t' "openapi.yml"
              ++ rglob t' "swagger.yaml"))
    by (repeat apply Permutation_app; apply Hrglob).
  reflexivity.
Qed.

Lemma found_health_same : found_health self = found_health self'.
Proof.
  unfold found_health. cbn [tree self self'].
  apply existsb_ext. intros pattern.
  apply existsb_same; [|apply Hrglob].
  intros fp. now rewrite read_text_same.
Qed.

Lemma test_01b_same :
  test_01b_runtime_operations self = test_01b_runtime_operations self'.
Proof.
  unfold test_01b_runtime_operations. now rewrite found_health_same.
Qed.

Lemma inspect_dockerfile_same paths :
  inspect_dockerfile self paths = inspect_dockerfile self' paths.
Proof.
  induction paths as [|p paths IH]; simpl; [reflexivity|].
  rewrite exists_same, read_text_same, IH. reflexivity.
Qed.

Lemma test_02a_same :
  test_02a_container_design self = test_02a_container_design self'.
Proof.
  unfold test_02a_container_design. cbn [tree self self'].
  rewrite inspect_dockerfile_same.
  rewrite (existsb_ext (exists_ t) (exists_ t') exists_same).
  reflexivity.
Qed.

Lemma test_06a_same : test_06a_api_design self = test_06a_api_design self'.
Proof.
  unfold test_06a_api_design. cbn [tree self self'].
  rewrite (@existsb_same _
             (fun fp => match read_text t fp with
                        | Some content =>
                            Re.search Re.versioned_endpoint content
                        | None => false
                        end)
             (fun fp => match read_text t' fp with
                        | Some content =>
                            Re.search Re.versioned_endpoint content
                        | None => false
                        end)
             (rglob t "*.py" ++ rglob t "*.js" ++ rglob t "*.ts"
              ++ rglob t "*.go" ++ rglob t "*.java")
             (rglob t' "*.py" ++ rglob t' "*.js" ++ rglob t' "*.ts"
              ++ rglob t' "*.go" ++ rglob t' "*.java")).
  - reflexivity.
  - intros fp. now rewrite read_text_same.
  - repeat apply Permutation_app; apply Hrglob.
Qed.

Lemma test_07a_same :
  test_07a_testing_strategy self = test_07a_testing_strategy self'.
Proof.
  unfold test_07a_testing_strategy. cbn [tree self self'].
  rewrite (existsb_ext (fun p => exists_ t p && is_dir t p)
                       (fun p => exists_ t' p && is_dir t' p))
    by (intros p; now rewrite exists_same, is_dir_same).
  rewrite (existsb_ext (fun config => exists_ t (parts config))
                       (fun config => exists_ t' (parts config)))
    by (intros p; apply exists_same).
  reflexivity.
Qed.

Lemma auth_files_found_same : auth_files_found self = auth_files_found self'.
Proof.
  unfold auth_files_found. cbn [tree self self'].
  apply existsb_ext. intros pattern.
  apply existsb_same; [|apply Hrglob].
  intros fp. now rewrite read_text_same.
Qed.

Lemma test_03a_same :
  test_03a_authentication self = test_03a_authentication self'.
Proof.
  unfold test_03a_authentication. now rewrite auth_files_found_same.
Qed.

Lemma test_08b_same :
  test_08b_logging_standards self = test_08b_logging_standards self'.
Proof.
  unfold test_08b_logging_standards. cbn [tree self self'].
  rewrite (existsb_ext (fun config => exists_ t (parts config))
                       (fun config => exists_ t' (parts config)))
    by (intros p; apply exists_same).
  reflexivity.
Qed.

Lemma same_scan_trans o1 o2 o3 :
  same_scan o1 o2 -> same_scan o2 o3 -> same_scan o1 o3.
Proof.
  destruct o1, o2, o3; simpl; try tauto. apply Permutation_trans.
Qed.

Lemma scan_workflows_same_tree files :
  scan_workflows self files = scan_workflows self' files.
Proof.
  induction files as [|f files IH]; simpl; [reflexivity|].
  rewrite read_text_same, IH. reflexivity.
Qed.

Lemma scan_workflows_Permutation (s : RuleTestRunner) files files' :
  Permutation files files' ->
  same_scan (scan_workflows s files) (scan_workflows s files').
Proof.
  induction 1 as [|x l l' _ IH|x y l|l1 l2 l3 _ IH1 _ IH2].
  - simpl. constructor.
  - simpl. destruct (read_text (tree s) x); [|exact I].
    destruct (scan_workflows s l), (scan_workflows s l'); simpl in *;
      try tauto.
    now apply Permutation_app_head.
  - simpl.
    destruct (read_text (tree s) x), (read_text (tree s) y);
      try exact I.
    destruct (scan_workflows s l); simpl; [|exact I].
    apply Permutation_app_swap_app.
  - eapply same_scan_trans; eassumption.
Qed.

Lemma no_must_violation_Permutation vs vs' :
  Permutation vs vs' -> no_must_violation vs = no_must_violation vs'.
Proof.
  intros Hp. unfold no_must_violation, must_only.
  now rewrite (Permutation_length (Permutation_filter _ Hp)).
Qed.

Lemma no_violation_Permutation vs vs' :
  Permutation vs vs' -> no_violation vs = no_violation vs'.
Proof.
  intros Hp. unfold no_violation. now rewrite (Permutation_length Hp).
Qed.

Lemma details_of_Permutation label vs vs' :
  Permutation vs vs' -> details_of label vs = details_of label vs'.
Proof.
  intros Hp. unfold details_of. now rewrite (Permutation_length Hp).
Qed.

Lemma test_09a_same :
  same_outcome (test_09a_cicd_pipelines self) (test_09a_cicd_pipelines self').
Proof.
  unfold test_09a_cicd_pipelines. cbn [tree self self'].
  rewrite <- scan_workflows_same_tree.
  rewrite <- (existsb_ext (fun config => exists_ t (parts config))
                          (fun config => exists_ t' (parts config)))
    by (intros p; apply exists_same).
  rewrite <- exists_same.
  set (first := if negb _ then _ else _).
  set (o := if exists_ t [".github"; "workflows"]
            then scan_workflows self
                   (glob t [".github"; "workflows"] "*.yml"
                    ++ glob t [".github"; "workflows"] "*.yaml")
            else Ok []).
  set (o' := if exists_ t [".github"; "workflows"]
             then scan_workflows self
                    (glob t' [".github"; "workflows"] "*.yml"
                     ++ glob t' [".github"; "workflows"] "*.yaml")
             else Ok []).
  assert (Hscan : same_scan o o').
  { subst o o'.
    destruct (exists_ t [".github"; "workflows"]); [|simpl; constructor].
    apply scan_workflows_Permutation, Permutation_app; apply Hglob. }
  clearbody o o'.
  destruct o as [vs|e], o' as [vs'|e']; simpl in Hscan; try tauto;
    try exact I.
  cbn [bind same_outcome].
  assert (Hp : Permutation (first ++ vs) (first ++ vs'))
    by now apply Permutation_app_head.
  constructor; [|constructor]. split; [reflexivity|].
  repeat split;
    cbn [RuleTestResult.passed RuleTestResult.details
         RuleTestResult.violations snd].
  - now apply no_must_violation_Permutation.
  - now apply details_of_Permutation.
  - exact Hp.
Qed.

Lemma scan_file_same fp : scan_file self fp = scan_file self' fp.
Proof. unfold scan_file. cbn [tree self self']. now rewrite read_text_same. Qed.

Lemma test_05b_same :
  same_results (test_05b_secrets_management self)
               (test_05b_secrets_management self').
Proof.
  unfold test_05b_secrets_management.
  assert (Hp : Permutation (flat_map (scan_file self) (code_files self))
                           (flat_map (scan_file self') (code_files self'))).
  { rewrite (flat_map_ext _ _ scan_file_same).
    apply Permutation_flat_map. unfold code_files. cbn [tree self self'].
    repeat apply Permutation_app; apply Hrglob. }
  constructor; [|constructor]. split; [reflexivity|].
  repeat split;
    cbn [RuleTestResult.passed RuleTestResult.details
         RuleTestResult.violations snd].
  - now apply no_violation_Permutation.
  - now apply details_of_Permutation.
  - exact Hp.
Qed.

Lemma same_results_refl d : same_results d d.
Proof.
  induction d as [|kv d IH]; constructor; [|exact IH].
  split; [reflexivity|]. repeat split. apply Permutation_refl.
Qed.

(** The mappings of the two listings have the same keys and, rule by
    rule, the same flag, the same details and the same violations up to
    their order; or both runs are aborted. *)
Lemma run_all_tests_same :
  same_outcome (run_all_tests self) (run_all_tests self').
Proof.
  destruct (test_02a_container_design self) as [d2|e2] eqn:H2.
  - assert (H2' := H2). rewrite test_02a_same in H2'.
    pose proof test_09a_same as H9.
    destruct (test_09a_cicd_pipelines self) as [d9|e9] eqn:E9;
      destruct (test_09a_cicd_pipelines self') as [d9'|e9'] eqn:E9';
      simpl in H9; try tauto.
    + rewrite (run_all_tests_concat self H2 E9).
      rewrite (run_all_tests_concat self' H2' E9').
      rewrite <- test_01a_same, <- test_01b_same, <- test_03a_same,
        <- test_06a_same, <- test_07a_same, <- test_08b_same.
      cbn [same_outcome]. unfold same_results.
      repeat (apply Forall2_app;
              [first [exact test_05b_same | apply same_results_refl]|]).
      exact H9.
    + rewrite (run_all_tests_raise_09a self H2 E9).
      rewrite (run_all_tests_raise_09a self' H2' E9'). exact I.
  - assert (H2' := H2). rewrite test_02a_same in H2'.
    rewrite (run_all_tests_raise_02a self H2).
    rewrite (run_all_tests_raise_02a self' H2'). exact I.
Qed.

(** The two mappings are made of the same results but for those of 05B
    and 09A, which hold the same violations in an order that may
    differ. *)
Lemma run_all_tests_two_listings d d' :
  run_all_tests self = Ok d ->
  run_all_tests self' = Ok d' ->
  exists before middle vs5 vs5' vs9 vs9',
    d = before ++ return_05b vs5 ++ middle ++ return_09a vs9
    /\ d' = before ++ return_05b vs5' ++ middle ++ return_09a vs9'
    /\ Permutation vs5 vs5'
    /\ Permutation vs9 vs9'
    /\ map fst before
       = ["01A"; "01B"; "01C"; "02A"; "02B"; "02C"; "03A"; "03B"; "03C";
          "04A"; "04B"; "05A"]
    /\ map fst middle
       = ["06A"; "06B"; "06C"; "07A"; "07B"; "07C"; "08A"; "08B"; "08C"].
Proof.
  intros H H'.
  destruct (test_02a_container_design self) as [d2|e] eqn:E2;
    [|rewrite (run_all_tests_raise_02a self E2) in H; discriminate].
  destruct (test_09a_cicd_pipelines self) as [d9|e] eqn:E9;
    [|rewrite (run_all_tests_raise_09a self E2 E9) in H; discriminate].
  assert (E2' := E2). rewrite test_02a_same in E2'.
  destruct (test_09a_cicd_pipelines self') as [d9'|e] eqn:E9';
    [|rewrite (run_all_tests_raise_09a self' E2' E9') in H'; discriminate].
  rewrite (run_all_tests_concat self E2 E9) in H.
  rewrite (run_all_tests_concat self' E2' E9') in H'.
  apply Ok_inj in H, H'. subst d d'.
  rewrite <- test_01a_same, <- test_01b_same, <- test_03a_same,
    <- test_06a_same, <- test_07a_same, <- test_08b_same.
  pose proof test_09a_same as H9. rewrite E9, E9' in H9.
  destruct (test_02a_returns self E2) as [vs2 ->].
  destruct (test_09a_returns self E9) as [vs9 ->].
  destruct (test_09a_returns self' E9') as [vs9' ->].
  assert (Hp9 : Permutation vs9 vs9').
  { cbn [same_outcome] in H9. unfold same_results in H9.
    apply Forall2_cons_iff in H9 as [(_ & _ & _ & _ & Hp) _]. exact Hp. }
  assert (Hp5 : Permutation (flat_map (scan_file self) (code_files self))
                            (flat_map (scan_file self') (code_files self'))).
  { pose proof test_05b_same as H5. unfold same_results in H5.
    apply Forall2_cons_iff in H5 as [(_ & _ & _ & _ & Hp) _]. exact Hp. }
  exists (test_01a_design_principles self ++ test_01b_runtime_operations self
          ++ test_01c_governance ++ return_02a vs2
          ++ test_02b_network_topology ++ test_02c_service_metadata
          ++ test_03a_authentication self ++ test_03b_authorization
          ++ test_03c_security_encryption ++ test_04a_database_design
          ++ test_04b_database_operations ++ test_05a_environment_config),
    (test_06a_api_design self ++ test_06b_api_documentation
     ++ test_06c_api_versioning ++ test_07a_testing_strategy self
     ++ test_07b_test_implementation ++ test_07c_test_automation
     ++ test_08a_error_handling ++ test_08b_logging_standards self
     ++ test_08c_monitoring),
    (flat_map (scan_file self) (code_files self)),
    (flat_map (scan_file self') (code_files self')), vs9, vs9'.
  split; [rewrite <- !app_assoc; reflexivity|].
  split; [rewrite <- !app_assoc; reflexivity|].
  split; [exact Hp5|]. split; [exact Hp9|]. split; reflexivity.
Qed.

End Invariance.

(* ------------------------------------------------------------------ *)
(** ** The report and the listing order *)

Lemma list_sum_cons x l : list_sum (x :: l) = x + list_sum l.
Proof. reflexivity. Qed.

Lemma same_results_summary d d' : same_results d d' -> same_summary d d'.
Proof.
  unfold same_summary, passed_rules, total_violations, must_violations,
    dict_values.
  induction 1 as [|[k r] [k' r'] d d' [_ (_ & Hpass & _ & Hperm)] _ IH];
    [repeat split|].
  destruct IH as (Hlen & Hp & Ht & Hm). cbn [fst snd] in *.
  cbn [List.length map filter fst snd].
  rewrite !list_sum_cons, Hpass, Hlen, Ht, Hm, (Permutation_length Hperm).
  unfold must_only at 1 3.
  rewrite (Permutation_length (Permutation_filter _ Hperm)).
  repeat split.
  destruct (RuleTestResult.passed r'); cbn [List.length]; now rewrite Hp.
Qed.

Lemma dict_get_frame before middle (r5 r5' r9 r9' : RuleTestResult.t) key :
  key <> "05B" -> key <> "09A" ->
  dict_get (before ++ ("05B", r5) :: middle ++ [("09A", r9)]) key
  = dict_get (before ++ ("05B", r5') :: middle ++ [("09A", r9')]) key.
Proof.
  intros H5 H9. apply String.eqb_neq in H5, H9.
  rewrite String.eqb_sym in H5, H9.
  induction before as [|[k r] before IH]; cbn [app dict_get].
  - rewrite H5.
    induction middle as [|[k r] middle IH]; cbn [app dict_get].
    + now rewrite H9.
    + now rewrite IH.
  - now rewrite IH.
Qed.

Lemma dict_get_skip before rest key :
  existsb (String.eqb key) (map fst before) = false ->
  dict_get (before ++ rest) key = dict_get rest key.
Proof.
  induction before as [|[k r] before IH]; cbn [app dict_get map fst existsb];
    [reflexivity|].
  intros H. apply orb_false_elim in H as [Hk H].
  rewrite String.eqb_sym, Hk. now apply IH.
Qed.

Lemma Permutation_short (A : Type) (l l' : list A) :
  Permutation l l' -> List.length l <= 1 -> l = l'.
Proof.
  intros Hp Hl. destruct l as [|x [|y l]].
  - apply Permutation_nil in Hp. now subst.
  - apply Permutation_length_1_inv in Hp. now subst.
  - simpl in Hl. lia.
Qed.

Lemma concat_empty_cons x l :
  String.concat "" (x :: l) = (x ++ String.concat "" l)%string.
Proof.
  destruct l; simpl; [now rewrite append_empty_r | reflexivity].
Qed.

Lemma concat_empty_app l1 l2 :
  String.concat "" (l1 ++ l2)
  = (String.concat "" l1 ++ String.concat "" l2)%string.
Proof.
  induction l1 as [|x l1 IH]; [reflexivity|].
  cbn [app]. now rewrite !concat_empty_cons, IH, append_assoc.
Qed.

Lemma render_rule_eq k r :
  Report.render_rule (k, r)
  = ("### " ++ k ++ ": "
     ++ (if RuleTestResult.passed r then Report.mark_pass ++ " PASS"
         else Report.mark_fail ++ " FAIL")
     ++ Report.nl ++ RuleTestResult.details r ++ Report.nl ++ Report.nl
     ++ match RuleTestResult.violations r with
        | [] => ""
        | _ :: _ =>
            "**Violations:**" ++ Report.nl
            ++ violation_entries (RuleTestResult.violations r) ++ Report.nl
        end)%string.
Proof. unfold Report.render_rule. now destruct (RuleTestResult.violations r). Qed.

(** The block of a rule is the entries of its violations between two
    texts that the order of the violations does not change. *)
Lemma render_rule_entries k r r' :
  same_result r r' ->
  exists P Q,
    Report.render_rule (k, r)
    = (P ++ violation_entries (RuleTestResult.violations r) ++ Q)%string
    /\ Report.render_rule (k, r')
       = (P ++ violation_entries (RuleTestResult.violations r') ++ Q)%string.
Proof.
  intros (_ & Hpass & Hdet & Hperm). rewrite !render_rule_eq.
  rewrite <- Hpass, <- Hdet.
  set (head := ("### " ++ k ++ ": "
                ++ (if RuleTestResult.passed r
                    then Report.mark_pass ++ " PASS"
                    else Report.mark_fail ++ " FAIL")
                ++ Report.nl ++ RuleTestResult.details r ++ Report.nl
                ++ Report.nl)%string).
  assert (Hhead : forall tail,
             ("### " ++ k ++ ": "
              ++ (if RuleTestResult.passed r
                  then Report.mark_pass ++ " PASS"
                  else Report.mark_fail ++ " FAIL")
              ++ Report.nl ++ RuleTestResult.details r ++ Report.nl
              ++ Report.nl ++ tail)%string
             = (head ++ tail)%string).
  { intros tail. subst head. now rewrite !append_assoc. }
  rewrite !Hhead. clearbody head. clear Hhead.
  destruct (RuleTestResult.violations r) as [|v vs] eqn:Hv;
    destruct (RuleTestResult.violations r') as [|v' vs'] eqn:Hv'.
  - exists head, ""%string. split; reflexivity.
  - apply Permutation_nil in Hperm. discriminate.
  - apply Permutation_sym, Permutation_nil in Hperm. discriminate.
  - exists (head ++ "**Violations:**" ++ Report.nl)%string, Report.nl.
    split; now rewrite !append_assoc.
Qed.

Lemma sorted_items_rule_ids (results : results_dict) :
  map fst results = rule_ids -> Report.sorted_items results = results.
Proof.
  intros Hk. unfold rule_ids in Hk.
  repeat (destruct results as [|[? ?] results]; [discriminate Hk|];
          cbn [map fst] in Hk;
          apply (f_equal (@tl string)) in Hk as Hk';
          apply (f_equal (@hd_error string)) in Hk;
          cbn [hd_error tl] in Hk, Hk';
          injection Hk as ->; rename Hk' into Hk).
  destruct results; [reflexivity | discriminate Hk].
Qed.

(** The reports of two mappings that differ in the order of the
    violations of 05B and 09A only. *)
Lemma generate_report_two_listings before middle vs5 vs5' vs9 vs9' :
  Permutation vs5 vs5' ->
  Permutation vs9 vs9' ->
  Report.sorted_items
    (before ++ Runner.return_05b vs5 ++ middle ++ Runner.return_09a vs9)
  = before ++ Runner.return_05b vs5 ++ middle ++ Runner.return_09a vs9 ->
  Report.sorted_items
    (before ++ Runner.return_05b vs5' ++ middle ++ Runner.return_09a vs9')
  = before ++ Runner.return_05b vs5' ++ middle ++ Runner.return_09a vs9' ->
  exists A B C,
    Report.generate_report
      (before ++ Runner.return_05b vs5 ++ middle ++ Runner.return_09a vs9)
    = Ok (A ++ violation_entries vs5 ++ B ++ violation_entries vs9 ++ C)%string
    /\ Report.generate_report
         (before ++ Runner.return_05b vs5' ++ middle
          ++ Runner.return_09a vs9')
       = Ok (A ++ violation_entries vs5' ++ B ++ violation_entries vs9'
             ++ C)%string.
Proof.
  intros Hp5 Hp9 Hs Hs'.
  set (d := before ++ Runner.return_05b vs5 ++ middle
            ++ Runner.return_09a vs9) in *.
  set (d' := before ++ Runner.return_05b vs5' ++ middle
             ++ Runner.return_09a vs9') in *.
  assert (Hr5 : same_result
                  (RuleTestResult.mk "05B" (Runner.no_violation vs5) vs5
                     (Runner.details_of "Secrets management" vs5))
                  (RuleTestResult.mk "05B" (Runner.no_violation vs5') vs5'
                     (Runner.details_of "Secrets management" vs5'))).
  { repeat split; cbn [RuleTestResult.passed RuleTestResult.details
                       RuleTestResult.violations].
    - now apply no_violation_Permutation.
    - now apply details_of_Permutation.
    - exact Hp5. }
  assert (Hr9 : same_result
                  (RuleTestResult.mk "09A" (Runner.no_must_violation vs9) vs9
                     (Runner.details_of "CI/CD pipeline" vs9))
                  (RuleTestResult.mk "09A" (Runner.no_must_violation vs9')
                     vs9' (Runner.details_of "CI/CD pipeline" vs9'))).
  { repeat split; cbn [RuleTestResult.passed RuleTestResult.details
                       RuleTestResult.violations].
    - now apply no_must_violation_Permutation.
    - now apply details_of_Permutation.
    - exact Hp9. }
  assert (Hsame : same_results d d').
  { subst d d'. unfold same_results.
    apply Forall2_app; [apply same_results_refl|].
    apply Forall2_app; [constructor; [split; [reflexivity | exact Hr5]
                                     | constructor]|].
    apply Forall2_app; [apply same_results_refl|].
    constructor; [split; [reflexivity | exact Hr9] | constructor]. }
  destruct (same_results_summary Hsame) as (Hlen & Hpass & Htot & Hmust).
  destruct (render_rule_entries "05B" Hr5) as (P5 & Q5 & E5 & E5').
  destruct (render_rule_entries "09A" Hr9) as (P9 & Q9 & E9 & E9').
  cbn [RuleTestResult.violations] in E5, E5', E9, E9'.
  unfold Report.generate_report. rewrite Hs, Hs'.
  rewrite <- Hlen, <- Hpass, <- Htot, <- Hmust.
  destruct (Report.compliance_score (passed_rules d) (List.length d))
    as [x|e] eqn:Hx.
  - cbn [bind].
    exists (Report.summary (List.length d) (passed_rules d)
              (total_violations d) (must_violations d) x
            ++ String.concat "" (map Report.render_rule before) ++ P5)%string,
      (Q5 ++ String.concat "" (map Report.render_rule middle) ++ P9)%string,
      (Q9 ++ Report.recommendations (total_violations d)
                (must_violations d))%string.
    subst d d'. unfold Runner.return_05b, Runner.return_09a.
    rewrite !map_app, !concat_empty_app. cbn [map String.concat].
    rewrite E5, E5', E9, E9'.
    split; rewrite !append_assoc; reflexivity.
  - exfalso. unfold Report.compliance_score in Hx.
    subst d. destruct before; discriminate Hx.
Qed.

Lemma must_compliant_well_formed : well_formed must_compliant.
Proof.
  simpl. repeat split; repeat constructor; simpl; intuition discriminate.
Qed.

Lemma listing_ab_well_formed : well_formed listing_ab.
Proof.
  split; [|repeat split].
  repeat constructor; simpl; intuition discriminate.
Qed.

(** C9, as the code has it.  No glob is sorted: 05B and 09A render their
    violations in the order in which the directories list their entries.
    Two listings of the same contents make the two runs end alike, both
    completing or both aborted by a read failure.  When they complete,
    every rule but 05B and 09A has the very same result in both; 05B and
    09A have the same [passed] flag, the same details line and the same
    violations up to their order; the two reports are the same text but
    for the entries of the violations of 05B and of 09A, which stand at
    the same two places and are those of the same violations in an order
    that may differ; the counts of the summary and the exit status are
    the same.  When 05B and 09A report at most one violation each, the
    two mappings are equal and [main] ends the same way with the same
    output. *)
Theorem report_fixed_up_to_listing_order argv disk disk' :
  well_formed (Runner.tree (runner_of argv disk)) ->
  same_contents (Runner.tree (runner_of argv disk))
                (Runner.tree (runner_of argv disk')) ->
  same_outcome (Runner.run_all_tests (runner_of argv disk))
               (Runner.run_all_tests (runner_of argv disk'))
  /\ forall d d',
       Runner.run_all_tests (runner_of argv disk) = Ok d ->
       Runner.run_all_tests (runner_of argv disk') = Ok d' ->
       (forall key, key <> "05B" -> key <> "09A" ->
                    dict_get d key = dict_get d' key)
       /\ (exists r5 r5' r9 r9' A B C,
             dict_get d "05B" = Some r5
             /\ dict_get d' "05B" = Some r5'
             /\ dict_get d "09A" = Some r9
             /\ dict_get d' "09A" = Some r9'
             /\ same_result r5 r5'
             /\ same_result r9 r9'
             /\ Report.generate_report d
                = Ok (A ++ violation_entries (RuleTestResult.violations r5)
                      ++ B
                      ++ violation_entries (RuleTestResult.violations r9)
                      ++ C)%string
             /\ Report.generate_report d'
                = Ok (A ++ violation_entries (RuleTestResult.violations r5')
                      ++ B
                      ++ violation_entries (RuleTestResult.violations r9')
                      ++ C)%string
             /\ (List.length (RuleTestResult.violations r5) <= 1 ->
                 List.length (RuleTestResult.violations r9) <= 1 ->
                 d = d'
                 /\ forall io,
                      Main.main argv disk io = Main.main argv disk' io))
       /\ same_summary d d'
       /\ (forall io p p',
              Main.main argv disk io = Ok p ->
              Main.main argv disk' io = Ok p' ->
              Main.exit_code p = Main.exit_code p').
Proof.
  intros Hwf Hs.
  assert (Hans := same_contents_answers Hs Hwf).
  assert (Hrg : forall pat,
             Permutation (FS.rglob (Runner.tree (runner_of argv disk)) pat)
                         (FS.rglob (Runner.tree (runner_of argv disk')) pat))
    by (intros; now apply rglob_same).
  assert (Hgl : forall p pat,
             Permutation (FS.glob (Runner.tree (runner_of argv disk)) p pat)
                         (FS.glob (Runner.tree (runner_of argv disk')) p pat))
    by (intros; now apply glob_same).
  assert (Hrun : same_outcome (Runner.run_all_tests (runner_of argv disk))
                              (Runner.run_all_tests (runner_of argv disk')))
    by (now apply run_all_tests_same).
  split; [exact Hrun|].
  intros d d' Hd Hd'.
  destruct (run_all_tests_two_listings _ Hans Hrg Hgl Hd Hd')
    as (before & middle & vs5 & vs5' & vs9 & vs9'
        & Ed & Ed' & Hp5 & Hp9 & Hkb & Hkm).
  assert (Hsame : same_results d d') by (now rewrite Hd, Hd' in Hrun).
  assert (Hsum := same_results_summary Hsame).
  assert (Hexit : Main.exit_status d = Main.exit_status d').
  { unfold Main.exit_status. now destruct Hsum as (_ & _ & _ & ->). }
  assert (Hsort : Report.sorted_items d = d)
    by (apply sorted_items_rule_ids;
        exact (proj1 (run_all_tests_keys _ Hd))).
  assert (Hsort' : Report.sorted_items d' = d')
    by (apply sorted_items_rule_ids;
        exact (proj1 (run_all_tests_keys _ Hd'))).
  rewrite Ed in Hsort. rewrite Ed' in Hsort'.
  destruct (generate_report_two_listings before middle Hp5 Hp9 Hsort Hsort')
    as (A & B & C & HA & HA').
  rewrite <- Ed in HA. rewrite <- Ed' in HA'.
  assert (H5 : forall vs w rest,
             dict_get (before ++ Runner.return_05b vs ++ rest) "05B" = Some w
             <-> w = RuleTestResult.mk "05B" (Runner.no_violation vs) vs
                       (Runner.details_of "Secrets management" vs)).
  { intros vs w rest. rewrite dict_get_skip by (now rewrite Hkb).
    cbn [Runner.return_05b app dict_get String.eqb Ascii.eqb Bool.eqb].
    split; [now intros [= <-] | now intros ->]. }
  assert (H9 : forall vs vs0 w,
             dict_get (before ++ Runner.return_05b vs0 ++ middle
                       ++ Runner.return_09a vs) "09A" = Some w
             <-> w = RuleTestResult.mk "09A" (Runner.no_must_violation vs) vs
                       (Runner.details_of "CI/CD pipeline" vs)).
  { intros vs vs0 w. rewrite dict_get_skip by (now rewrite Hkb).
    cbn [Runner.return_05b app dict_get String.eqb Ascii.eqb Bool.eqb].
    rewrite dict_get_skip by (now rewrite Hkm).
    cbn [Runner.return_09a app dict_get String.eqb Ascii.eqb Bool.eqb].
    split; [now intros [= <-] | now intros ->]. }
  split; [|split; [|split]].
  - intros key K5 K9. rewrite Ed, Ed'.
    exact (dict_get_frame before middle _ _ _ _ K5 K9).
  - eexists. eexists. eexists. eexists. exists A, B, C.
    split; [rewrite Ed; apply H5; reflexivity|].
    split; [rewrite Ed'; apply H5; reflexivity|].
    split; [rewrite Ed; apply H9; reflexivity|].
    split; [rewrite Ed'; apply H9; reflexivity|].
    cbn [RuleTestResult.violations].
    split.
    { repeat split; cbn [RuleTestResult.passed RuleTestResult.details
                         RuleTestResult.violations].
      - now apply no_violation_Permutation.
      - now apply details_of_Permutation.
      - exact Hp5. }
    split.
    { repeat split; cbn [RuleTestResult.passed RuleTestResult.details
                         RuleTestResult.violations].
      - now apply no_must_violation_Permutation.
      - now apply details_of_Permutation.
      - exact Hp9. }
    split; [exact HA|]. split; [exact HA'|].
    intros L5 L9.
    assert (Heq : d = d').
    { rewrite Ed, Ed'.
      now rewrite (Permutation_short Hp5 L5), (Permutation_short Hp9 L9). }
    split; [exact Heq|]. intros io. unfold Main.main.
    fold (runner_of argv disk). fold (runner_of argv disk').
    now rewrite Hd, Hd', Heq.
  - exact Hsum.
  - intros io p p' Hp Hp'.
    destruct (generate_report_total (run_all_tests_nonempty _ Hd))
      as [report Hr].
    destruct (generate_report_total (run_all_tests_nonempty _ Hd'))
      as [report' Hr'].
    destruct (delivered argv io report) eqn:Hdel;
      [|destruct (main_not_delivered argv disk io Hd Hr Hdel)
          as (e & He & _); congruence].
    destruct (delivered argv io report') eqn:Hdel';
      [|destruct (main_not_delivered argv disk' io Hd' Hr' Hdel')
          as (e & He & _); congruence].
    destruct (main_delivered argv disk io Hd Hr Hdel) as (q & Hq & Hc).
    destruct (main_delivered argv disk' io Hd' Hr' Hdel') as (q' & Hq' & Hc').
    assert (p = q) by congruence. assert (p' = q') by congruence.
    subst q q'. now rewrite Hc, Hc'.
Qed.

Lemma report_fixed_up_to_listing_order_witness :
  same_outcome
    (Runner.run_all_tests
       (runner_of ["rule_test_runner.py"] (fun _ => listing_ab)))
    (Runner.run_all_tests
       (runner_of ["rule_test_runner.py"] (fun _ => listing_ba)))
  /\ exists d d',
       Runner.run_all_tests
         (runner_of ["rule_test_runner.py"] (fun _ => listing_ab)) = Ok d
       /\ Runner.run_all_tests
            (runner_of ["rule_test_runner.py"] (fun _ => listing_ba)) = Ok d'
       /\ dict_get d "06A" = dict_get d' "06A"
       /\ same_summary d d'.
Proof.
  assert (Hs : same_contents listing_ab listing_ba)
    by (constructor; apply se_swap).
  destruct (@report_fixed_up_to_listing_order ["rule_test_runner.py"]
              (fun _ => listing_ab) (fun _ => listing_ba)
              listing_ab_well_formed Hs)
    as (Hrun & Hall).
  split; [exact Hrun|].
  eexists. eexists. split; [reflexivity|]. split; [reflexivity|].
  destruct (Hall _ _ eq_refl eq_refl) as (Hkeys & _ & Hsum & _).
  split; [apply Hkeys; discriminate | exact Hsum].
Defined.

(** C9 as stated fails: two listings of the same two files give two
    different reports, because 05B renders its violations in the order
    in which the glob returned the files. *)
Lemma listing_order_changes_report :
  same_contents listing_ab listing_ba
  /\ well_formed listing_ab
  /\ exists p p',
       Main.main ["rule_test_runner.py"] (fun _ => listing_ab)
                 every_write_succeeds = Ok p
       /\ Main.main ["rule_test_runner.py"] (fun _ => listing_ba)
                    every_write_succeeds = Ok p'
       /\ Main.stdout p <> Main.stdout p'.
Proof.
  split; [constructor; apply se_swap|].
  split; [exact listing_ab_well_formed|].
  eexists. eexists. split; [vm_compute; reflexivity|].
  split; [vm_compute; reflexivity|].
  apply String.eqb_neq. vm_compute. reflexivity.
Qed.

(* ------------------------------------------------------------------ *)
(** ** Worked scenarios *)

Example scenario_missing_dockerfile :
  Runner.test_02a_container_design empty_project
  = Ok [("02A", RuleTestResult.mk "02A" false [Runner.v_02A_001]
                  "Container design compliance: 1 violations found")].
Proof. reflexivity. Qed.

Example scenario_workflow_without_security :
  exists r v,
    Runner.test_09a_cicd_pipelines
      {| Runner.project_root := "."; Runner.tree := workflow_without_security |}
    = Ok [("09A", r)]
    /\ RuleTestResult.passed r = true
    /\ RuleTestResult.violations r = [v]
    /\ RuleViolation.severity v = SHOULD
    /\ RuleViolation.description v = "Workflow missing stages: security"
    /\ RuleViolation.file_path v = Some ".github/workflows/ci.yml".
Proof. eexists. eexists. repeat split. Qed.

Example scenario_design_files_present :
  Runner.test_01a_design_principles
    {| Runner.project_root := "."; Runner.tree := must_compliant |}
  = [("01A", RuleTestResult.mk "01A" true []
               "Design principles compliance: 0 violations found")].
Proof. reflexivity. Qed.

(** SHOULD violations alone leave the exit status at 0. *)
Example scenario_should_only_exits_0 :
  exists p results,
    Main.main ["rule_test_runner.py"; "."; "report.md"]
              (fun _ => must_compliant) every_write_succeeds = Ok p
    /\ Runner.run_all_tests
         {| Runner.project_root := "."; Runner.tree := must_compliant |}
       = Ok results
    /\ total_violations results = 2
    /\ must_violations results = 0
    /\ Main.exit_code p = 0%Z
    /\ Main.stdout p
       = ("Compliance report written to report.md" ++ Report.nl)%string
    /\ option_map fst (Main.written p) = Some "report.md".
Proof. eexists. eexists. repeat split; vm_compute; reflexivity. Qed.

Example search_password_quotes :
  Re.search (Re.secret_assignment "password") "db_PassWord  =	'abc' # x"
  = true
  /\ Re.search (Re.secret_assignment "password") "password = ''" = false
  /\ Re.search (Re.secret_assignment "password") "password: 'abc'" = false
  /\ Re.search (Re.secret_assignment "password")
       ("password=" ++ String (ascii_of_N 34) "x"
                    ++ String (ascii_of_N 34) "")%string = true.
Proof. repeat split; vm_compute; reflexivity. Qed.

Example search_versioned_endpoint :
  Re.search Re.versioned_endpoint "GET /api/v12/users" = true
  /\ Re.search Re.versioned_endpoint "GET /api/v/users" = false
  /\ Re.search Re.versioned_endpoint "GET /api/V1/users" = false.
Proof. repeat split; vm_compute; reflexivity. Qed.

Example rglob_order :
  FS.rglob
    (FS.Dir [("b", FS.Dir [("x.py", FS.File None)]);
             ("a.py", FS.File (Some ""));
             ("c.py", FS.Dir [("d.py", FS.File None)])])
    "**/*.py"
  = [["a.py"]; ["c.py"]; ["b"; "x.py"]; ["c.py"; "d.py"]].
Proof. reflexivity. Qed.

Example fnmatch_env :
  FS.fnmatch "*.env*" ".env.local" = true
  /\ FS.fnmatch "*.py" "setup.pyc" = false
  /\ FS.parts ".circleci/config.yml" = [".circleci"; "config.yml"].
Proof. repeat split. Qed.

Example format_1f_values :
  Report.format_1f 0.25 = "0.2"
  /\ Report.format_1f 0.75 = "0.8"
  /\ Report.format_1f 100 = "100.0"
  /\ PyStr.split_nl "a
b
" = ["a"; "b"; ""].
Proof. repeat split; vm_compute; reflexivity. Qed.

Example normalize_values :
  map Main.normalize
      [""; "."; "./a//b/"; "a/.."; "/"; "/a"; "//"; "//x"; "//./x";
       "//a//b"; "///x"; "////"; ".//x"]
  = ["."; "."; "a/b"; "a/.."; "/"; "/a"; "//"; "//x"; "//x";
     "//a/b"; "/x"; "/"; "x"]
  /\ map (fun root => FS.path_str (Main.normalize root) ["docs"; "adr"])
         ["."; "a/"; "/"; "//"; "//x"; "///x"]
     = ["docs/adr"; "a/docs/adr"; "/docs/adr"; "//docs/adr";
        "//x/docs/adr"; "/x/docs/adr"].
Proof. split; vm_compute; reflexivity. Qed.

(** An output file that cannot be written ends the run by the exception
    of [open], after the checks and before anything is printed; a report
    that cannot be printed ends it by the exception of [print]. *)
Example scenario_output_not_written :
  Main.main ["rule_test_runner.py"; "."; "no-such-dir/report.md"]
            (fun _ => must_compliant) no_file_can_be_written
  = Raise (WriteError "no-such-dir/report.md")
  /\ Main.main ["rule_test_runner.py"; "."]
               (fun _ => must_compliant) nothing_can_be_printed
     = Raise PrintError
  /\ Main.main ["rule_test_runner.py"; "."; "report.md"]
               (fun _ => dockerfile_unreadable) no_file_can_be_written
     = Raise (ReadError ["Dockerfile"]).
Proof. repeat split; vm_compute; reflexivity. Qed.

(* ================================================================== *)
(** * Further properties of the checks, the report and the entry point *)

(* ------------------------------------------------------------------ *)
(** ** What a glob returns *)

Section GlobShape.

Import FS.

Lemma node_ind_All (P : node -> Prop) :
  (forall text, P (File text)) ->
  (forall es, All (fun e => P (snd e)) es -> P (Dir es)) ->
  forall t, P t.
Proof.
  intros HF HD. fix IH 1. intros [text|es]; [apply HF|].
  apply HD. induction es as [|[k c] es IHes]; simpl; auto.
Qed.

Lemma find_entry_NoDup es k c :
  NoDup (map fst es) -> In (k, c) es -> find_entry k es = Some c.
Proof.
  induction es as [|[k' c'] es IH]; simpl; [tauto|].
  intros Hnd [[= -> ->]|Hin].
  - now rewrite String.eqb_refl.
  - inversion Hnd as [|? ? Hnot Hnd']; subst.
    destruct (String.eqb_spec k' k) as [->|_]; [|auto].
    exfalso. apply Hnot. apply in_map_iff. now exists (k, c).
Qed.

(** Every path of a glob ends in a name that matches the pattern. *)
Lemma rglob_from_shape pat :
  forall t here p,
    In p (rglob_from pat here t) ->
    exists rel name, p = here ++ rel ++ [name] /\ fnmatch pat name = true.
Proof.
  induction t as [text|es IH] using node_ind_All; intros here p; simpl;
    [tauto|].
  rewrite in_app_iff, in_flat_map. intros [Hm|[[k c] [Hin Hp]]].
  - unfold matching in Hm. apply in_map_iff in Hm as ([k c] & <- & Hf).
    apply filter_In in Hf as [_ Hf]. exists [], k. now split.
  - destruct (All_In _ _ _ IH Hin _ _ Hp) as (rel & name & -> & Hf).
    exists (k :: rel), name. split; [|exact Hf].
    simpl. now rewrite <- app_assoc.
Qed.

(** In a tree without repeated names every path of a glob is a path of
    the tree. *)
Lemma rglob_from_sound pat :
  forall t here p,
    well_formed t ->
    In p (rglob_from pat here t) ->
    exists rel name,
      p = here ++ rel ++ [name]
      /\ fnmatch pat name = true
      /\ exists_ t (rel ++ [name]) = true.
Proof.
  induction t as [text|es IH] using node_ind_All; intros here p Hwf; simpl;
    [tauto|].
  destruct Hwf as [Hnd Hall].
  rewrite in_app_iff, in_flat_map. intros [Hm|[[k c] [Hin Hp]]].
  - unfold matching in Hm. apply in_map_iff in Hm as ([k c] & <- & Hf).
    apply filter_In in Hf as [Hin Hf]. exists [], k.
    split; [reflexivity|]. split; [exact Hf|].
    unfold exists_. simpl. now rewrite (find_entry_NoDup _ _ _ Hnd Hin).
  - destruct (All_In _ _ _ IH Hin _ _ (All_In _ _ _ Hall Hin) Hp)
      as (rel & name & -> & Hf & Hex).
    exists (k :: rel), name. split; [simpl; now rewrite <- app_assoc|].
    split; [exact Hf|].
    unfold exists_ in *. simpl.
    now rewrite (find_entry_NoDup _ _ _ Hnd Hin).
Qed.

(** A scan of one glob for a readable file with a good text. *)
Lemma scan_glob_spec t pat (good : string -> bool) :
  existsb (fun fp => match read_text t fp with
                     | Some content => good content
                     | None => false
                     end) (rglob t pat) = true
  <-> exists dir name content,
        fnmatch (strip_recursive pat) name = true
        /\ read_text t (dir ++ [name]) = Some content
        /\ good content = true.
Proof.
  rewrite existsb_exists. unfold rglob. split.
  - intros (fp & Hin & Hgood).
    destruct (rglob_from_shape _ _ _ _ Hin) as (rel & name & -> & Hf).
    destruct (read_text t ([] ++ rel ++ [name])) as [content|] eqn:Hr;
      [|discriminate].
    exists rel, name, content. now repeat split.
  - intros (dir & name & content & Hf & Hr & Hgood).
    exists (dir ++ [name]). rewrite Hr. split; [|exact Hgood].
    destruct (read_text_lookup _ _ Hr) as [n Hn].
    exact (rglob_from_complete _ name dir t [] Hn Hf).
Qed.

(** A scan of several globs, one after the other. *)
Lemma scan_globs_spec t pats (good : string -> bool) :
  existsb (fun pat =>
             existsb (fun fp => match read_text t fp with
                                | Some content => good content
                                | None => false
                                end) (rglob t pat)) pats = true
  <-> some_readable t (map strip_recursive pats) good.
Proof.
  rewrite existsb_exists. unfold some_readable. split.
  - intros (pat & Hin & H). apply scan_glob_spec in H
      as (dir & name & content & Hf & Hr & Hg).
    exists (strip_recursive pat), dir, name, content.
    split; [now apply in_map|]. now repeat split.
  - intros (pat' & dir & name & content & Hin & Hf & Hr & Hg).
    apply in_map_iff in Hin as (pat & <- & Hin).
    exists pat. split; [exact Hin|]. apply scan_glob_spec.
    exists dir, name, content. now repeat split.
Qed.

End GlobShape.

(* ------------------------------------------------------------------ *)
(** ** Container design (02A), case by case *)

Section ContainerDesign.

Import Runner.

Variable self : RuleTestRunner.

Lemma existsb_false_Forall (A : Type) (f : A -> bool) l :
  existsb f l = false <-> Forall (fun x => f x = false) l.
Proof.
  induction l as [|x l IH]; simpl.
  - split; [constructor | reflexivity].
  - rewrite orb_false_iff, IH. split.
    + intros [Hx Hl]. now constructor.
    + intros H. now inversion H.
Qed.

(** X1.  When none of the three candidate paths exists, 02A returns the
    single MUST violation 02A-001 and [passed = false]. *)
Theorem missing_dockerfile_reported :
  Forall (fun p => FS.exists_ (tree self) p = false) dockerfile_paths ->
  test_02a_container_design self
  = Ok [("02A", RuleTestResult.mk "02A" false [v_02A_001]
                  "Container design compliance: 1 violations found")].
Proof.
  intros H. apply existsb_false_Forall in H.
  unfold test_02a_container_design. rewrite H. reflexivity.
Qed.

(** X2.  When the first existing candidate can be read, 02A passes
    exactly when its text holds [USER ]: a missing HEALTHCHECK adds the
    SHOULD violation 02A-003 and does not fail the rule, and 02A-001 is
    not reported. *)
Theorem container_design_passes_iff_user p content :
  first_existing (tree self) dockerfile_paths = Some p ->
  FS.read_text (tree self) p = Some content ->
  exists r,
    test_02a_container_design self = Ok [("02A", r)]
    /\ RuleTestResult.passed r = PyStr.str_in "USER " content
    /\ (In (v_02A_002 self p) (RuleTestResult.violations r)
        <-> PyStr.str_in "USER " content = false)
    /\ (In (v_02A_003 self p) (RuleTestResult.violations r)
        <-> PyStr.str_in "HEALTHCHECK" content = false)
    /\ ~ In v_02A_001 (RuleTestResult.violations r)
    /\ List.length (RuleTestResult.violations r) <= 2.
Proof.
  intros Hfirst Hread.
  unfold test_02a_container_design.
  rewrite inspect_dockerfile_first, Hfirst, Hread.
  destruct (existsb (FS.exists_ (tree self)) dockerfile_paths) eqn:Hex.
  2:{ apply existsb_find_none in Hex. unfold first_existing in Hfirst.
      rewrite Hex in Hfirst. discriminate. }
  cbn [negb bind]. eexists. split; [reflexivity|].
  cbn [RuleTestResult.passed RuleTestResult.violations].
  assert (N23 : v_02A_002 self p <> v_02A_003 self p) by discriminate.
  assert (N12 : v_02A_001 <> v_02A_002 self p) by discriminate.
  assert (N13 : v_02A_001 <> v_02A_003 self p) by discriminate.
  destruct (PyStr.str_in "USER " content),
    (PyStr.str_in "HEALTHCHECK" content);
    cbn [negb app In List.length no_must_violation must_only filter
         RuleViolation.severity v_02A_002 v_02A_003 Severity_eqb Nat.eqb];
    repeat split; intros; try lia; try congruence; try tauto;
    intuition congruence.
Qed.


End ContainerDesign.

(* ------------------------------------------------------------------ *)
(** ** The existence checks and the existence scans *)

Section ExistenceChecks.

Import FS Runner.

Variable self : RuleTestRunner.

Let t : node := tree self.

Lemma fnmatch_literal pat : forall name,
  star_free pat = true -> (fnmatch pat name = true <-> name = pat).
Proof.
  induction pat as [|c pat IH]; intros name Hs; simpl.
  - destruct name; split; congruence.
  - simpl in Hs. apply andb_prop in Hs as [Hc Hs].
    destruct (Ascii.eqb c "*"); [discriminate|].
    destruct name as [|d name]; [split; discriminate|].
    rewrite andb_true_iff, Ascii.eqb_eq, (IH name Hs).
    split; [intros [-> ->]; reflexivity | intros [= -> ->]; auto].
Qed.

(** In a tree without repeated names a glob is empty exactly when no
    path of the tree ends in a matching name. *)
Lemma rglob_empty_iff pat :
  well_formed t ->
  (rglob t pat = []
   <-> ~ exists dir name,
           fnmatch (strip_recursive pat) name = true
           /\ exists_ t (dir ++ [name]) = true).
Proof.
  intros Hwf. unfold rglob. split.
  - intros Hnil (dir & name & Hf & Hex). unfold exists_ in Hex.
    destruct (lookup t (dir ++ [name])) as [n|] eqn:Hn; [|discriminate].
    pose proof (rglob_from_complete _ name dir t [] Hn Hf) as Hin.
    rewrite Hnil in Hin. destruct Hin.
  - intros Hno.
    destruct (rglob_from (strip_recursive pat) [] t) as [|p l] eqn:Hg;
      [reflexivity|].
    exfalso. apply Hno.
    destruct (rglob_from_sound (strip_recursive pat) t [] p Hwf)
      as (rel & name & _ & Hf & Hex); [rewrite Hg; now left|].
    now exists rel, name.
Qed.

(** X4.  In a tree without repeated names, 01A reports 01A-001 exactly
    when no path of the tree is named openapi.yaml, openapi.yml or
    swagger.yaml, 01A-002 exactly when perf-budget.yaml does not exist at
    the root and 01A-003 exactly when docs/adr does not exist (a regular
    file of that name counts as present); all its violations are MUST and
    it passes exactly when it reports none. *)
Theorem design_principles_violations :
  well_formed t ->
  exists r,
    test_01a_design_principles self = [("01A", r)]
    /\ (In v_01A_001 (RuleTestResult.violations r)
        <-> ~ exists dir name,
                In name ["openapi.yaml"; "openapi.yml"; "swagger.yaml"]
                /\ exists_ t (dir ++ [name]) = true)
    /\ (In v_01A_002 (RuleTestResult.violations r)
        <-> exists_ t ["perf-budget.yaml"] = false)
    /\ (In v_01A_003 (RuleTestResult.violations r)
        <-> exists_ t ["docs"; "adr"] = false)
    /\ (RuleTestResult.passed r = true <-> RuleTestResult.violations r = [])
    /\ Forall (fun v => RuleViolation.severity v = MUST)
              (RuleTestResult.violations r).
Proof.
  intros Hwf. unfold test_01a_design_principles. fold t.
  eexists. split; [reflexivity|].
  cbn [RuleTestResult.passed RuleTestResult.violations].
  assert (Hfiles :
            rglob t "openapi.yaml" ++ rglob t "openapi.yml"
            ++ rglob t "swagger.yaml" = []
            <-> ~ exists dir name,
                    In name ["openapi.yaml"; "openapi.yml"; "swagger.yaml"]
                    /\ exists_ t (dir ++ [name]) = true).
  { split.
    - intros Hnil (dir & name & Hin & Hex).
      apply app_eq_nil in Hnil as [H1 H23].
      apply app_eq_nil in H23 as [H2 H3].
      simpl in Hin.
      destruct Hin as [<-|[<-|[<-|[]]]];
        [ apply (rglob_empty_iff _ Hwf) in H1; apply H1
        | apply (rglob_empty_iff _ Hwf) in H2; apply H2
        | apply (rglob_empty_iff _ Hwf) in H3; apply H3 ];
        eexists dir, _; (split; [|exact Hex]); reflexivity.
    - intros Hno.
      assert (Hone : forall name,
                 In name ["openapi.yaml"; "openapi.yml"; "swagger.yaml"] ->
                 star_free name = true -> strip_recursive name = name ->
                 rglob t name = []).
      { intros name Hin Hs Hstrip. apply (rglob_empty_iff _ Hwf).
        intros (dir & nm & Hf & Hex). rewrite Hstrip in Hf.
        apply (fnmatch_literal _ nm Hs) in Hf. subst nm.
        apply Hno. now exists dir, name. }
      rewrite !Hone; simpl; auto. }
  assert (N12 : v_01A_001 <> v_01A_002) by discriminate.
  assert (N13 : v_01A_001 <> v_01A_003) by discriminate.
  assert (N23 : v_01A_002 <> v_01A_003) by discriminate.
  destruct (rglob t "openapi.yaml" ++ rglob t "openapi.yml"
            ++ rglob t "swagger.yaml") as [|f fs];
    destruct (exists_ t ["perf-budget.yaml"]),
      (exists_ t ["docs"; "adr"]);
    cbn [negb app In no_violation List.length Nat.eqb];
    repeat split; intros; try discriminate; try congruence;
    try (repeat constructor; fail);
    try (exfalso; apply Hfiles; [reflexivity | assumption]);
    try (apply Hfiles in H; discriminate);
    try tauto; try intuition congruence.
  all: try (destruct Hfiles as [Hf _]; intros He; specialize (Hf eq_refl);
            intuition congruence).
Qed.

Lemma prefix_app_l a b s :
  String.prefix (a ++ b)%string s = true -> String.prefix a s = true.
Proof.
  revert s. induction a as [|c a IH]; intros [|d s]; simpl;
    try reflexivity; try discriminate.
  destruct (Ascii.ascii_dec c d); [apply IH | discriminate].
Qed.

Lemma str_in_nil n : PyStr.str_in n "" = String.prefix n "" || false.
Proof. reflexivity. Qed.

Lemma str_in_cons n c s :
  PyStr.str_in n (String c s)
  = String.prefix n (String c s) || PyStr.str_in n s.
Proof. reflexivity. Qed.

Lemma prefix_str_in a s : String.prefix a s = true -> PyStr.str_in a s = true.
Proof.
  intros H. destruct s; [rewrite str_in_nil | rewrite str_in_cons];
    now rewrite H.
Qed.

(** A text that holds a word holds each of its prefixes. *)
Lemma str_in_app_l a b s :
  PyStr.str_in (a ++ b)%string s = true -> PyStr.str_in a s = true.
Proof.
  induction s as [|c s IH].
  - rewrite !str_in_nil, !orb_true_iff.
    intros [H|H]; [left; now apply prefix_app_l with b | discriminate].
  - rewrite !str_in_cons, !orb_true_iff.
    intros [H|H]; [left; now apply prefix_app_l with b | right; auto].
Qed.

(** A text that holds a word holds the word without its first letter. *)
Lemma str_in_tail c a s :
  PyStr.str_in (String c a) s = true -> PyStr.str_in a s = true.
Proof.
  induction s as [|d s IH].
  - rewrite str_in_nil. discriminate.
  - rewrite !str_in_cons, !orb_true_iff. intros [H|H].
    + right. apply prefix_str_in. simpl in H.
      destruct (Ascii.ascii_dec c d); [exact H | discriminate].
    + right. auto.
Qed.

Lemma health_patterns_reduced content :
  PyStr.any_in health_patterns content
  = PyStr.str_in "/health" content || PyStr.str_in "/ready" content.
Proof.
  unfold PyStr.any_in, health_patterns. simpl existsb.
  destruct (PyStr.str_in "/healthz" content) eqn:Hz.
  - rewrite (str_in_app_l "/health" "z" content Hz). reflexivity.
  - now rewrite orb_false_r.
Qed.

Lemma auth_patterns_reduced content :
  PyStr.any_in auth_patterns content
  = PyStr.str_in "auth" content || PyStr.str_in "jwt" content
    || PyStr.str_in "saml" content || PyStr.str_in "ldap" content.
Proof.
  unfold PyStr.any_in, auth_patterns. simpl existsb.
  destruct (PyStr.str_in "oauth" content) eqn:Ho.
  - rewrite (str_in_tail "o" "auth" content Ho). reflexivity.
  - destruct (PyStr.str_in "auth" content), (PyStr.str_in "jwt" content),
      (PyStr.str_in "saml" content), (PyStr.str_in "ldap" content);
      reflexivity.
Qed.

Lemma some_readable_ext pats (good good' : string -> bool) :
  (forall c, good c = good' c) ->
  some_readable t pats good <-> some_readable t pats good'.
Proof.
  intros He. unfold some_readable.
  split; intros (pat & dir & name & content & H1 & H2 & H3 & H4);
    exists pat, dir, name, content; repeat split; auto; congruence.
Qed.

(** X5.  01B passes exactly when some readable file named *.yaml, *.yml,
    *.json, *.py, *.js or *.ts holds [/health] or [/ready] (the pattern
    [/healthz] adds nothing); otherwise it reports the single violation
    01B-001. *)
Theorem runtime_operations_passes_iff :
  exists r,
    test_01b_runtime_operations self = [("01B", r)]
    /\ (RuleTestResult.passed r = true
        <-> some_readable t
              ["*.yaml"; "*.yml"; "*.json"; "*.py"; "*.js"; "*.ts"]
              (fun c => PyStr.str_in "/health" c || PyStr.str_in "/ready" c))
    /\ (RuleTestResult.passed r = true -> RuleTestResult.violations r = [])
    /\ (RuleTestResult.passed r = false ->
        RuleTestResult.violations r = [v_01B_001]).
Proof.
  unfold test_01b_runtime_operations. eexists. split; [reflexivity|].
  cbn [RuleTestResult.passed RuleTestResult.violations].
  assert (Hf : found_health self = true
               <-> some_readable t
                     ["*.yaml"; "*.yml"; "*.json"; "*.py"; "*.js"; "*.ts"]
                     (fun c => PyStr.str_in "/health" c
                               || PyStr.str_in "/ready" c)).
  { unfold found_health. fold t. rewrite scan_globs_spec.
    apply some_readable_ext, health_patterns_reduced. }
  destruct (found_health self); cbn; repeat split; try tauto;
    try discriminate; intros; try (apply Hf; assumption).
  all: try (apply Hf in H; discriminate).
Qed.

(** X6.  03A reports 03A-001 exactly when no readable file named *.yaml,
    *.yml, *.json or *.env* holds, in any letter case, one of [auth],
    [jwt], [saml], [ldap] (the pattern [oauth] adds nothing). *)
Theorem authentication_reported_iff :
  exists r,
    test_03a_authentication self = [("03A", r)]
    /\ (RuleTestResult.violations r = []
        <-> some_readable t ["*.yaml"; "*.yml"; "*.json"; "*.env*"]
              (fun c =>
                 PyStr.str_in "auth" (PyStr.lower c)
                 || PyStr.str_in "jwt" (PyStr.lower c)
                 || PyStr.str_in "saml" (PyStr.lower c)
                 || PyStr.str_in "ldap" (PyStr.lower c)))
    /\ (RuleTestResult.violations r <> [] ->
        RuleTestResult.violations r = [v_03A_001]).
Proof.
  unfold test_03a_authentication. eexists. split; [reflexivity|].
  cbn [RuleTestResult.violations].
  assert (Hf : auth_files_found self = true
               <-> some_readable t ["*.yaml"; "*.yml"; "*.json"; "*.env*"]
                     (fun c =>
                        PyStr.str_in "auth" (PyStr.lower c)
                        || PyStr.str_in "jwt" (PyStr.lower c)
                        || PyStr.str_in "saml" (PyStr.lower c)
                        || PyStr.str_in "ldap" (PyStr.lower c))).
  { unfold auth_files_found. fold t.
    rewrite (scan_globs_spec t
               ["**/*.yaml"; "**/*.yml"; "**/*.json"; "**/*.env*"]
               (fun text => PyStr.any_in auth_patterns (PyStr.lower text))).
    apply some_readable_ext. intros c. apply auth_patterns_reduced. }
  destruct (auth_files_found self); cbn; repeat split; try tauto;
    try discriminate; intros; try (apply Hf; reflexivity).
  all: try (apply Hf in H; discriminate).
Qed.

End ExistenceChecks.

(* ------------------------------------------------------------------ *)
(** ** What the two kinds of pattern match *)

Section PatternShapes.

Import Re.

#[local] Open Scope string_scope.

Lemma matches_cls_inv p s :
  Matches (Cls p) s -> exists c, s = String c "" /\ p c = true.
Proof. intros H. inversion H; subst. eauto. Qed.

Lemma matches_cat_inv r1 r2 s :
  Matches (Cat r1 r2) s ->
  exists s1 s2, s = s1 ++ s2 /\ Matches r1 s1 /\ Matches r2 s2.
Proof. intros H. inversion H; subst. eauto. Qed.

Lemma all_chars_app p s1 s2 :
  all_chars p (s1 ++ s2) = all_chars p s1 && all_chars p s2.
Proof.
  induction s1 as [|c s1 IH]; simpl; [reflexivity|].
  now rewrite IH, andb_assoc.
Qed.

Lemma matches_star_cls_inv p r s :
  Matches r s -> r = Star (Cls p) -> all_chars p s = true.
Proof.
  induction 1 as [ | | | | | | r0 s1 s2 H1 _ H2 IH2 ]; intros E;
    try discriminate; [reflexivity|].
  injection E as ->. rewrite all_chars_app, (IH2 eq_refl).
  apply matches_cls_inv in H1 as (c & -> & Hc). simpl. now rewrite Hc.
Qed.

Lemma matches_plus_cls_inv p s :
  Matches (plus (Cls p)) s ->
  exists c rest, s = String c rest /\ all_chars p s = true.
Proof.
  intros H. apply matches_cat_inv in H as (s1 & s2 & -> & H1 & H2).
  apply matches_cls_inv in H1 as (c & -> & Hc).
  exists c, s2. split; [reflexivity|]. simpl.
  now rewrite Hc, (matches_star_cls_inv H2 eq_refl).
Qed.

Lemma matches_lit_ci_inv kw : forall w,
  Matches (lit_ci kw) w -> PyStr.lower w = PyStr.lower kw.
Proof.
  induction kw as [|k kw IH]; intros w H; simpl in H.
  - inversion H. reflexivity.
  - apply matches_cat_inv in H as (s1 & s2 & -> & H1 & H2).
    apply matches_cls_inv in H1 as (c & -> & Hc).
    apply Ascii.eqb_eq in Hc. simpl. now rewrite Hc, (IH _ H2).
Qed.

Lemma matches_chr_inv c s : Matches (chr c) s -> s = String c "".
Proof.
  intros H. apply matches_cls_inv in H as (d & -> & Hd).
  apply Ascii.eqb_eq in Hd. now subst.
Qed.

Lemma equals_sign_has_no_case x :
  Ascii.eqb (PyStr.lower_char x) (PyStr.lower_char "=") = true -> x = "="%char.
Proof.
  destruct x as [[] [] [] [] [] [] [] []]; vm_compute; intros H;
    first [reflexivity | discriminate].
Qed.

(** X7.  The versioned-endpoint pattern is found in a text exactly when
    the text holds a slash, a lower-case [v], one or more decimal digits
    and a slash, in a row. *)
Theorem versioned_endpoint_shape content :
  search versioned_endpoint content = true
  <-> exists pre d digits post,
        content = pre ++ "/v" ++ String d digits ++ "/" ++ post
        /\ all_chars is_digit (String d digits) = true.
Proof.
  rewrite search_spec. unfold versioned_endpoint. split.
  - intros (pre & mid & post & -> & H).
    apply matches_cat_inv in H as (a & m1 & -> & Ha & H).
    apply matches_cat_inv in H as (b & m2 & -> & Hb & H).
    apply matches_cat_inv in H as (ds & e & -> & Hds & He).
    apply matches_chr_inv in Ha, Hb, He. subst a b e.
    apply matches_plus_cls_inv in Hds as (d & digits & -> & Hd).
    exists pre, d, digits, post. split; [|exact Hd].
    simpl. now rewrite append_assoc.
  - intros (pre & d & digits & post & -> & Hd).
    exists pre, ("/v" ++ String d digits ++ "/"), post. split.
    + simpl. now rewrite append_assoc.
    + change ("/v" ++ String d digits ++ "/")
        with ("/" ++ ("v" ++ (String d digits ++ "/"))).
      constructor; [constructor; reflexivity|].
      constructor; [constructor; reflexivity|].
      constructor; [|constructor; reflexivity].
      simpl in Hd. apply andb_prop in Hd as [Hd Hds].
      unfold plus. change (String d digits) with (String d "" ++ digits).
      constructor; [now constructor | now apply matches_star_cls].
Qed.

(** X8.  A secret pattern is found in a line exactly when the line holds
    the keyword in any letter case, optional white space, an equals
    sign, optional white space, a quote of either kind, one or more
    characters that are not quotes, and a quote of either kind: the
    quoted text cannot be empty and the two quotes need not be the
    same. *)
Theorem secret_assignment_shape kw line :
  search (secret_assignment kw) line = true
  <-> exists pre w ws1 ws2 q1 b body q2 post,
        line = pre
               ++ (w ++ ws1 ++ "=" ++ ws2
                     ++ String q1 (String b body ++ String q2 ""))
               ++ post
        /\ PyStr.lower w = PyStr.lower kw
        /\ all_chars is_space ws1 = true
        /\ all_chars is_space ws2 = true
        /\ is_quote q1 = true
        /\ all_chars (fun c => negb (is_quote c)) (String b body) = true
        /\ is_quote q2 = true.
Proof.
  split.
  - intros H. apply search_spec in H as (pre & mid & post & -> & H).
    unfold secret_assignment in H.
    apply matches_cat_inv in H as (w & m1 & -> & Hw & H).
    apply matches_cat_inv in H as (ws1 & m2 & -> & H1 & H).
    apply matches_cat_inv in H as (eq & m3 & -> & Heq & H).
    apply matches_cat_inv in H as (ws2 & m4 & -> & H2 & H).
    apply matches_cat_inv in H as (sq1 & m5 & -> & Hq1 & H).
    apply matches_cat_inv in H as (bd & sq2 & -> & Hbd & Hq2).
    apply matches_cls_inv in Heq as (e & -> & He).
    apply equals_sign_has_no_case in He. subst e.
    apply matches_cls_inv in Hq1 as (q1 & -> & Hq1).
    apply matches_cls_inv in Hq2 as (q2 & -> & Hq2).
    apply matches_plus_cls_inv in Hbd as (b & body & -> & Hb).
    exists pre, w, ws1, ws2, q1, b, body, q2, post.
    split; [reflexivity|].
    split; [now apply matches_lit_ci_inv|].
    split; [exact (matches_star_cls_inv H1 eq_refl)|].
    split; [exact (matches_star_cls_inv H2 eq_refl)|].
    now repeat split.
  - intros (pre & w & ws1 & ws2 & q1 & b & body & q2 & post & -> & Hw & H1
            & H2 & Hq1 & Hb & Hq2).
    now apply secret_assignment_found.
Qed.

End PatternShapes.

(* ------------------------------------------------------------------ *)
(** ** API design (06A), testing strategy (07A), logging (08B) *)

Section MoreChecks.

Import FS Runner.

Variable self : RuleTestRunner.

Let t : node := tree self.

(** X9.  06A passes exactly when some readable file named *.py, *.js,
    *.ts, *.go or *.java holds a versioned endpoint; otherwise it reports
    the single MUST violation 06A-001. *)
Theorem api_design_passes_iff :
  exists r,
    test_06a_api_design self = [("06A", r)]
    /\ (RuleTestResult.passed r = true
        <-> some_readable t ["*.py"; "*.js"; "*.ts"; "*.go"; "*.java"]
              (Re.search Re.versioned_endpoint))
    /\ (RuleTestResult.passed r = true -> RuleTestResult.violations r = [])
    /\ (RuleTestResult.passed r = false ->
        RuleTestResult.violations r = [v_06A_001]).
Proof.
  unfold test_06a_api_design. fold t. eexists. split; [reflexivity|].
  cbn [RuleTestResult.passed RuleTestResult.violations].
  set (f := fun file_path => match read_text t file_path with
                             | Some content =>
                                 Re.search Re.versioned_endpoint content
                             | None => false
                             end).
  assert (Hf : existsb f (rglob t "*.py" ++ rglob t "*.js" ++ rglob t "*.ts"
                          ++ rglob t "*.go" ++ rglob t "*.java") = true
               <-> some_readable t ["*.py"; "*.js"; "*.ts"; "*.go"; "*.java"]
                     (Re.search Re.versioned_endpoint)).
  { rewrite <- (scan_globs_spec t
                  ["*.py"; "*.js"; "*.ts"; "*.go"; "*.java"]
                  (Re.search Re.versioned_endpoint)).
    rewrite !existsb_app. cbn [existsb]. fold f.
    now rewrite orb_false_r. }
  destruct (existsb f _); cbn; repeat split; try tauto; try discriminate;
    intros; try (apply Hf; reflexivity).
  all: try (apply Hf in H; discriminate).
Qed.

Lemma exists_and_is_dir p : exists_ t p && is_dir t p = is_dir t p.
Proof.
  unfold exists_, is_dir. destruct (lookup t p) as [[|]|]; reflexivity.
Qed.

(** X10.  07A reports 07A-001 exactly when none of tests, test,
    __tests__, spec is a directory at the root (a regular file of such a
    name does not count) and 07A-002 exactly when none of the five
    configuration files exists; all its violations are MUST and it passes
    exactly when it reports none. *)
Theorem testing_strategy_violations :
  exists r,
    test_07a_testing_strategy self = [("07A", r)]
    /\ (In v_07A_001 (RuleTestResult.violations r)
        <-> Forall (fun p => is_dir t p = false)
                   [["tests"]; ["test"]; ["__tests__"]; ["spec"]])
    /\ (In v_07A_002 (RuleTestResult.violations r)
        <-> Forall (fun c => exists_ t [c] = false)
                   ["jest.config.js"; "jest.config.json"; "pytest.ini";
                    "test.config.js"; "vitest.config.js"])
    /\ (RuleTestResult.passed r = true <-> RuleTestResult.violations r = [])
    /\ Forall (fun v => RuleViolation.severity v = MUST)
              (RuleTestResult.violations r).
Proof.
  unfold test_07a_testing_strategy. fold t. eexists. split; [reflexivity|].
  cbn [RuleTestResult.passed RuleTestResult.violations].
  rewrite <- !existsb_false_Forall.
  rewrite (existsb_ext (fun p => exists_ t p && is_dir t p) (is_dir t)
             exists_and_is_dir).
  change (existsb (fun config => exists_ t (parts config))
            ["jest.config.js"; "jest.config.json"; "pytest.ini";
             "test.config.js"; "vitest.config.js"])
    with (existsb (fun c => exists_ t [c])
            ["jest.config.js"; "jest.config.json"; "pytest.ini";
             "test.config.js"; "vitest.config.js"]).
  assert (N12 : v_07A_001 <> v_07A_002) by discriminate.
  destruct (existsb (is_dir t) _), (existsb (fun c => exists_ t [c]) _);
    cbn [negb app In no_violation List.length Nat.eqb];
    repeat split; intros; try discriminate; try congruence;
    try (repeat constructor; fail); try tauto; intuition congruence.
Qed.

(** X11.  08B never fails: it reports at most the SHOULD violation
    08B-001, exactly when none of the five logging configuration files
    exists at the root, and [passed] is true either way. *)
Theorem logging_never_fails :
  exists r,
    test_08b_logging_standards self = [("08B", r)]
    /\ RuleTestResult.passed r = true
    /\ (RuleTestResult.violations r = [v_08B_001]
        <-> Forall (fun c => exists_ t [c] = false) logging_configs)
    /\ (RuleTestResult.violations r = []
        \/ RuleTestResult.violations r = [v_08B_001]).
Proof.
  unfold test_08b_logging_standards. fold t. eexists. split; [reflexivity|].
  cbn [RuleTestResult.passed RuleTestResult.violations].
  rewrite <- existsb_false_Forall.
  change (existsb (fun config => exists_ t (parts config)) logging_configs)
    with (existsb (fun c => exists_ t [c]) logging_configs).
  destruct (existsb (fun c => exists_ t [c]) logging_configs); cbn;
    repeat split; auto; try discriminate.
Qed.

End MoreChecks.

(* ------------------------------------------------------------------ *)
(** ** Secrets management (05B): nothing else is reported *)

Section SecretsSound.

Import FS Runner.

Variable self : RuleTestRunner.

Let t : node := tree self.

Lemma fnmatch_star_suffix_inv suffix :
  star_free suffix = true ->
  forall name,
    fnmatch (String "*" suffix) name = true ->
    exists stem, name = (stem ++ suffix)%string.
Proof.
  intros Hs. induction name as [|c name IH];
    rewrite fnmatch_star_unfold, orb_true_iff; intros [H|H].
  - apply (fnmatch_literal _ _ Hs) in H. exists ""%string. now subst.
  - discriminate.
  - apply (fnmatch_literal _ _ Hs) in H. exists ""%string. now subst.
  - destruct (IH H) as [stem ->]. now exists (String c stem).
Qed.

(** Every file that 05B scans has a source extension. *)
Lemma code_files_shape fp :
  In fp (code_files self) ->
  exists dir stem ext,
    In ext source_extensions /\ fp = dir ++ [(stem ++ ext)%string].
Proof.
  unfold code_files. fold t. rewrite !in_app_iff.
  assert (Hone : forall ext,
             In ext source_extensions ->
             In fp (rglob_from (String "*" ext) [] t) ->
             star_free ext = true ->
             exists dir stem ext0,
               In ext0 source_extensions
               /\ fp = dir ++ [(stem ++ ext0)%string]).
  { intros ext Hext Hin Hs.
    destruct (rglob_from_shape _ _ _ _ Hin) as (rel & name & -> & Hf).
    destruct (fnmatch_star_suffix_inv _ Hs _ Hf) as [stem ->].
    now exists rel, stem, ext. }
  unfold source_extensions in *.
  intros [H|[H|[H|[H|H]]]];
    [ apply (Hone ".py"%string) | apply (Hone ".js"%string)
    | apply (Hone ".ts"%string) | apply (Hone ".java"%string)
    | apply (Hone ".go"%string) ];
    simpl; auto 10.
Qed.

Lemma enumerate_In (A : Type) (xs : list A) :
  forall start i x,
    In (i, x) (PyStr.enumerate start xs) ->
    exists k, nth_error xs k = Some x /\ i = (start + Z.of_nat k)%Z.
Proof.
  induction xs as [|y xs IH]; intros start i x; simpl; [tauto|].
  intros [[= <- <-]|H].
  - exists 0. split; [reflexivity | lia].
  - destruct (IH _ _ _ H) as (k & Hk & ->).
    exists (S k). split; [exact Hk | lia].
Qed.

(** X12.  Every violation of 05B is the MUST violation 05B-001 of a
    readable file with a source extension, for a line of that file in
    which one of the four secret patterns is found, and carries the
    1-based position of that line: 05B reports nothing about files it
    cannot read and nothing about other lines. *)
Theorem secrets_violations_sound :
  exists r,
    test_05b_secrets_management self = [("05B", r)]
    /\ Forall
         (fun v =>
            exists dir stem ext content i line pattern,
              In ext source_extensions
              /\ read_text t (dir ++ [(stem ++ ext)%string]) = Some content
              /\ nth_error (PyStr.split_nl content) i = Some line
              /\ In pattern secret_patterns
              /\ Re.search pattern line = true
              /\ v = v_05B_001 self (dir ++ [(stem ++ ext)%string])
                               (Z.of_nat i + 1))
         (RuleTestResult.violations r).
Proof.
  unfold test_05b_secrets_management. eexists. split; [reflexivity|].
  cbn [RuleTestResult.violations]. apply Forall_forall. intros v Hv.
  apply in_flat_map in Hv as (fp & Hfp & Hv).
  destruct (code_files_shape _ Hfp) as (dir & stem & ext & Hext & ->).
  unfold scan_file in Hv. fold t in Hv.
  destruct (read_text t (dir ++ [(stem ++ ext)%string])) as [content|] eqn:Hr;
    [|destruct Hv].
  apply in_flat_map in Hv as ([i line] & Hil & Hv). cbn [fst snd] in Hv.
  apply enumerate_In in Hil as (k & Hk & ->).
  unfold scan_line in Hv. apply in_flat_map in Hv as (pattern & Hp & Hv).
  destruct (Re.search pattern line) eqn:Hs; [|destruct Hv].
  destruct Hv as [<-|[]].
  exists dir, stem, ext, content, k, line, pattern.
  repeat split; auto. f_equal. lia.
Qed.

Lemma nonempty_flat_map (A B : Type) (g : A -> list B) l :
  nonempty (flat_map g l) = existsb (fun x => nonempty (g x)) l.
Proof.
  induction l as [|x l IH]; simpl; [reflexivity|].
  destruct (g x); simpl; [exact IH | reflexivity].
Qed.

Lemma existsb_enumerate (A : Type) (g : A -> bool) xs :
  forall start,
    existsb (fun il => g (snd il)) (PyStr.enumerate start xs) = existsb g xs.
Proof.
  induction xs as [|x xs IH]; intros start; simpl; [reflexivity|].
  now rewrite IH.
Qed.

Lemma nonempty_scan_line fp i line :
  nonempty (scan_line self fp i line)
  = existsb (fun pattern => Re.search pattern line) secret_patterns.
Proof.
  unfold scan_line. rewrite nonempty_flat_map.
  apply existsb_ext. intros pattern.
  now destruct (Re.search pattern line).
Qed.

Lemma nonempty_scan_file fp :
  nonempty (scan_file self fp)
  = match read_text t fp with
    | Some content => has_secret_line content
    | None => false
    end.
Proof.
  unfold scan_file. fold t. destruct (read_text t fp) as [content|];
    [|reflexivity].
  rewrite nonempty_flat_map. unfold has_secret_line.
  rewrite <- (existsb_enumerate
                (fun line => existsb (fun pattern => Re.search pattern line)
                                     secret_patterns)
                (PyStr.split_nl content) 1).
  apply existsb_ext. intros [i line]. apply nonempty_scan_line.
Qed.

(** X13.  05B fails exactly when some readable file named *.py, *.js,
    *.ts, *.java or *.go has a line in which one of the four secret
    patterns is found. *)
Theorem secrets_fail_iff :
  exists r,
    test_05b_secrets_management self = [("05B", r)]
    /\ (RuleTestResult.passed r = false
        <-> some_readable t ["*.py"; "*.js"; "*.ts"; "*.java"; "*.go"]
              has_secret_line).
Proof.
  unfold test_05b_secrets_management. eexists. split; [reflexivity|].
  cbn [RuleTestResult.passed].
  rewrite <- (scan_globs_spec t ["*.py"; "*.js"; "*.ts"; "*.java"; "*.go"]
                has_secret_line).
  assert (Hn : no_violation (flat_map (scan_file self) (code_files self))
               = negb (nonempty (flat_map (scan_file self)
                                          (code_files self))))
    by (unfold no_violation;
        now destruct (flat_map (scan_file self) (code_files self))).
  rewrite Hn, nonempty_flat_map.
  rewrite (existsb_ext _ _ nonempty_scan_file).
  unfold code_files. fold t. rewrite !existsb_app. cbn [existsb].
  rewrite orb_false_r, negb_false_iff. reflexivity.
Qed.

End SecretsSound.

(* ------------------------------------------------------------------ *)
(** ** CI/CD pipelines (09A) *)

Section Pipelines.

Import FS Runner.

Variable self : RuleTestRunner.

Let t : node := tree self.

Lemma workflows_dir_is_a_pipeline :
  exists_ t [".github"; "workflows"] = true ->
  existsb (fun config => exists_ t (parts config)) cicd_files = true.
Proof.
  intros H. unfold cicd_files. cbn [existsb].
  change (parts ".github/workflows") with [".github"; "workflows"].
  now rewrite H.
Qed.

Lemma scan_workflows_cons f files :
  scan_workflows self (f :: files)
  = match read_text t f with
    | None => Raise (ReadError f)
    | Some content =>
        later <- scan_workflows self files ;;
        Ok ((match filter (fun stage =>
                             negb (PyStr.str_in stage (PyStr.lower content)))
                          required_stages with
             | [] => []
             | _ => [v_09A_002 self f
                       (filter (fun stage =>
                                  negb (PyStr.str_in stage
                                                     (PyStr.lower content)))
                               required_stages)]
             end) ++ later)
    end.
Proof. reflexivity. Qed.

(** What the loop over the workflow files appends. *)
Lemma scan_workflows_sound files : forall vs,
  scan_workflows self files = Ok vs ->
  Forall
    (fun v =>
       exists workflow_file content,
         In workflow_file files
         /\ read_text t workflow_file = Some content
         /\ filter (fun stage =>
                      negb (PyStr.str_in stage (PyStr.lower content)))
                   required_stages <> []
         /\ v = v_09A_002 self workflow_file
                  (filter (fun stage =>
                             negb (PyStr.str_in stage (PyStr.lower content)))
                          required_stages))
    vs.
Proof.
  induction files as [|f files IH]; intros vs;
    [|rewrite scan_workflows_cons].
  - intros [= <-]. constructor.
  - destruct (read_text t f) as [content|] eqn:Hr; [|discriminate].
    destruct (scan_workflows self files) as [later|e]; [|discriminate].
    cbn [bind]. intros H. apply Ok_inj in H. subst vs.
    apply Forall_app. split.
    + destruct (filter (fun stage =>
                          negb (PyStr.str_in stage (PyStr.lower content)))
                       required_stages) as [|m ms] eqn:Hm; constructor;
        [|constructor].
      exists f, content. rewrite Hm.
      repeat split; auto; [now left | discriminate].
    + eapply Forall_impl; [|apply IH; reflexivity].
      intros v (wf & c & Hin & H). exists wf, c. split; [now right | exact H].
Qed.

(** X14.  When 09A completes, it passes exactly when one of the six
    pipeline paths exists.  If none exists its only violation is the MUST
    violation 09A-001; if one exists, every violation is a SHOULD
    violation 09A-002 about a readable workflow file that lacks a stage,
    listing the lacking stages in the order test, build, security.  So
    09A-001 and 09A-002 are never reported together. *)
Theorem cicd_violations d :
  test_09a_cicd_pipelines self = Ok d ->
  exists r,
    d = [("09A", r)]
    /\ (RuleTestResult.passed r = true
        <-> exists config,
              In config cicd_files /\ exists_ t (parts config) = true)
    /\ (RuleTestResult.passed r = false ->
        RuleTestResult.violations r = [v_09A_001])
    /\ (RuleTestResult.passed r = true ->
        Forall
          (fun v =>
             RuleViolation.severity v = SHOULD
             /\ exists workflow_file content,
                  In workflow_file (workflow_files t)
                  /\ read_text t workflow_file = Some content
                  /\ filter (fun stage =>
                               negb (PyStr.str_in stage
                                                  (PyStr.lower content)))
                            required_stages <> []
                  /\ v = v_09A_002 self workflow_file
                           (filter (fun stage =>
                                      negb (PyStr.str_in stage
                                              (PyStr.lower content)))
                                   required_stages))
          (RuleTestResult.violations r)).
Proof.
  unfold test_09a_cicd_pipelines. fold t.
  assert (Hex : existsb (fun config => exists_ t (parts config)) cicd_files
                = true
                <-> exists config,
                      In config cicd_files
                      /\ exists_ t (parts config) = true)
    by apply existsb_exists.
  destruct (exists_ t [".github"; "workflows"]) eqn:Hgh.
  - rewrite (workflows_dir_is_a_pipeline Hgh) in *. cbn [negb].
    fold (workflow_files t).
    destruct (scan_workflows self (workflow_files t)) as [vs|e] eqn:Hs;
      [|discriminate].
    cbn [bind app]. intros [= <-]. eexists. split; [reflexivity|].
    cbn [RuleTestResult.passed RuleTestResult.violations].
    pose proof (scan_workflows_sound _ Hs) as Hall.
    assert (Hshould : Forall (fun v => RuleViolation.severity v = SHOULD) vs).
    { eapply Forall_impl; [|exact Hall].
      intros v (wf & c & _ & _ & _ & ->). reflexivity. }
    assert (Hpass : no_must_violation vs = true).
    { unfold no_must_violation, must_only. clear Hall Hs.
      induction Hshould as [|v vs Hv _ IH]; [reflexivity|].
      simpl. now rewrite Hv. }
    rewrite Hpass. split; [tauto|]. split; [discriminate|]. intros _.
    apply Forall_forall. intros v Hv.
    rewrite Forall_forall in Hall, Hshould. auto.
  - cbn [bind app].
    destruct (existsb (fun config => exists_ t (parts config)) cicd_files);
      cbn [negb app]; intros [= <-]; eexists; (split; [reflexivity|]);
      cbn; repeat split; try tauto; try discriminate; intros;
      try constructor.
    all: try (apply Hex in H; discriminate).
Qed.



End Pipelines.

(* ------------------------------------------------------------------ *)
(** ** What every result of a run satisfies *)

Section RunInvariants.

Import FS Runner.

Variable self : RuleTestRunner.

Let t : node := tree self.

Ltac tagged :=
  repeat first
    [ apply Forall_nil
    | apply Forall_cons;
      [split; [first [now left | now right] | reflexivity]|] ].

Lemma sound_single key r : sound_result key r -> sound_results [(key, r)].
Proof. intros H. constructor; [exact H | constructor]. Qed.

Lemma sound_placeholder key label :
  String.eqb key key = true -> sound_results (placeholder key label).
Proof.
  intros _. apply sound_single. repeat split; [constructor|].
  exists label. reflexivity.
Qed.

Lemma test_01a_sound : sound_results (test_01a_design_principles self).
Proof.
  unfold test_01a_design_principles. apply sound_single.
  cbn [RuleTestResult.passed RuleTestResult.violations
       RuleTestResult.rule_id RuleTestResult.details].
  split; [reflexivity|].
  destruct (rglob (tree self) "openapi.yaml" ++ rglob (tree self) "openapi.yml"
            ++ rglob (tree self) "swagger.yaml");
    destruct (exists_ (tree self) ["perf-budget.yaml"]),
      (exists_ (tree self) ["docs"; "adr"]);
    (split; [reflexivity|]);
    (split; [tagged | eexists; reflexivity]).
Qed.

Lemma test_01b_sound : sound_results (test_01b_runtime_operations self).
Proof.
  unfold test_01b_runtime_operations. apply sound_single.
  split; [reflexivity|].
  destruct (found_health self);
    (split; [reflexivity|]);
    (split; [tagged | eexists; reflexivity]).
Qed.

Lemma test_02a_sound d :
  test_02a_container_design self = Ok d -> sound_results d.
Proof.
  unfold test_02a_container_design. rewrite inspect_dockerfile_first.
  destruct (existsb (exists_ (tree self)) dockerfile_paths); cbn [negb].
  - destruct (first_existing (tree self) dockerfile_paths) as [p|].
    + destruct (read_text (tree self) p) as [content|]; [|discriminate].
      cbn [bind]. intros H. apply Ok_inj in H. subst d.
      apply sound_single. split; [reflexivity|]. split; [reflexivity|].
      split; [|eexists; reflexivity].
      cbn [RuleTestResult.violations].
      destruct (PyStr.str_in "USER " content),
        (PyStr.str_in "HEALTHCHECK" content); tagged.
    + cbn [bind]. intros H. apply Ok_inj in H. subst d.
      apply sound_single. repeat split; [constructor|].
      eexists. reflexivity.
  - cbn [bind]. intros H. apply Ok_inj in H. subst d.
    apply sound_single. split; [reflexivity|]. split; [reflexivity|].
    split; [tagged | eexists; reflexivity].
Qed.

Lemma test_03a_sound : sound_results (test_03a_authentication self).
Proof.
  unfold test_03a_authentication. apply sound_single.
  split; [reflexivity|]. split; [reflexivity|].
  split; [|eexists; reflexivity].
  cbn [RuleTestResult.violations].
  destruct (auth_files_found self); tagged.
Qed.

Lemma all_must_policy vs :
  Forall (fun v => RuleViolation.severity v = MUST) vs ->
  no_violation vs = no_must_violation vs.
Proof.
  intros H. unfold no_violation, no_must_violation, must_only.
  destruct H as [|v vs Hv _]; [reflexivity|]. simpl. now rewrite Hv.
Qed.

Lemma test_05b_sound : sound_results (test_05b_secrets_management self).
Proof.
  unfold test_05b_secrets_management. apply sound_single.
  cbn [RuleTestResult.passed RuleTestResult.violations
       RuleTestResult.rule_id RuleTestResult.details].
  assert (Hall : Forall (fun v => exists fp i, v = v_05B_001 self fp i)
                        (flat_map (scan_file self) (code_files self))).
  { apply Forall_forall. intros v Hv.
    apply in_flat_map in Hv as (fp & _ & Hv). unfold scan_file in Hv.
    destruct (read_text (tree self) fp); [|destruct Hv].
    apply in_flat_map in Hv as ([i line] & _ & Hv). cbn [fst snd] in Hv.
    unfold scan_line in Hv. apply in_flat_map in Hv as (pat & _ & Hv).
    destruct (Re.search pat line); [|destruct Hv].
    destruct Hv as [<-|[]]. now exists fp, i. }
  split; [reflexivity|]. split.
  - apply all_must_policy. eapply Forall_impl; [|exact Hall].
    intros v (fp & i & ->). reflexivity.
  - split; [|eexists; reflexivity].
    eapply Forall_impl; [|exact Hall].
    intros v (fp & i & ->). split; [now left | reflexivity].
Qed.

Lemma test_06a_sound : sound_results (test_06a_api_design self).
Proof.
  unfold test_06a_api_design. apply sound_single.
  cbn [RuleTestResult.passed RuleTestResult.violations
       RuleTestResult.rule_id RuleTestResult.details].
  split; [reflexivity|].
  destruct (existsb _ _);
    (split; [reflexivity|]);
    (split; [tagged | eexists; reflexivity]).
Qed.

Lemma test_07a_sound : sound_results (test_07a_testing_strategy self).
Proof.
  unfold test_07a_testing_strategy. apply sound_single.
  cbn [RuleTestResult.passed RuleTestResult.violations
       RuleTestResult.rule_id RuleTestResult.details].
  split; [reflexivity|].
  destruct (existsb _ _), (existsb _ _);
    (split; [reflexivity|]);
    (split; [tagged | eexists; reflexivity]).
Qed.

Lemma test_08b_sound : sound_results (test_08b_logging_standards self).
Proof.
  unfold test_08b_logging_standards. apply sound_single.
  split; [reflexivity|]. split; [reflexivity|].
  split; [|eexists; reflexivity].
  cbn [RuleTestResult.violations].
  destruct (existsb _ _); tagged.
Qed.

Lemma test_09a_sound d :
  test_09a_cicd_pipelines self = Ok d -> sound_results d.
Proof.
  unfold test_09a_cicd_pipelines.
  destruct (if exists_ (tree self) [".github"; "workflows"] then _ else _)
    as [vs|e] eqn:Hs; [|discriminate].
  cbn [bind]. intros H. apply Ok_inj in H. subst d.
  apply sound_single. split; [reflexivity|]. split; [reflexivity|].
  split; [|eexists; reflexivity].
  cbn [RuleTestResult.violations]. apply Forall_app. split.
  - destruct (existsb _ _); tagged.
  - destruct (exists_ (tree self) [".github"; "workflows"]).
    + eapply Forall_impl; [|exact (scan_workflows_sound self _ Hs)].
      intros v (wf & c & _ & _ & _ & ->). split; [now right | reflexivity].
    + apply Ok_inj in Hs. subst vs. constructor.
Qed.

(** Every result of a completed run is sound. *)
Lemma run_all_tests_sound results :
  run_all_tests self = Ok results -> sound_results results.
Proof.
  intros H.
  destruct (test_02a_container_design self) as [d2|e] eqn:H2;
    [|rewrite (run_all_tests_raise_02a self H2) in H; discriminate].
  destruct (test_09a_cicd_pipelines self) as [d9|e] eqn:H9;
    [|rewrite (run_all_tests_raise_09a self H2 H9) in H; discriminate].
  rewrite (run_all_tests_concat self H2 H9) in H. apply Ok_inj in H.
  subst results. unfold sound_results.
  repeat (apply Forall_app; split);
    first [ apply test_01a_sound | apply test_01b_sound
          | exact (test_02a_sound H2) | apply test_03a_sound
          | apply test_05b_sound | apply test_06a_sound
          | apply test_07a_sound | apply test_08b_sound
          | exact (test_09a_sound H9)
          | apply sound_placeholder; reflexivity ].
Qed.

(** X16.  In the mapping of a completed run every violation has
    severity MUST or SHOULD (never MAY) and an identifier that starts
    with the key of its rule and a dash, and every details line states
    the number of violations of its result. *)
Theorem violations_well_tagged results :
  run_all_tests self = Ok results ->
  Forall
    (fun kv =>
       Forall (fun v =>
                 (RuleViolation.severity v = MUST
                  \/ RuleViolation.severity v = SHOULD)
                 /\ String.prefix (fst kv ++ "-") (RuleViolation.rule_id v)
                    = true)
              (RuleTestResult.violations (snd kv))
       /\ exists label,
            RuleTestResult.details (snd kv)
            = (label ++ " compliance: "
                     ++ PyStr.of_nat
                          (List.length (RuleTestResult.violations (snd kv)))
                     ++ " violations found")%string)
    results.
Proof.
  intros H. pose proof (run_all_tests_sound H) as Hs.
  eapply Forall_impl; [|exact Hs].
  intros [k r] (_ & _ & Htag & Hd). split; [exact Htag | exact Hd].
Qed.


End RunInvariants.

(* ------------------------------------------------------------------ *)
(** ** The exit status and the passed rules *)

Lemma must_free_iff_all_pass d :
  sound_results d ->
  (must_violations d = 0 <-> passed_rules d = List.length d).
Proof.
  unfold sound_results, must_violations, passed_rules, dict_values.
  induction 1 as [|[k r] d (_ & Hp & _) _ IH]; [simpl; tauto|].
  cbn [map filter fst snd List.length] in *. rewrite list_sum_cons.
  pose proof (passed_rules_le d) as Hle.
  unfold passed_rules, dict_values in Hle.
  rewrite Hp. unfold Runner.no_must_violation.
  destruct (List.length (must_only (RuleTestResult.violations r)));
    cbn [Nat.eqb List.length]; lia.
Qed.

(** X18.  When the checks complete and the report reaches its
    destination, the process exits with 0 exactly when all 23 rules have
    [passed = true], and with 1 otherwise; when the report cannot be
    written or printed, the process ends by an exception, with status 1,
    even if all rules pass.  A rule fails exactly when it has a MUST
    violation, whatever its pass/fail policy. *)
Theorem exit_zero_iff_all_pass argv disk io results :
  Runner.run_all_tests (runner_of argv disk) = Ok results ->
  exists report,
    Report.generate_report results = Ok report
    /\ (delivered argv io report = true ->
        exists p,
          Main.main argv disk io = Ok p
          /\ (Main.exit_code p = 0%Z <-> passed_rules results = 23)
          /\ (Main.exit_code p = 1%Z <-> passed_rules results < 23))
    /\ (delivered argv io report = false ->
        exists e, Main.main argv disk io = Raise e)
    /\ (Main.status (Main.main argv disk io) = 0%Z
        <-> passed_rules results = 23 /\ delivered argv io report = true)
    /\ (Main.status (Main.main argv disk io) = 1%Z
        <-> passed_rules results < 23 \/ delivered argv io report = false)
    /\ Forall (fun kv =>
                 RuleTestResult.passed (snd kv) = true
                 <-> count_must (RuleTestResult.violations (snd kv)) = 0)
              results.
Proof.
  intros H.
  destruct (generate_report_total (run_all_tests_nonempty _ H))
    as [report Hr].
  exists report. split; [exact Hr|].
  pose proof (run_all_tests_sound _ H) as Hsound.
  pose proof (must_free_iff_all_pass Hsound) as Hiff.
  assert (Hlen : List.length results = 23).
  { destruct (run_all_tests_keys _ H) as [Hk _].
    rewrite <- (length_map fst), Hk. reflexivity. }
  pose proof (passed_rules_le results) as Hle.
  rewrite Hlen in Hiff, Hle.
  assert (Hcases : (Main.exit_status results = 0%Z
                    /\ passed_rules results = 23)
                   \/ (Main.exit_status results = 1%Z
                       /\ passed_rules results < 23)).
  { unfold Main.exit_status.
    destruct (Nat.eq_dec (must_violations results) 0) as [E|E].
    - left. rewrite E. split; [reflexivity | now apply Hiff].
    - right. destruct (must_violations results) as [|n] eqn:En;
        [contradiction|]. split; [reflexivity|].
      assert (passed_rules results <> 23)
        by (intros P; apply Hiff in P; discriminate).
      lia. }
  assert (Hlast : Forall
                    (fun kv =>
                       RuleTestResult.passed (snd kv) = true
                       <-> count_must (RuleTestResult.violations (snd kv)) = 0)
                    results).
  { eapply Forall_impl; [|exact Hsound].
    intros [k r] (_ & Hpr & _). cbn [fst snd] in *.
    rewrite Hpr, count_must_length. unfold Runner.no_must_violation.
    destruct (List.length (must_only (RuleTestResult.violations r)));
      cbn; split; intros; congruence. }
  destruct (delivered argv io report) eqn:Hd.
  - destruct (main_delivered argv disk io H Hr Hd) as (p & Hp & Hs).
    rewrite Hp. cbn [Main.status]. rewrite Hs.
    split; [intros _; exists p; split; [reflexivity|]; rewrite Hs|].
    + destruct Hcases as [[-> ->]|[-> Hlt]].
      * split; [tauto | split; [discriminate | lia]].
      * split; [split; [discriminate | lia] | tauto].
    + split; [discriminate|].
      destruct Hcases as [[-> ->]|[-> Hlt]].
      * split; [tauto|]. split; [split; [discriminate|]|exact Hlast].
        intros [Hc|Hc]; [lia | discriminate].
      * split; [split; [discriminate | intros [Hc _]; lia]|].
        split; [tauto | exact Hlast].
  - destruct (main_not_delivered argv disk io H Hr Hd) as (e & He & _).
    rewrite He. cbn [Main.status].
    split; [discriminate|]. split; [intros _; now exists e|].
    split; [split; [discriminate | intros [_ Hc]; discriminate]|].
    split; [split; [intros _; now right | reflexivity] | exact Hlast].
Qed.

Lemma exit_zero_iff_all_pass_witness :
  exists p,
    Main.main ["rule_test_runner.py"] (fun _ => must_compliant)
              every_write_succeeds = Ok p
    /\ Main.exit_code p = 0%Z.
Proof.
  destruct (@exit_zero_iff_all_pass ["rule_test_runner.py"]
              (fun _ => must_compliant) every_write_succeeds
              (match Runner.run_all_tests
                       (runner_of ["rule_test_runner.py"]
                                  (fun _ => must_compliant)) with
               | Ok d => d
               | Raise _ => []
               end) eq_refl) as (report & _ & Hd & _).
  destruct (Hd eq_refl) as (p & Hp & H0 & _).
  exists p. split; [exact Hp|]. apply H0. vm_compute. reflexivity.
Defined.

(* ------------------------------------------------------------------ *)
(** ** Which results can depend on the listing order *)

(** X19.  Two listings of the same contents give, in two completed
    runs, the very same result for every rule but 05B and 09A: only
    these two render violations in the order of a glob. *)
Theorem listing_order_reaches_05b_09a_only root t t' results results' :
  well_formed t ->
  same_contents t t' ->
  Runner.run_all_tests {| Runner.project_root := root; Runner.tree := t |}
  = Ok results ->
  Runner.run_all_tests {| Runner.project_root := root; Runner.tree := t' |}
  = Ok results' ->
  forall key,
    key <> "05B" -> key <> "09A" ->
    dict_get results key = dict_get results' key.
Proof.
  intros Hwf Hs H H' key H5 H9.
  assert (Hans := same_contents_answers Hs Hwf).
  assert (Hrg : forall pat, Permutation (FS.rglob t pat) (FS.rglob t' pat))
    by (intros; now apply rglob_same).
  assert (Hgl : forall p pat,
             Permutation (FS.glob t p pat) (FS.glob t' p pat))
    by (intros; now apply glob_same).
  set (self := {| Runner.project_root := root; Runner.tree := t |}) in *.
  set (self' := {| Runner.project_root := root; Runner.tree := t' |}) in *.
  destruct (Runner.test_02a_container_design self) as [d2|e] eqn:E2;
    [|rewrite (run_all_tests_raise_02a self E2) in H; discriminate].
  destruct (Runner.test_09a_cicd_pipelines self) as [d9|e] eqn:E9;
    [|rewrite (run_all_tests_raise_09a self E2 E9) in H; discriminate].
  assert (E2' := E2). unfold self in E2'.
  rewrite (test_02a_same root Hans) in E2'. fold self' in E2'.
  destruct (Runner.test_09a_cicd_pipelines self') as [d9'|e] eqn:E9';
    [|rewrite (run_all_tests_raise_09a self' E2' E9') in H'; discriminate].
  rewrite (run_all_tests_concat self E2 E9) in H.
  rewrite (run_all_tests_concat self' E2' E9') in H'.
  apply Ok_inj in H, H'. subst results results'.
  unfold self, self'.
  rewrite <- (test_01a_same root Hans Hrg), <- (test_01b_same root Hans Hrg),
    <- (test_03a_same root Hans Hrg), <- (test_06a_same root Hans Hrg),
    <- (test_07a_same root Hans), <- (test_08b_same root Hans).
  fold self self'.
  destruct (test_02a_single self E2) as (r2 & -> & _).
  destruct (test_09a_single self E9) as (r9 & -> & _).
  destruct (test_09a_single self' E9') as (r9' & -> & _).
  apply String.eqb_neq in H5, H9. rewrite String.eqb_sym in H5, H9.
  unfold Runner.test_01a_design_principles, Runner.test_01b_runtime_operations,
    Runner.test_03a_authentication, Runner.test_05b_secrets_management,
    Runner.test_06a_api_design, Runner.test_07a_testing_strategy,
    Runner.test_08b_logging_standards, Runner.test_01c_governance,
    Runner.test_02b_network_topology, Runner.test_02c_service_metadata,
    Runner.test_03b_authorization, Runner.test_03c_security_encryption,
    Runner.test_04a_database_design, Runner.test_04b_database_operations,
    Runner.test_05a_environment_config, Runner.test_06b_api_documentation,
    Runner.test_06c_api_versioning, Runner.test_07b_test_implementation,
    Runner.test_07c_test_automation, Runner.test_08a_error_handling,
    Runner.test_08c_monitoring, Runner.placeholder, Runner.return_01a,
    Runner.return_01b, Runner.return_03a, Runner.return_05b,
    Runner.return_06a, Runner.return_07a, Runner.return_08b.
  cbn [app dict_get]. rewrite H5, H9. reflexivity.
Qed.

Lemma listing_order_reaches_05b_09a_only_witness :
  exists results results',
    Runner.run_all_tests
      {| Runner.project_root := "."; Runner.tree := listing_ab |}
    = Ok results
    /\ Runner.run_all_tests
         {| Runner.project_root := "."; Runner.tree := listing_ba |}
       = Ok results'
    /\ dict_get results "06A" = dict_get results' "06A"
    /\ dict_get results "05B" <> dict_get results' "05B".
Proof.
  assert (Hwf : well_formed listing_ab).
  { split; [|repeat split].
    repeat constructor; simpl; intuition discriminate. }
  assert (Hs : same_contents listing_ab listing_ba)
    by (constructor; apply se_swap).
  eexists. eexists. split; [reflexivity|]. split; [reflexivity|]. split.
  - apply (@listing_order_reaches_05b_09a_only "." listing_ab listing_ba
             _ _ Hwf Hs eq_refl eq_refl "06A"); discriminate.
  - vm_compute. discriminate.
Defined.

(* ------------------------------------------------------------------ *)
(** ** The report *)

Section ReportFacts.

#[local] Open Scope string_scope.

(** X20.  [generate_report] raises exactly on the empty mapping, where
    the score divides by zero; on every other mapping it returns a
    report. *)
Theorem generate_report_raises_iff_empty results :
  (forall e, Report.generate_report results = Raise e
             <-> results = [] /\ e = ZeroDivisionError)
  /\ (results <> [] ->
      exists report, Report.generate_report results = Ok report).
Proof.
  split; [|apply generate_report_total].
  intros e. unfold Report.generate_report, Report.compliance_score.
  destruct results as [|kv rest]; cbn [List.length bind].
  - split; [intros [= <-]; auto | intros [_ ->]; reflexivity].
  - split; [discriminate | intros [H _]; discriminate].
Qed.

Lemma must_plus_other results :
  must_violations results + other_violations results
  = total_violations results.
Proof.
  unfold must_violations, other_violations, total_violations, must_only.
  induction (dict_values results) as [|r rs IH]; [reflexivity|].
  cbn [map]. rewrite !list_sum_cons.
  pose proof (filter_length
                (fun v => Severity_eqb (RuleViolation.severity v) MUST)
                (RuleTestResult.violations r)).
  lia.
Qed.

(** X21.  The counts of the report add up for every mapping: the MUST
    violations and the other violations make the total, and the passed
    rules are at most the rules.  The closing block names the MUST count
    when it is positive, then as SHOULD violations the count of all
    violations that are not MUST (MAY ones included) when that is
    positive, and congratulates exactly when there is no violation at
    all. *)
Theorem report_counts_add_up results :
  must_violations results + other_violations results
  = total_violations results
  /\ passed_rules results <= List.length results
  /\ Report.recommendations (total_violations results)
       (must_violations results)
     = Report.nl ++ "## Recommendations" ++ Report.nl
       ++ (if Nat.ltb 0 (must_violations results)
           then Report.mark_critical ++ " **Critical**: Fix "
                ++ PyStr.of_nat (must_violations results)
                ++ " MUST violations immediately." ++ Report.nl
           else "")
       ++ (if Nat.ltb 0 (other_violations results)
           then Report.mark_important ++ " **Important**: Address "
                ++ PyStr.of_nat (other_violations results)
                ++ " SHOULD violations for best practices." ++ Report.nl
           else "")
       ++ (if Nat.eqb (must_violations results + other_violations results) 0
           then Report.mark_excellent
                ++ " **Excellent**: All rules are compliant!" ++ Report.nl
           else "").
Proof.
  pose proof (must_plus_other results) as Hsum.
  split; [exact Hsum|]. split; [apply passed_rules_le|].
  unfold Report.recommendations. rewrite <- Hsum.
  replace (must_violations results + other_violations results
           - must_violations results)
    with (other_violations results) by lia.
  replace (Nat.ltb (must_violations results)
                   (must_violations results + other_violations results))
    with (Nat.ltb 0 (other_violations results)); [reflexivity|].
  destruct (Nat.ltb_spec 0 (other_violations results)),
    (Nat.ltb_spec (must_violations results)
                  (must_violations results + other_violations results));
    reflexivity || lia.
Qed.

Lemma ascii_compare_N a b :
  Ascii.compare a b = N.compare (N_of_ascii a) (N_of_ascii b).
Proof. reflexivity. Qed.

Lemma string_compare_trans a :
  forall b c,
    String.compare a b <> Gt -> String.compare b c <> Gt ->
    String.compare a c <> Gt.
Proof.
  induction a as [|x a IH]; intros [|y b] [|z c]; simpl; try congruence.
  rewrite !ascii_compare_N.
  destruct (N.compare_spec (N_of_ascii x) (N_of_ascii y)),
    (N.compare_spec (N_of_ascii y) (N_of_ascii z)),
    (N.compare_spec (N_of_ascii x) (N_of_ascii z));
    try congruence; try lia.
  apply IH.
Qed.

Lemma leb_trans a b c :
  String.leb a b = true -> String.leb b c = true -> String.leb a c = true.
Proof.
  unfold String.leb. intros H1 H2.
  pose proof (string_compare_trans a b c) as H.
  destruct (String.compare a b), (String.compare b c),
    (String.compare a c); try reflexivity; try discriminate;
    exfalso; apply H; congruence.
Qed.

Lemma ltb_leb a b : String.ltb a b = true -> String.leb a b = true.
Proof.
  unfold String.ltb, String.leb. now destruct (String.compare a b).
Qed.

Lemma not_ltb_leb a b : String.ltb a b = false -> String.leb b a = true.
Proof.
  unfold String.ltb, String.leb. rewrite (String.compare_antisym b a).
  now destruct (String.compare a b).
Qed.

Lemma insert_sorted_Permutation kv d :
  Permutation (Report.insert_sorted kv d) (kv :: d).
Proof.
  induction d as [|kv' d IH]; simpl; [apply Permutation_refl|].
  destruct (String.ltb (fst kv) (fst kv')); [apply Permutation_refl|].
  eapply Permutation_trans; [apply perm_skip, IH | apply perm_swap].
Qed.

Lemma insert_sorted_ascending kv d :
  keys_ascending d -> keys_ascending (Report.insert_sorted kv d).
Proof.
  unfold keys_ascending. induction 1 as [|kv' d Hd IH Hall]; simpl.
  - repeat constructor.
  - destruct (String.ltb (fst kv) (fst kv')) eqn:Hlt.
    + constructor; [now constructor|].
      apply ltb_leb in Hlt. constructor; [exact Hlt|].
      eapply Forall_impl; [|exact Hall].
      intros x Hx. now apply leb_trans with (fst kv').
    + constructor; [exact IH|].
      apply not_ltb_leb in Hlt.
      eapply Permutation_Forall;
        [apply Permutation_sym, insert_sorted_Permutation|].
      now constructor.
Qed.

(** X22.  The detail blocks of a report are the entries of the mapping,
    each once, in ascending order of their keys, whatever the order in
    which the mapping holds them. *)
Theorem sorted_items_ascending results :
  Permutation (Report.sorted_items results) results
  /\ keys_ascending (Report.sorted_items results).
Proof.
  unfold Report.sorted_items.
  induction results as [|kv d [IHp IHs]]; simpl.
  - split; constructor.
  - split.
    + eapply Permutation_trans; [apply insert_sorted_Permutation|].
      now apply perm_skip.
    + now apply insert_sorted_ascending.
Qed.

(** X23.  The runner registers its rules in ascending order of their
    identifiers: sorting leaves the mapping of a completed run as it is,
    and the report renders the rules in registration order. *)
Theorem report_in_registration_order (self : Runner.RuleTestRunner) results :
  Runner.run_all_tests self = Ok results ->
  Report.sorted_items results = results
  /\ exists x,
       Report.generate_report results
       = Ok (Report.summary 23 (passed_rules results)
               (total_violations results) (must_violations results) x
             ++ String.concat "" (map Report.render_rule results)
             ++ Report.recommendations (total_violations results)
                  (must_violations results)).
Proof.
  intros H.
  assert (Hsort : Report.sorted_items results = results)
    by (apply sorted_items_rule_ids; exact (proj1 (run_all_tests_keys self H))).
  split; [exact Hsort|].
  assert (Hlen : List.length results = 23).
  { destruct (run_all_tests_keys self H) as [Hk _].
    rewrite <- (length_map fst), Hk. reflexivity. }
  unfold Report.generate_report, Report.compliance_score.
  rewrite Hsort, Hlen. eexists. reflexivity.
Qed.

End ReportFacts.

(* ------------------------------------------------------------------ *)
(** ** The entry point *)

Section MainFacts.

#[local] Open Scope string_scope.

(** X24.  An output file only redirects the report.  With a third
    argument that is not empty, the report that would have been printed
    is written to that file and a confirmation line is printed instead,
    with the same exit status; when the file cannot be written the run
    ends by the exception of the write, and nothing is printed.  Further
    arguments are ignored, and an empty third argument counts as none.
    A run whose checks raise, raises the same with or without the
    argument. *)
Theorem output_file_only_redirects a0 root f rest disk io :
  f <> "" ->
  (forall results report,
      Runner.run_all_tests (runner_of [a0; root] disk) = Ok results ->
      Report.generate_report results = Ok report ->
      Main.main [a0; root] disk io
      = (if Main.can_print io report
         then Ok {| Main.stdout := report ++ Report.nl;
                    Main.written := None;
                    Main.exit_code := Main.exit_status results |}
         else Raise PrintError)
      /\ Main.main (a0 :: root :: f :: rest) disk io
         = (if Main.can_write io f report
            then if Main.can_print io ("Compliance report written to " ++ f)
                 then Ok {| Main.stdout :=
                              "Compliance report written to " ++ f
                              ++ Report.nl;
                            Main.written := Some (f, report);
                            Main.exit_code := Main.exit_status results |}
                 else Raise PrintError
            else Raise (WriteError f)))
  /\ (forall e,
         Runner.run_all_tests (runner_of [a0; root] disk) = Raise e ->
         Main.main [a0; root] disk io = Raise e
         /\ Main.main (a0 :: root :: f :: rest) disk io = Raise e)
  /\ Main.main (a0 :: root :: "" :: rest) disk io
     = Main.main [a0; root] disk io.
Proof.
  intros Hf. split; [|split; [|reflexivity]].
  - intros results report H Hr. unfold Main.main.
    cbn [nth_error]. change (Runner.run_all_tests _)
      with (Runner.run_all_tests (runner_of [a0; root] disk)).
    rewrite H. cbn [bind]. rewrite Hr. cbn [bind].
    unfold Main.write_file, Main.print.
    destruct f as [|c f]; [contradiction|]. cbn [PyStr.truthy_str].
    split.
    + now destruct (Main.can_print io report).
    + destruct (Main.can_write io (String c f) report); [|reflexivity].
      cbn [bind].
      destruct (Main.can_print io _); [|reflexivity].
      cbn [bind fst snd]. now rewrite append_assoc.
  - intros e H. split; [exact (main_raise [a0; root] disk io H)|].
    exact (main_raise (a0 :: root :: f :: rest) disk io H).
Qed.

Lemma output_file_only_redirects_witness :
  "report.md" <> ""
  /\ Main.main ["rule_test_runner.py"; "."; "report.md"; "ignored"]
               (fun _ => FS.Dir []) no_file_can_be_written
     = Raise (WriteError "report.md")
  /\ exists q,
       Main.main ["rule_test_runner.py"; "."; "report.md"; "ignored"]
                 (fun _ => FS.Dir []) every_write_succeeds = Ok q
       /\ Main.exit_code q = 1%Z
       /\ option_map fst (Main.written q) = Some "report.md".
Proof.
  assert (Hf : "report.md" <> "") by discriminate.
  split; [exact Hf|].
  assert (Hr : exists report,
             Report.generate_report
               (match Runner.run_all_tests empty_project with
                | Ok d => d
                | Raise _ => []
                end) = Ok report)
    by (apply generate_report_total; discriminate).
  destruct Hr as [report Hr].
  split.
  - destruct (proj1 (@output_file_only_redirects
                       "rule_test_runner.py" "." "report.md" ["ignored"]
                       (fun _ => FS.Dir []) no_file_can_be_written Hf)
                    _ report eq_refl Hr) as [_ H].
    exact H.
  - destruct (proj1 (@output_file_only_redirects
                       "rule_test_runner.py" "." "report.md" ["ignored"]
                       (fun _ => FS.Dir []) every_write_succeeds Hf)
                    _ report eq_refl Hr) as [_ H].
    eexists. split; [exact H|]. split; reflexivity.
Defined.


End MainFacts.

(* ------------------------------------------------------------------ *)
(** ** The further properties on the sample projects *)

Lemma missing_dockerfile_reported_witness :
  exists r,
    Runner.test_02a_container_design empty_project = Ok [("02A", r)]
    /\ RuleTestResult.violations r = [Runner.v_02A_001].
Proof.
  assert (H : Forall (fun p => FS.exists_ (Runner.tree empty_project) p
                               = false) Runner.dockerfile_paths)
    by (repeat constructor).
  eexists. split; [exact (missing_dockerfile_reported empty_project H)|].
  reflexivity.
Defined.

Lemma container_design_passes_iff_user_witness :
  exists r,
    Runner.test_02a_container_design
      {| Runner.project_root := ".";
         Runner.tree := dockerfile_without_healthcheck |} = Ok [("02A", r)]
    /\ RuleTestResult.passed r = true.
Proof.
  destruct (@container_design_passes_iff_user
              {| Runner.project_root := ".";
                 Runner.tree := dockerfile_without_healthcheck |}
              ["Dockerfile"] _ eq_refl eq_refl) as (r & Hr & Hp & _).
  exists r. split; [exact Hr | exact Hp].
Defined.

Lemma design_principles_violations_witness :
  exists r,
    Runner.test_01a_design_principles
      {| Runner.project_root := "."; Runner.tree := must_compliant |}
    = [("01A", r)]
    /\ Forall (fun v => RuleViolation.severity v = MUST)
              (RuleTestResult.violations r).
Proof.
  destruct (@design_principles_violations
              {| Runner.project_root := "."; Runner.tree := must_compliant |}
              must_compliant_well_formed) as (r & Hr & _ & _ & _ & _ & Hm).
  exists r. split; [exact Hr | exact Hm].
Defined.

Lemma cicd_violations_witness :
  exists r,
    Runner.test_09a_cicd_pipelines
      {| Runner.project_root := ".";
         Runner.tree := workflow_without_security |} = Ok [("09A", r)]
    /\ (RuleTestResult.passed r = false ->
        RuleTestResult.violations r = [Runner.v_09A_001]).
Proof.
  destruct (@cicd_violations
              {| Runner.project_root := ".";
                 Runner.tree := workflow_without_security |} _ eq_refl)
    as (r & Hr & _ & Hf & _).
  exists r. split; [now rewrite <- Hr | exact Hf].
Defined.

Lemma violations_well_tagged_witness :
  exists results,
    Runner.run_all_tests empty_project = Ok results
    /\ Forall
         (fun kv =>
            Forall (fun v =>
                      RuleViolation.severity v = MUST
                      \/ RuleViolation.severity v = SHOULD)
                   (RuleTestResult.violations (snd kv)))
         results.
Proof.
  eexists. split; [reflexivity|].
  eapply Forall_impl;
    [|exact (@violations_well_tagged empty_project _ eq_refl)].
  intros kv [H _]. eapply Forall_impl; [|exact H]. now intros v [Hv _].
Defined.

Lemma report_in_registration_order_witness :
  exists results,
    Runner.run_all_tests empty_project = Ok results
    /\ Report.sorted_items results = results.
Proof.
  eexists. split; [reflexivity|].
  exact (proj1 (@report_in_registration_order empty_project _ eq_refl)).
Defined.
